(** * trueanalytics: data ingestion and aggregation engine (utils.py)

    A shallow embedding of [src/utils.py].  A pandas DataFrame is a list of
    rows in index order; a cell is a string or the null value (NaN / None);
    a Python call that may raise returns a [pyresult].  Behaviour that
    belongs to pandas and numpy rather than to this repository (date
    parsing and formatting, the default [kind='quicksort'] of
    [sort_values]) is taken through two interfaces, [DateLib] and
    [SortKind]: the theorems hold for every date library and for every
    sorting algorithm that keeps [SortContract].

    The definitions come first: the program, then what the specification
    speaks of, the sorting algorithms, a date library and sample data to
    run the program on.  The proofs follow.

    Percentages: a float64 is the rational number it denotes, and every
    float operation gives the float64 nearest to its exact result
    ([fl]); [round(x, 2)] gives the number of hundredths Python and numpy
    give.  Dates: [pd.to_datetime] on a column guesses one format from
    the first value and reads every value with it, as pandas 2 does.
    Sorting: numpy's quicksort for generic element types, which sorts the
    object columns, is embedded step by step ([numpy_quicksort]). *)

From Stdlib Require Import String Ascii ZArith QArith Qround Qpower Lia Lqa Bool
  Arith PeanoNat List Permutation Sorted.
Import ListNotations.
Local Open Scope nat_scope.
Local Open Scope string_scope.

(* ------------------------------------------------------------------ *)
(** ** Python values and exceptions *)

(** A cell of a DataFrame column of object dtype: [None] is NaN / None. *)
Definition cell := option string.

(** [series == s] for a string scalar [s]: NaN never compares equal. *)
Definition cell_eq_str (c : cell) (s : string) : bool :=
  match c with
  | Some x => String.eqb x s
  | None => false
  end.

(** [series == v] where [v] was taken out of the same column (a value of
    [unique()]): comparing with NaN is False on every row. *)
Definition cell_eq (c v : cell) : bool :=
  match v with
  | Some s => cell_eq_str c s
  | None => false
  end.

(** Identity of values as [unique()] and [drop_duplicates()] see it: all
    NaN are one value. *)
Definition cell_same (a b : cell) : bool :=
  match a, b with
  | Some x, Some y => String.eqb x y
  | None, None => true
  | _, _ => false
  end.

(** [astype(str)] on a cell. *)
Definition cell_str (c : cell) : string :=
  match c with
  | Some s => s
  | None => "nan"
  end.

Inductive exn : Type :=
| IndexError
| ValueError
| AttributeError
| ZeroDivisionError.

Inductive pyresult (A : Type) : Type :=
| Ok (a : A)
| Raise (e : exn).
Arguments Ok {A} a.
Arguments Raise {A} e.

Definition bind {A B} (m : pyresult A) (k : A -> pyresult B) : pyresult B :=
  match m with
  | Ok a => k a
  | Raise e => Raise e
  end.

Notation "x <- m ;; k" := (bind m (fun x => k))
  (at level 61, m at next level, right associativity).

(** A loop whose body may raise: the first exception ends it. *)
Fixpoint mapM {A B} (f : A -> pyresult B) (l : list A) : pyresult (list B) :=
  match l with
  | [] => Ok []
  | x :: r => y <- f x ;; ys <- mapM f r ;; Ok (y :: ys)
  end.

(** [s.split(sep)] for a one-character separator. *)
Fixpoint str_split (sep : ascii) (s : string) : list string :=
  match s with
  | EmptyString => [EmptyString]
  | String c r =>
      if Ascii.eqb c sep then EmptyString :: str_split sep r
      else match str_split sep r with
           | h :: t => String c h :: t
           | [] => [String c EmptyString]
           end
  end.

(** [l[i]]: IndexError when out of range. *)
Definition getitem {A} (l : list A) (i : nat) : pyresult A :=
  match nth_error l i with
  | Some x => Ok x
  | None => Raise IndexError
  end.

(** [sep.join(l)]. *)
Fixpoint join (sep : string) (l : list string) : string :=
  match l with
  | [] => ""
  | [x] => x
  | x :: r => x ++ sep ++ join sep r
  end.

(** Python truthiness of an optional string argument: [None] and the
    empty string are falsy. *)
Definition truthy (a : option string) : bool :=
  match a with
  | Some s => negb (String.eqb s "")
  | None => false
  end.

(* ------------------------------------------------------------------ *)
(** ** pandas primitives on columns *)

(** [Series.unique()]: values in order of first appearance. *)
Fixpoint unique_from {A} (same : A -> A -> bool) (seen l : list A) : list A :=
  match l with
  | [] => []
  | x :: r =>
      if existsb (same x) seen then unique_from same seen r
      else x :: unique_from same (x :: seen) r
  end.

Definition unique {A} (same : A -> A -> bool) (l : list A) : list A :=
  unique_from same [] l.

(** [len(df[df[col] == v])], and [value_counts().get(v, 0)] which is the
    same number: [value_counts] leaves NaN out and NaN equals nothing. *)
Definition count_eq {R} (col : R -> cell) (v : string) (df : list R) : nat :=
  length (filter (fun r => cell_eq_str (col r) v) df).

(** [df.tail(n)]. *)
Definition tail_rows {R} (n : nat) (df : list R) : list R :=
  skipn (length df - n) df.

(** [sorted(l)] on strings: Python's sort, stable, by code point. *)
Fixpoint insert_sorted (x : string) (l : list string) : list string :=
  match l with
  | [] => [x]
  | y :: r => if String.leb x y then x :: l else y :: insert_sorted x r
  end.

Definition sorted (l : list string) : list string :=
  fold_right insert_sorted [] l.

(** The sorting algorithm behind [sort_values] when the caller passes no
    [kind]: pandas' default is ['quicksort'], numpy's introsort, which the
    pandas documentation does not list among the stable kinds. *)
Class SortKind : Type := {
  argsort : forall {A : Type}, (A -> A -> bool) -> list A -> list A
}.

(** All that is fixed of it: the result is a rearrangement of the input,
    in nondecreasing key order. *)
Record SortContract (SK : SortKind) : Prop := {
  argsort_perm : forall (A : Type) (le : A -> A -> bool) (l : list A),
      Permutation l (argsort le l);
  argsort_sorted : forall (A : Type) (le : A -> A -> bool),
      (forall x y, le x y = true \/ le y x = true) ->
      (forall x y z, le x y = true -> le y z = true -> le x z = true) ->
      forall l, StronglySorted (fun x y => le x y = true) (argsort le l)
}.

(** [df.sort_values(col, ascending=False)] on a column without NaN:
    pandas reverses the rows, sorts ascending, and reverses the result. *)
Definition sort_values_desc `{SortKind} {R} (key : R -> nat) (df : list R)
  : list R :=
  rev (argsort (fun a b => Nat.leb (key a) (key b)) (rev df)).

(** [df.sort_values(col)] on an object column: rows with a NaN key are set
    aside and appended, in their original order, after the sorted rest. *)
Definition key_leb {R} (key : R -> cell) (a b : R) : bool :=
  match key a, key b with
  | Some x, Some y => String.leb x y
  | _, None => true
  | None, Some _ => false
  end.

Definition notna {R} (key : R -> cell) (r : R) : bool :=
  match key r with
  | Some _ => true
  | None => false
  end.

Definition sort_values_asc `{SortKind} {R} (key : R -> cell) (df : list R)
  : list R :=
  argsort (key_leb key) (filter (notna key) df)
    ++ filter (fun r => negb (notna key r)) df.

(* ------------------------------------------------------------------ *)
(** ** Percentages

    The percentages are float64 numbers.  A float64 is taken here as the
    rational number it denotes; what is rounded are ratios of counts and
    percentages, which are not negative and far below the overflow
    threshold. *)

(** Nearest integer, ties to even. *)
Definition round_half_even (q : Q) : Z :=
  let f := Qfloor q in
  match Qcompare (q - inject_Z f)%Q (1 # 2)%Q with
  | Lt => f
  | Gt => (f + 1)%Z
  | Eq => if Z.even f then f else (f + 1)%Z
  end.

Definition pow2 (e : Z) : Q := (2 ^ e)%Q.

(** The exponent [e] with [2^e <= q < 2^(e+1)], for [0 < q]. *)
Definition binade (q : Q) : Z :=
  let e := (Z.log2 (Qnum q) - Z.log2 (Zpos (Qden q)))%Z in
  if Qle_bool (pow2 e) q then e else (e - 1)%Z.

(** The float64 nearest to [q], ties to the even mantissa: 53 bits of
    mantissa, and the spacing [2^-1074] below the normal range. *)
Definition fl (q : Q) : Q :=
  if Qle_bool q 0 then 0%Q
  else
    let ulp := pow2 (Z.max (binade q - 52) (-1074)) in
    (inject_Z (round_half_even (q / ulp)) * ulp)%Q.

(** The relative error of a rounding, [2^-53], and the absolute error
    below the normal range, [2^-1075]. *)
Definition eps : Q := pow2 (-53).
Definition tiny : Q := pow2 (-1075).

(** A bound, [2^-43], on the error of the float64 computation of a
    percentage. *)
Definition slack : Q := 1 # 8796093022208.

(** [a / b] on Python integers: the quotient correctly rounded,
    ZeroDivisionError when [b] is 0. *)
Definition truediv (a b : nat) : pyresult Q :=
  if Nat.eqb b 0 then Raise ZeroDivisionError
  else Ok (fl (inject_Z (Z.of_nat a) / inject_Z (Z.of_nat b)))%Q.

(** [((invalid + indeterminate) / total * 100) if total > 0 else 0] on
    Python integers, as [len] and [shape[0]] give them. *)
Definition percent_of (bad total : nat) : pyresult Q :=
  if Nat.ltb 0 total
  then q <- truediv bad total ;; Ok (fl (q * 100))%Q
  else Ok 0%Q.

(** [round(x, 2)] on a Python float: the decimal of two places nearest to
    the value of [x], ties to even, and then the float64 nearest to that
    decimal.  The embedding keeps the decimal for the float64: 14.37 for
    the float64 that prints as 14.37. *)
Definition round2 (x : Q) : Q :=
  (inject_Z (round_half_even (x * 100)%Q) / 100)%Q.

(** A numpy integer converted to float64. *)
Definition to_float (n : nat) : Q := fl (inject_Z (Z.of_nat n)).

(** The same expression on the counts of [value_counts()]: they are numpy
    integers, and numpy divides after converting both to float64.  (With
    neither status in the group both counts are the Python default 0 and
    the quotient is the Python float 0.0: the same value.  A numpy division
    by 0 gives inf or nan and a warning; the guard keeps it away.) *)
Definition np_percent_of (bad total : nat) : pyresult Q :=
  if Nat.ltb 0 total
  then Ok (fl (fl (to_float bad / to_float total) * 100))%Q
  else Ok 0%Q.

(** [round(x, 2)] on a numpy float64: numpy multiplies by 100.0, rounds to
    the nearest integer, ties to even, and divides by 100.0.  Again the
    decimal stands for the float64 nearest to it.  (On the Python 0.0 and
    the Python 0 of the guard, [round] is Python's and gives 0 as well.) *)
Definition np_round2 (x : Q) : Q :=
  (inject_Z (round_half_even (fl (x * 100))) / 100)%Q.

(* ------------------------------------------------------------------ *)
(** ** The Dataset *)

(** What the embedding uses of pandas' date handling (pandas 2).  [None]
    stands for a parse that raises (ValueError) or, under
    [errors='coerce'], for NaT. *)
Class DateLib : Type := {
  Timestamp : Type;
  (** [pd.to_datetime(s)] on one text *)
  to_datetime : string -> option Timestamp;
  (** [pd.to_datetime(s, format=fmt)] *)
  to_datetime_format : string -> string -> option Timestamp;
  (** the format [pd.to_datetime] guesses from the first text of a
      column, if it can guess one *)
  guess_datetime_format : string -> option string;
  (** [t.strftime(fmt)] *)
  strftime : string -> Timestamp -> string;
  (** [t + pd.Timedelta(days=n)] *)
  add_days : Timestamp -> Z -> Timestamp;
  (** [t1 <= t2] *)
  ts_leb : Timestamp -> Timestamp -> bool
}.

Section Dataset.

Context {DL : DateLib} {SK : SortKind}.

(* ---------------------------------------------------------------- *)
(** *** parse_date *)

(** The three attempts of [parse_date]; the last one is the generic parse
    with [errors='coerce'], which gives NaT where the second raised. *)
Definition parse_date (date_string : string) : option Timestamp :=
  match to_datetime_format "%d-%m-%Y %H:%M:%S" date_string with
  | Some t => Some t
  | None =>
      match to_datetime date_string with
      | Some t => Some t
      | None => to_datetime date_string
      end
  end.

(* ---------------------------------------------------------------- *)
(** *** load_and_process_csv *)

(** A column label of a frame returned by [pd.read_csv]. *)
Inductive label : Type :=
| LStr (s : string)
| LInt (z : Z).

(** A frame as read: its column labels and its rows; a row shorter than
    the header is padded with NaN, as [read_csv] does. *)
Record RawFrame : Type := mkRawFrame {
  columns : list label;
  values : list (list cell)
}.

(** An uploaded file, seen through the two ways the loader reads it;
    [None] is a read that raises. *)
Record UploadedFile : Type := mkUploadedFile {
  read_csv : option RawFrame;
  read_csv_header_None : option RawFrame
}.

(** The seven columns kept from a file, under their new names. *)
Record Selected : Type := mkSelected {
  sel_Test_date_time : cell;
  sel_Profile_id : cell;
  sel_Test_result : cell;
  sel_Test_status : cell;
  sel_Lab_name : cell;
  sel_Truelab_id : cell;
  sel_Lot : cell
}.

(** One row of the combined DataFrame built by [load_and_process_csv]:
    [Test_date_time] is not null ([dropna]), and [Month] and [Week] are
    the strings [strftime] made of it. *)
Record Row : Type := mkRow {
  Test_date_time : Timestamp;
  Profile_id : cell;
  Test_result : cell;
  Test_status : cell;
  Lab_name : cell;
  Truelab_id : cell;
  Lot : cell;
  Month : string;
  Week : string
}.

Definition DataFrame := list Row.

(** [df.empty], and [not l] for a list. *)
Definition empty {R} (df : list R) : bool :=
  match df with
  | [] => true
  | _ :: _ => false
  end.

(** [all(col.startswith('Unnamed') for col in data.columns)]: an integer
    label has no [startswith]. *)
Fixpoint all_startswith_Unnamed (cols : list label) : pyresult bool :=
  match cols with
  | [] => Ok true
  | LStr s :: r =>
      if String.prefix "Unnamed" s then all_startswith_Unnamed r else Ok false
  | LInt _ :: _ => Raise AttributeError
  end.

(** [all(isinstance(col, int) for col in data.columns)]. *)
Definition all_isinstance_int (cols : list label) : bool :=
  forallb (fun c => match c with LInt _ => true | LStr _ => false end) cols.

(** [column_mapping.keys()]: columns A, B, D, E, F, I, J. *)
Definition required_columns : list nat := [0; 1; 3; 4; 5; 8; 9]%nat.

(** The renamed frame, from a way [get] to read position [i] of a row. *)
Definition select (get : list cell -> nat -> cell) (row : list cell) : Selected :=
  mkSelected (get row 0%nat) (get row 1%nat) (get row 3%nat) (get row 4%nat)
    (get row 5%nat) (get row 8%nat) (get row 9%nat).

Definition iloc (row : list cell) (i : nat) : cell := nth i row None.

(** [data.iloc[:, required_columns]] with the columns renamed: IndexError
    when a position is out of bounds. *)
Definition select_direct (data : RawFrame) : pyresult (list Selected) :=
  if forallb (fun i => Nat.ltb i (length (columns data))) required_columns
  then Ok (map (select iloc) (values data))
  else Raise IndexError.

(** The alternative method: column by column, [None] for a position the
    frame does not have.  Assigning [None] to a column of the still empty
    [new_df] leaves it without rows. *)
Definition select_fallback (data : RawFrame) : list Selected :=
  let width := length (columns data) in
  let get row i := if Nat.ltb i width then iloc row i else None in
  if Nat.ltb 0 width then map (select get) (values data) else [].

(** The inner [try]/[except Exception] of the loop body. *)
Definition select_columns (data : RawFrame) : list Selected :=
  match select_direct data with
  | Ok df => df
  | Raise _ => select_fallback data
  end.

(** The body of the loop over the uploaded files; [Raise] is caught by
    the outer [except Exception], which skips the file. *)
Definition load_file (uploaded_file : UploadedFile) : pyresult (list Selected) :=
  match read_csv uploaded_file with
  | None => Raise ValueError
  | Some data =>
      unnamed <- all_startswith_Unnamed (columns data) ;;
      data <- (if unnamed || all_isinstance_int (columns data)
               then match read_csv_header_None uploaded_file with
                    | Some data => Ok data
                    | None => Raise ValueError
                    end
               else Ok data) ;;
      Ok (select_columns data)
  end.

(** [all_data] after the loop. *)
Fixpoint load_all (uploaded_files : list UploadedFile) : list (list Selected) :=
  match uploaded_files with
  | [] => []
  | f :: r =>
      match load_file f with
      | Ok data => data :: load_all r
      | Raise _ => load_all r
      end
  end.

(** The first value of a column that is not null. *)
Fixpoint first_valid (col : list cell) : option string :=
  match col with
  | [] => None
  | Some s :: _ => Some s
  | None :: r => first_valid r
  end.

(** [pd.to_datetime(col, errors='coerce')] on a column of texts: pandas
    guesses a format from the first value that is not null and reads every
    value with that format, a value that does not fit it becoming NaT; when
    it can guess no format it reads each value on its own. *)
Definition read_with (first : option string) : string -> option Timestamp :=
  match first with
  | Some s =>
      match guess_datetime_format s with
      | Some fmt => to_datetime_format fmt
      | None => to_datetime
      end
  | None => to_datetime
  end.

Definition to_datetime_coerce (col : list cell) : list (option Timestamp) :=
  let read := read_with (first_valid col) in
  map (fun c => match c with
                | Some s => read s
                | None => None
                end) col.

(** [dropna(subset=['Test_date_time'])] and the two derived columns, on
    one row and its date. *)
Definition build_row (r : Selected) (date : option Timestamp) : list Row :=
  match date with
  | Some t =>
      [mkRow t (sel_Profile_id r) (sel_Test_result r) (sel_Test_status r)
         (sel_Lab_name r) (sel_Truelab_id r) (sel_Lot r)
         (strftime "%Y-%m" t) (strftime "%Y-%U" t)]
  | None => []
  end.

Definition build_rows (combined_df : list Selected) : list Row :=
  let dates := to_datetime_coerce (map sel_Test_date_time combined_df) in
  flat_map (fun rd => build_row (fst rd) (snd rd)) (combine combined_df dates).

Definition load_and_process_csv (uploaded_files : list UploadedFile)
  : option DataFrame :=
  if empty uploaded_files then None else
  let all_data := load_all uploaded_files in
  if empty all_data then None else
  let combined_df := concat all_data in
  Some (build_rows combined_df).

(* ---------------------------------------------------------------- *)
(** *** Filters shared by the four analyses *)

(** [if selected and selected != sentinel: df = df[df[col] == selected]]. *)
Definition filter_by (col : Row -> cell) (sentinel : string)
  (selected : option string) (df : DataFrame) : DataFrame :=
  match selected with
  | Some s =>
      if truthy selected && negb (String.eqb s sentinel)
      then filter (fun r => cell_eq_str (col r) s) df
      else df
  | None => df
  end.

Definition filter_profile := filter_by Profile_id "All".
Definition filter_lab := filter_by Lab_name "All Labs".

(* ---------------------------------------------------------------- *)
(** *** profile_id_analysis *)

Record Summary : Type := mkSummary {
  Total_Runs : nat;
  Total_Invalids : nat;
  Total_Indeterminates : nat;
  Overall_Invalid_Indeterminate_pct : Q
}.

Record LabRow : Type := mkLabRow {
  Lab_Name : cell;
  Truelab_ID : string;
  Total_Tests : nat;
  Total_Detected : nat;
  lab_Total_Invalid_Indeterminate : nat;
  lab_Invalid_Indeterminate_pct : Q;
  Last_10_runs_Invalid_Indeterminate_pct : Q
}.

(** One turn of the loop over the labs. *)
Definition lab_entry (df : DataFrame) (lab_name : cell) : pyresult LabRow :=
  let lab_df := filter (fun r => cell_eq (Lab_name r) lab_name) df in
  let total_tests := length lab_df in
  let total_detected := count_eq Test_result "Detected" lab_df in
  let total_invalid := count_eq Test_status "Invalid" lab_df in
  let total_indeterminate := count_eq Test_status "Indeterminate" lab_df in
  invalid_percent <-
    np_percent_of (total_invalid + total_indeterminate) total_tests ;;
  let last_10 := tail_rows 10 lab_df in
  last_10_invalid_percent <-
    (if negb (empty last_10)
     then np_percent_of
            (count_eq Test_status "Invalid" last_10
             + count_eq Test_status "Indeterminate" last_10)
            (length last_10)
     else Ok 0%Q) ;;
  let truelab_ids :=
    join ", " (map cell_str (unique cell_same (map Truelab_id lab_df))) in
  Ok (mkLabRow lab_name truelab_ids total_tests total_detected
        (total_invalid + total_indeterminate)
        (np_round2 invalid_percent) (np_round2 last_10_invalid_percent)).

Definition ProfileResult : Type := option Summary * option (list LabRow).

(** The body of [profile_id_analysis], from the frame it finds in
    [st.session_state.data]. *)
Definition profile_summary (df : option DataFrame)
  (selected_profile_id : option string) : pyresult ProfileResult :=
  match df with
  | None => Ok (None, None)
  | Some df =>
      if empty df then Ok (None, None) else
      let df := filter_profile selected_profile_id df in
      if empty df then Ok (None, None) else
      let total_runs := length df in
      let total_invalids := count_eq Test_status "Invalid" df in
      let total_indeterminates := count_eq Test_status "Indeterminate" df in
      invalid_indeterminate_percent <-
        np_percent_of (total_invalids + total_indeterminates) total_runs ;;
      let summary_data :=
        mkSummary total_runs total_invalids total_indeterminates
          (np_round2 invalid_indeterminate_percent) in
      lab_data <- mapM (lab_entry df) (unique cell_same (map Lab_name df)) ;;
      Ok (Some summary_data, Some lab_data)
  end.

(** The arguments of a call, the key of [functools.lru_cache]. *)
Definition CacheKey : Type := option Z * option string.

Definition key_eqb (a b : CacheKey) : bool :=
  match fst a, fst b with
  | Some x, Some y => Z.eqb x y
  | None, None => true
  | _, _ => false
  end
  &&
  match snd a, snd b with
  | Some x, Some y => String.eqb x y
  | None, None => true
  | _, _ => false
  end.

(** The state [profile_id_analysis] runs in: the frame held by
    [st.session_state.data] and the entries of its [lru_cache], most
    recently used first. *)
Record Session : Type := mkSession {
  session_data : option DataFrame;
  cache : list (CacheKey * ProfileResult)
}.

Definition maxsize : nat := 32.

Definition cache_get (k : CacheKey) (c : list (CacheKey * ProfileResult))
  : option ProfileResult :=
  match find (fun e => key_eqb (fst e) k) c with
  | Some e => Some (snd e)
  | None => None
  end.

(** [@functools.lru_cache(maxsize=32)] around the body: a hit returns the
    stored result and makes the entry the most recent; a miss runs the
    body on the session's frame, stores the result and evicts the least
    recently used entry when the cache is full.  A call that raises
    stores nothing. *)
Definition profile_id_analysis (df_hash : option Z)
  (selected_profile_id : option string) (st : Session)
  : pyresult ProfileResult * Session :=
  let k := (df_hash, selected_profile_id) in
  match cache_get k (cache st) with
  | Some r =>
      (Ok r, mkSession (session_data st)
               ((k, r) :: filter (fun e => negb (key_eqb (fst e) k)) (cache st)))
  | None =>
      match profile_summary (session_data st) selected_profile_id with
      | Ok r =>
          (Ok r, mkSession (session_data st) (firstn maxsize ((k, r) :: cache st)))
      | Raise e => (Raise e, st)
      end
  end.

(* ---------------------------------------------------------------- *)
(** *** lot_specific_analysis *)

Record LotRow : Type := mkLotRow {
  Lot_Number : cell;
  lot_Total_Runs : nat;
  lot_Total_Invalid_Indeterminate : nat;
  lot_Invalid_Indeterminate_pct : Q
}.

(** One turn of the loop over the lots. *)
Definition lot_entry (df : DataFrame) (lot_number : cell) : pyresult LotRow :=
  let lot_df := filter (fun r => cell_eq (Lot r) lot_number) df in
  let total_runs := length lot_df in
  let total_invalid := count_eq Test_status "Invalid" lot_df in
  let total_indeterminate := count_eq Test_status "Indeterminate" lot_df in
  invalid_percent <-
    percent_of (total_invalid + total_indeterminate) total_runs ;;
  Ok (mkLotRow lot_number total_runs (total_invalid + total_indeterminate)
        (round2 invalid_percent)).

Definition lot_specific_analysis (df : option DataFrame)
  (selected_profile_id : option string)
  : pyresult (option (list LotRow) * option (list LotRow)) :=
  match df with
  | None => Ok (None, None)
  | Some df =>
      if empty df then Ok (None, None) else
      let df := filter_profile selected_profile_id df in
      if empty df then Ok (None, None) else
      lot_df <- mapM (lot_entry df) (unique cell_same (map Lot df)) ;;
      if negb (empty lot_df) && Nat.ltb 0 (length lot_df)
      then Ok (Some lot_df,
               Some (firstn 20 (sort_values_desc lot_Total_Runs lot_df)))
      else Ok (Some lot_df, None)
  end.

(* ---------------------------------------------------------------- *)
(** *** trend_analysis *)

Record TrendRow : Type := mkTrendRow {
  trend_date : Timestamp;
  trend_Total_Runs : nat;
  trend_Total_Invalid : nat;
  trend_Total_Indeterminate : nat;
  trend_Total_Invalid_Indeterminate : nat
}.

(** One group of [df.groupby(col).agg(...)] with the sum column added;
    the key is still the string. *)
Record TrendGroup : Type := mkTrendGroup {
  group_key : string;
  group_Total_Runs : nat;
  group_Total_Invalid : nat;
  group_Total_Indeterminate : nat;
  group_Total_Invalid_Indeterminate : nat
}.

(** [df.groupby(col).agg(...).reset_index()]: one row per key, keys in
    sorted order. *)
Definition groupby_agg (col : Row -> string) (df : DataFrame) : list TrendGroup :=
  map (fun k =>
         let g := filter (fun r => String.eqb (col r) k) df in
         let total_invalid := count_eq Test_status "Invalid" g in
         let total_indeterminate := count_eq Test_status "Indeterminate" g in
         mkTrendGroup k (length g) total_invalid total_indeterminate
           (total_invalid + total_indeterminate))
      (sorted (unique String.eqb (map col df))).

(** Replace the key column by the dates [parse] makes of it: ValueError
    at the first key it cannot read. *)
Definition convert_keys (parse : string -> option Timestamp)
  (groups : list (string * TrendGroup)) : pyresult (list TrendRow) :=
  mapM (fun kg =>
          match parse (fst kg) with
          | Some t =>
              Ok (mkTrendRow t (group_Total_Runs (snd kg))
                    (group_Total_Invalid (snd kg))
                    (group_Total_Indeterminate (snd kg))
                    (group_Total_Invalid_Indeterminate (snd kg)))
          | None => Raise ValueError
          end) groups.

Definition sort_by_date (rows : list TrendRow) : list TrendRow :=
  argsort (fun a b => ts_leb (trend_date a) (trend_date b)) rows.

(** [f"{x.split('-')[0]}-W{x.split('-')[1]}-1"]. *)
Definition week_to_text (x : string) : pyresult string :=
  y <- getitem (str_split "-" x) 0 ;;
  w <- getitem (str_split "-" x) 1 ;;
  Ok (y ++ "-W" ++ w ++ "-1").

Definition trend_analysis (df : option DataFrame)
  (selected_profile_id selected_lab : option string)
  : pyresult (option (list TrendRow) * option (list TrendRow)) :=
  match df with
  | None => Ok (None, None)
  | Some df =>
      if empty df then Ok (None, None) else
      let df := filter_profile selected_profile_id df in
      let df := filter_lab selected_lab df in
      if empty df then Ok (None, None) else
      let monthly_groups := groupby_agg Month df in
      monthly_data <-
        convert_keys to_datetime
          (map (fun g => (group_key g ++ "-01", g)) monthly_groups) ;;
      let monthly_data := sort_by_date monthly_data in
      let weekly_groups := groupby_agg Week df in
      weekly_keys <- mapM (fun g => week_to_text (group_key g)) weekly_groups ;;
      weekly_data <-
        convert_keys (to_datetime_format "%Y-W%U-%w")
          (combine weekly_keys weekly_groups) ;;
      let weekly_data := sort_by_date weekly_data in
      Ok (Some monthly_data, Some weekly_data)
  end.

(* ---------------------------------------------------------------- *)
(** *** weekly_analysis *)

Record WeeklyRow : Type := mkWeeklyRow {
  wk_Week : string;
  wk_Date_Range : string;
  wk_Lab_Name : cell;
  wk_Total_Runs : nat;
  wk_Total_Invalid_Indeterminate : nat;
  wk_Invalid_Indeterminate_pct : Q
}.

(** The body of the [try]: the week's Monday to Sunday as text. *)
Definition week_date_range (week : string) : pyresult string :=
  year <- getitem (str_split "-" week) 0 ;;
  week_num <- getitem (str_split "-" week) 1 ;;
  match to_datetime_format "%Y-%U-%w" (year ++ "-" ++ week_num ++ "-1") with
  | None => Raise ValueError
  | Some week_start =>
      let week_end := add_days week_start 6 in
      Ok (strftime "%d-%m-%Y" week_start ++ " to " ++ strftime "%d-%m-%Y" week_end)
  end.

(** [try: ... except (IndexError, ValueError): date_range = f"Week {week}"]. *)
Definition date_range_of (week : string) : pyresult string :=
  match week_date_range week with
  | Ok s => Ok s
  | Raise IndexError => Ok ("Week " ++ week)
  | Raise ValueError => Ok ("Week " ++ week)
  | Raise e => Raise e
  end.

(** [f"{week.split('-')[0]} Week {week.split('-')[1]}"], inside the loop
    over the labs and outside the [try]. *)
Definition week_display_of (week : string) : pyresult string :=
  y <- getitem (str_split "-" week) 0 ;;
  w <- getitem (str_split "-" week) 1 ;;
  Ok (y ++ " Week " ++ w).

(** One turn of the loop over the labs of a week. *)
Definition lab_week_entry (week date_range : string) (week_df : DataFrame)
  (lab_name : cell) : pyresult WeeklyRow :=
  let lab_week_df := filter (fun r => cell_eq (Lab_name r) lab_name) week_df in
  let total_runs := length lab_week_df in
  let total_invalid := count_eq Test_status "Invalid" lab_week_df in
  let total_indeterminate := count_eq Test_status "Indeterminate" lab_week_df in
  invalid_percent <-
    percent_of (total_invalid + total_indeterminate) total_runs ;;
  week_display <- week_display_of week ;;
  Ok (mkWeeklyRow week_display date_range lab_name total_runs
        (total_invalid + total_indeterminate) (round2 invalid_percent)).

(** One turn of the loop over the weeks: the rows it appends. *)
Definition week_entries (df : DataFrame) (week : string)
  : pyresult (list WeeklyRow) :=
  let week_df := filter (fun r => String.eqb (Week r) week) df in
  date_range <- date_range_of week ;;
  mapM (lab_week_entry week date_range week_df)
    (unique cell_same (map Lab_name week_df)).

(** [weekly_lab_data] after the two loops. *)
Definition weekly_lab_data (df : DataFrame) : pyresult (list WeeklyRow) :=
  per_week <-
    mapM (week_entries df) (sorted (unique String.eqb (map Week df))) ;;
  Ok (concat per_week).

Definition weekly_analysis (df : option DataFrame)
  (selected_profile_id selected_lab : option string)
  : pyresult (option (list WeeklyRow)) :=
  match df with
  | None => Ok None
  | Some df =>
      if empty df then Ok None else
      let df := filter_profile selected_profile_id df in
      let df := filter_lab selected_lab df in
      if empty df then Ok None else
      df_result <- weekly_lab_data df ;;
      Ok (Some (if negb (empty df_result)
                then sort_values_asc wk_Lab_Name df_result
                else df_result))
  end.

End Dataset.

(* ------------------------------------------------------------------ *)
(** ** What the specification speaks of *)

(** [c in s]. *)
Fixpoint contains (c : ascii) (s : string) : bool :=
  match s with
  | EmptyString => false
  | String x r => Ascii.eqb x c || contains c r
  end.

Section Specification.

Context {DL : DateLib}.

(** The rows of a group whose status is Invalid or Indeterminate. *)
Definition invalid_indeterminate (group : DataFrame) : nat :=
  count_eq Test_status "Invalid" group
  + count_eq Test_status "Indeterminate" group.

(** The percentage of [bad] rows out of [total], before rounding. *)
Definition exact_percent (bad total : nat) : Q :=
  (inject_Z (Z.of_nat bad) / inject_Z (Z.of_nat total) * 100)%Q.

(** A percentage rounded to two decimal places: a number of hundredths
    with no number of hundredths nearer to the exact value.  (When the
    exact value lies halfway between two hundredths, as 14.375 does, both
    are rounded values.) *)
Definition rounded_to_2 (exact pct : Q) : Prop :=
  (exists j : Z, pct == inject_Z j / 100)%Q /\
  (pct - (1 # 200) <= exact)%Q /\ (exact <= pct + (1 # 200))%Q.

(** The invalid/indeterminate percentage of a group of rows, as the
    specification defines it: the share of its Invalid and Indeterminate
    rows times 100, rounded to two decimal places, and 0 for a group
    without rows; a number from 0 to 100.  The rounded value is stated for
    groups of fewer than 2^32 rows: up to there the error of the float64
    operations cannot carry a percentage across a rounding boundary. *)
Definition rate_of (group : DataFrame) (pct : Q) : Prop :=
  (0 < length group -> (Z.of_nat (length group) < 2 ^ 32)%Z ->
   rounded_to_2
     (exact_percent (invalid_indeterminate group) (length group)) pct)
  /\ (length group = 0 -> (pct == 0)%Q)
  /\ (0 <= pct)%Q /\ (pct <= 100)%Q.


(** The group of a row of a per-lab or per-lot table. *)
Definition lab_group (d : DataFrame) (lab_name : cell) : DataFrame :=
  filter (fun r => cell_eq (Lab_name r) lab_name) d.

Definition lot_group (d : DataFrame) (lot_number : cell) : DataFrame :=
  filter (fun r => cell_eq (Lot r) lot_number) d.

(** The group a row of the weekly table was computed over. *)
Definition week_lab_group (df : DataFrame) (week : string) (lab_name : cell)
  : DataFrame :=
  filter (fun r => cell_eq (Lab_name r) lab_name)
    (filter (fun r => String.eqb (Week r) week) df).


(** The keys of a row convert: its month is read back as a date, and its
    week splits and is read back as a date. *)
Definition key_converts (r : Row) : bool :=
  match to_datetime (Month r ++ "-01") with
  | None => false
  | Some _ =>
      match week_to_text (Week r) with
      | Raise _ => false
      | Ok t =>
          match to_datetime_format "%Y-W%U-%w" t with
          | Some _ => true
          | None => false
          end
      end
  end.





(** Every stored result is what the body returns on the session's frame
    for the stored profile filter. *)
Definition coherent (st : Session) : Prop :=
  forall k r, cache_get k (cache st) = Some r ->
              profile_summary (session_data st) (snd k) = Ok r.

End Specification.

(** The seven fields and the position each is read from. *)
Definition source_positions : list (nat * (Selected -> cell)) :=
  [(0, sel_Test_date_time); (1, sel_Profile_id); (3, sel_Test_result);
   (4, sel_Test_status); (5, sel_Lab_name); (8, sel_Truelab_id);
   (9, sel_Lot)].

(** The rows of a Lot Summary with [n] runs, in the order of the summary,
    which is the order of first appearance of their lots. *)
Definition lots_with_runs (n : nat) (lots : list LotRow) : list LotRow :=
  filter (fun row => Nat.eqb (lot_Total_Runs row) n) lots.

(** A session that holds a Dataset and has cached nothing yet. *)
Definition fresh_session {DL : DateLib} (df : DataFrame) : Session :=
  mkSession (Some df) [].


(* ------------------------------------------------------------------ *)
(** ** Sorting algorithms *)

(** Insertion sort; [before x y] says that a new [x] stops in front of
    [y].  With [before := le] equal keys keep their input order. *)
Fixpoint insert_by {A} (before : A -> A -> bool) (x : A) (l : list A) : list A :=
  match l with
  | [] => [x]
  | y :: r => if before x y then x :: l else y :: insert_by before x r
  end.

Definition isort {A} (before : A -> A -> bool) (l : list A) : list A :=
  fold_right (insert_by before) [] l.

(** A stable algorithm. *)
Definition stable_sort : SortKind :=
  {| argsort := fun A le l => isort le l |}.

(** *** numpy's quicksort

    [kind='quicksort'] on an array without a vectorised kernel, as arrays
    of Python objects are (numpy's [npy_aquicksort], file
    npysort/quicksort.cpp): an introsort on the array [tosort] of
    positions.  Ranges of more than 17 positions are partitioned around
    the median of their first, middle and last value, the larger part is
    put on a stack, shorter ranges are sorted by insertion, and a range
    reached after more than [2 * log2 num] partitions is sorted by
    heapsort.  [pl], [pr], [pi], [pj] are the positions the C pointers of
    the same names point to. *)
Section Introsort.

Context {A : Type} (less : A -> A -> bool) (v : list A).

(** [less(v[i], v[j])]. *)
Definition less_at (i j : nat) : bool :=
  match nth_error v i, nth_error v j with
  | Some x, Some y => less x y
  | _, _ => false
  end.

Definition get (a : list nat) (p : Z) : nat := nth (Z.to_nat p) a 0.

Fixpoint set_nth (a : list nat) (n x : nat) : list nat :=
  match a, n with
  | [], _ => []
  | _ :: r, O => x :: r
  | y :: r, S n => y :: set_nth r n x
  end.

Definition set (a : list nat) (p : Z) (x : nat) : list nat :=
  set_nth a (Z.to_nat p) x.

(** [INTP_SWAP] of the entries at [p] and [q]. *)
Definition swap (a : list nat) (p q : Z) : list nat :=
  let x := get a p in
  let y := get a q in
  set (set a p y) q x.

(** [do { ++pi; } while (less(v[*pi], vp))], [vp] being the value at
    position [p] of [v]. *)
Fixpoint scan_up (fuel : nat) (a : list nat) (p : nat) (pi : Z) : Z :=
  match fuel with
  | O => pi
  | S f =>
      let pi := (pi + 1)%Z in
      if less_at (get a pi) p then scan_up f a p pi else pi
  end.

(** [do { --pj; } while (less(vp, v[*pj]))]. *)
Fixpoint scan_down (fuel : nat) (a : list nat) (p : nat) (pj : Z) : Z :=
  match fuel with
  | O => pj
  | S f =>
      let pj := (pj - 1)%Z in
      if less_at p (get a pj) then scan_down f a p pj else pj
  end.

(** The [for (;;)] of the partition. *)
Fixpoint partition_loop (fuel : nat) (a : list nat) (p : nat) (pi pj : Z)
  : list nat * Z :=
  match fuel with
  | O => (a, pi)
  | S f =>
      let pi := scan_up (length a) a p pi in
      let pj := scan_down (length a) a p pj in
      if (pi >=? pj)%Z then (a, pi)
      else partition_loop f (swap a pi pj) p pi pj
  end.

(** One partition of the range [pl .. pr]: the array after it and the
    place of the pivot. *)
Definition pivot_partition (a : list nat) (pl pr : Z) : list nat * Z :=
  let pm := (pl + (pr - pl) / 2)%Z in
  let a := if less_at (get a pm) (get a pl) then swap a pm pl else a in
  let a := if less_at (get a pr) (get a pm) then swap a pr pm else a in
  let a := if less_at (get a pm) (get a pl) then swap a pm pl else a in
  let p := get a pm in
  let a := swap a pm (pr - 1) in
  let '(a, pi) := partition_loop (length a) a p pl (pr - 1) in
  (swap a pi (pr - 1), pi).

(** The [while ((pr - pl) > SMALL_QUICKSORT)] loop with its pushes on the
    stack; [SMALL_QUICKSORT] is 16. *)
Fixpoint partitions (fuel : nat) (a : list nat) (pl pr cdepth : Z)
  (stack : list (Z * Z * Z)) : list nat * Z * Z * list (Z * Z * Z) :=
  match fuel with
  | O => (a, pl, pr, stack)
  | S f =>
      if (pr - pl >? 16)%Z then
        let '(a, pi) := pivot_partition a pl pr in
        let cdepth := (cdepth - 1)%Z in
        if (pi - pl <? pr - pi)%Z
        then partitions f a pl (pi - 1) cdepth ((pi + 1, pr, cdepth)%Z :: stack)
        else partitions f a (pi + 1) pr cdepth ((pl, pi - 1, cdepth)%Z :: stack)
      else (a, pl, pr, stack)
  end.

(** The inner [while] of the insertion sort, and [*pj = vi] after it. *)
Fixpoint shift_down (fuel : nat) (a : list nat) (vi : nat) (pl pj : Z)
  : list nat :=
  match fuel with
  | O => set a pj vi
  | S f =>
      if (pj >? pl)%Z && less_at vi (get a (pj - 1))
      then shift_down f (set a pj (get a (pj - 1))) vi pl (pj - 1)
      else set a pj vi
  end.

Fixpoint insertion_loop (fuel : nat) (a : list nat) (pl pi pr : Z)
  : list nat :=
  match fuel with
  | O => a
  | S f =>
      if (pi <=? pr)%Z
      then insertion_loop f (shift_down (length a) a (get a pi) pl pi)
             pl (pi + 1) pr
      else a
  end.

Definition insertion_sort (a : list nat) (pl pr : Z) : list nat :=
  insertion_loop (length a) a pl (pl + 1) pr.

(** [npy_aheapsort] on the [n] positions from [pl] on; [a[k]] of the C
    code, which counts from 1, is position [pl + k - 1]. *)
Definition hget (a : list nat) (pl k : Z) : nat := get a (pl + k - 1).

Definition hset (a : list nat) (pl k : Z) (x : nat) : list nat :=
  set a (pl + k - 1) x.

(** [for (i = .., j = ..; j <= n;) { ... }] and [a[i] = tmp] after it. *)
Fixpoint sift (fuel : nat) (a : list nat) (pl : Z) (tmp : nat) (i j n : Z)
  : list nat :=
  match fuel with
  | O => hset a pl i tmp
  | S f =>
      if (j <=? n)%Z then
        let j := if (j <? n)%Z && less_at (hget a pl j) (hget a pl (j + 1))
                 then (j + 1)%Z else j in
        if less_at tmp (hget a pl j)
        then sift f (hset a pl i (hget a pl j)) pl tmp j (j + j) n
        else hset a pl i tmp
      else hset a pl i tmp
  end.

Fixpoint build_heap (fuel : nat) (a : list nat) (pl l n : Z) : list nat :=
  match fuel with
  | O => a
  | S f =>
      if (l >? 0)%Z
      then build_heap f (sift (length a) a pl (hget a pl l) l (2 * l) n)
             pl (l - 1) n
      else a
  end.

Fixpoint drain_heap (fuel : nat) (a : list nat) (pl n : Z) : list nat :=
  match fuel with
  | O => a
  | S f =>
      if (n >? 1)%Z then
        let tmp := hget a pl n in
        let a := hset a pl n (hget a pl 1) in
        let n := (n - 1)%Z in
        drain_heap f (sift (length a) a pl tmp 1 2 n) pl n
      else a
  end.

Definition aheapsort (a : list nat) (pl n : Z) : list nat :=
  drain_heap (length a) (build_heap (length a) a pl (n / 2) n) pl n.

(** The [while (1)] loop: one range at a time, then the next one from the
    stack. *)
Fixpoint introsort_loop (fuel : nat) (a : list nat) (pl pr cdepth : Z)
  (stack : list (Z * Z * Z)) : list nat :=
  match fuel with
  | O => a
  | S f =>
      let '(a, stack) :=
        if (cdepth <? 0)%Z
        then (aheapsort a pl (pr - pl + 1), stack)
        else
          let '(a, pl, pr, stack) :=
            partitions (length a) a pl pr cdepth stack in
          (insertion_sort a pl pr, stack) in
      match stack with
      | [] => a
      | (pl, pr, cdepth) :: stack => introsort_loop f a pl pr cdepth stack
      end
  end.

(** [npy_aquicksort(v, tosort, num)] with [tosort] = 0, 1, ..., num - 1. *)
Definition aquicksort : list nat :=
  let num := length v in
  introsort_loop (S num) (seq 0 num) 0 (Z.of_nat num - 1)
    (2 * Z.log2 (Z.of_nat num)) [].

End Introsort.

(** [values.argsort(kind='quicksort')], and the values in that order; a
    value is less than another when the other is not at most it.  This
    is the routine numpy runs on object columns such as Lab Name.  For
    integer columns numpy may pick a vectorised quicksort by processor,
    which is not stable either and is not embedded here. *)
Definition numpy_quicksort : SortKind :=
  {| argsort := fun A le l =>
       flat_map (fun i => match nth_error l i with
                          | Some x => [x]
                          | None => []
                          end)
         (aquicksort (fun x y => negb (le y x)) l) |}.

(* ------------------------------------------------------------------ *)
(** ** A date library for running the embedding

    An implementation of [DateLib] on the proleptic Gregorian calendar,
    for the date texts and formats the program uses: a timestamp is a
    number of seconds since 1970-01-01 00:00:00.  The generic parse reads
    ISO dates and, as pandas does by default ([dayfirst=False]), reads
    NN-NN-YYYY month first unless the first number cannot be a month. *)

Module Calendar.

Local Open Scope Z_scope.

Definition days_from_civil (y m d : Z) : Z :=
  let y' := if m <=? 2 then y - 1 else y in
  let era := y' / 400 in
  let yoe := y' - era * 400 in
  let doy := (153 * (if 2 <? m then m - 3 else m + 9) + 2) / 5 + d - 1 in
  let doe := yoe * 365 + yoe / 4 - yoe / 100 + doy in
  era * 146097 + doe - 719468.

(** Year, month and day of a day number. *)
Definition civil_from_days (z : Z) : Z * Z * Z :=
  let z := z + 719468 in
  let era := z / 146097 in
  let doe := z - era * 146097 in
  let yoe := (doe - doe / 1460 + doe / 36524 - doe / 146096) / 365 in
  let doy := doe - (365 * yoe + yoe / 4 - yoe / 100) in
  let mp := (5 * doy + 2) / 153 in
  let d := doy - (153 * mp + 2) / 5 + 1 in
  let m := if mp <? 10 then mp + 3 else mp - 9 in
  let y := yoe + era * 400 in
  (if m <=? 2 then y + 1 else y, m, d).

(** Day of the week of a day number, Sunday = 0. *)
Definition weekday (days : Z) : Z := (days + 4) mod 7.

Definition is_leap (y : Z) : bool :=
  ((y mod 4 =? 0) && negb (y mod 100 =? 0)) || (y mod 400 =? 0).

Definition days_in_month (y m : Z) : Z :=
  if m =? 2 then (if is_leap y then 29 else 28)
  else if (m =? 4) || (m =? 6) || (m =? 9) || (m =? 11) then 30
  else 31.

Definition timestamp_of (y m d hh mm ss : Z) : option Z :=
  if (1 <=? m) && (m <=? 12) && (1 <=? d) && (d <=? days_in_month y m)
     && (hh <? 24) && (mm <? 60) && (ss <? 60)
  then Some (((days_from_civil y m d * 24 + hh) * 60 + mm) * 60 + ss)
  else None.

Definition digit (c : ascii) : option Z :=
  let n := Z.of_nat (nat_of_ascii c) in
  if (48 <=? n) && (n <=? 57) then Some (n - 48) else None.

Fixpoint number_from (acc : Z) (s : string) : option Z :=
  match s with
  | EmptyString => Some acc
  | String c r =>
      match digit c with
      | Some d => number_from (acc * 10 + d) r
      | None => None
      end
  end.

(** A run of at least [lo] and at most [hi] decimal digits. *)
Definition number (lo hi : nat) (s : string) : option Z :=
  if Nat.leb lo (String.length s) && Nat.leb (String.length s) hi
  then number_from 0 s
  else None.

Definition opt_bind {A B} (o : option A) (k : A -> option B) : option B :=
  match o with
  | Some a => k a
  | None => None
  end.

Notation "x <-? o ;; k" := (opt_bind o (fun x => k))
  (at level 61, o at next level, right associativity).

(** HH:MM:SS. *)
Definition clock (s : string) : option (Z * Z * Z) :=
  match str_split ":" s with
  | [h; m; sec] =>
      hh <-? number 1 2 h ;; mm <-? number 1 2 m ;; ss <-? number 1 2 sec ;;
      Some (hh, mm, ss)
  | _ => None
  end.

(** The text after the date: nothing, or a blank and a clock. *)
Definition date_and_clock (s : string) : option (string * (Z * Z * Z)) :=
  match str_split " " s with
  | [date] => Some (date, (0, 0, 0))
  | [date; time] => hms <-? clock time ;; Some (date, hms)
  | _ => None
  end.

Definition with_clock (y m d : Z) (hms : Z * Z * Z) : option Z :=
  let '(hh, mm, ss) := hms in timestamp_of y m d hh mm ss.

(** [format='%d-%m-%Y %H:%M:%S']. *)
Definition parse_dmy_HMS (s : string) : option Z :=
  match str_split " " s with
  | [date; time] =>
      hms <-? clock time ;;
      match str_split "-" date with
      | [d; m; y] =>
          D <-? number 1 2 d ;; M <-? number 1 2 m ;; Y <-? number 4 4 y ;;
          with_clock Y M D hms
      | _ => None
      end
  | _ => None
  end.

(** The date of weekday [w] (Sunday = 0) in week [U] of year [Y], weeks
    starting on Sunday and week 0 holding the days before the first one. *)
Definition date_of_week (Y U w : Z) : Z :=
  let jan1 := days_from_civil Y 1 1 in
  let first_weekday := weekday jan1 in
  let week_0_length := (7 - first_weekday) mod 7 in
  if U =? 0 then jan1 + w - first_weekday
  else jan1 + week_0_length + 7 * (U - 1) + w.

(** [format='%Y-%U-%w'], and ['%Y-W%U-%w'] with [prefix := "W"]. *)
Definition parse_YUw (prefix : string) (s : string) : option Z :=
  match str_split "-" s with
  | [y; u; w] =>
      if String.prefix prefix u then
        Y <-? number 4 4 y ;;
        U <-? number 1 2 (substring (String.length prefix)
                            (String.length u - String.length prefix) u) ;;
        W <-? number 1 1 w ;;
        if (U <=? 53) && (W <=? 6)
        then Some (date_of_week Y U W * 86400)
        else None
      else None
  | _ => None
  end.

(** A date of three numbers in the order of a format, with or without a
    clock. *)
Inductive field_order : Type := DMY | MDY | YMD.

Definition parse_ordered (order : field_order) (timed : bool) (s : string)
  : option Z :=
  dc <-? (match str_split " " s, timed with
          | [date; time], true => hms <-? clock time ;; Some (date, hms)
          | [date], false => Some (date, (0, 0, 0))
          | _, _ => None
          end) ;;
  match str_split "-" (fst dc), order with
  | [d; m; y], DMY =>
      D <-? number 1 2 d ;; M <-? number 1 2 m ;; Y <-? number 4 4 y ;;
      with_clock Y M D (snd dc)
  | [m; d; y], MDY =>
      M <-? number 1 2 m ;; D <-? number 1 2 d ;; Y <-? number 4 4 y ;;
      with_clock Y M D (snd dc)
  | [y; m; d], YMD =>
      Y <-? number 4 4 y ;; M <-? number 1 2 m ;; D <-? number 1 2 d ;;
      with_clock Y M D (snd dc)
  | _, _ => None
  end.

Definition parse_format (fmt s : string) : option Z :=
  if String.eqb fmt "%d-%m-%Y %H:%M:%S" then parse_dmy_HMS s
  else if String.eqb fmt "%m-%d-%Y %H:%M:%S" then parse_ordered MDY true s
  else if String.eqb fmt "%Y-%m-%d %H:%M:%S" then parse_ordered YMD true s
  else if String.eqb fmt "%d-%m-%Y" then parse_ordered DMY false s
  else if String.eqb fmt "%m-%d-%Y" then parse_ordered MDY false s
  else if String.eqb fmt "%Y-%m-%d" then parse_ordered YMD false s
  else if String.eqb fmt "%Y-%U-%w" then parse_YUw "" s
  else if String.eqb fmt "%Y-W%U-%w" then parse_YUw "W" s
  else None.

(** [pd.to_datetime(s)] without a format. *)
Definition parse_generic (s : string) : option Z :=
  dc <-? date_and_clock s ;;
  match str_split "-" (fst dc) with
  | [a; b; c] =>
      match number 4 4 a with
      | Some Y =>
          M <-? number 1 2 b ;; D <-? number 1 2 c ;; with_clock Y M D (snd dc)
      | None =>
          A <-? number 1 2 a ;; B <-? number 1 2 b ;; Y <-? number 4 4 c ;;
          if A <=? 12 then with_clock Y A B (snd dc)
          else with_clock Y B A (snd dc)
      end
  | _ => None
  end.

(** The format guessed from a text: that of a date the generic parse
    reads, when its numbers are written with all their digits (a guess
    is kept only if it writes the date back as the text). *)
Definition two_digits (s : string) : bool := Nat.eqb (String.length s) 2.

Definition guess_format (s : string) : option string :=
  match parse_generic s with
  | None => None
  | Some _ =>
      match str_split " " s with
      | date :: rest =>
          let clock_format :=
            match rest with
            | [time] =>
                if forallb two_digits (str_split ":" time)
                then Some " %H:%M:%S" else None
            | _ => Some ""
            end in
          let date_format :=
            match str_split "-" date with
            | [a; b; c] =>
                if two_digits b then
                  match number 4 4 a with
                  | Some _ => if two_digits c then Some "%Y-%m-%d" else None
                  | None =>
                      if two_digits a then
                        match number 1 2 a with
                        | Some A =>
                            Some (if A <=? 12 then "%m-%d-%Y" else "%d-%m-%Y")
                        | None => None
                        end
                      else None
                  end
                else None
            | _ => None
            end in
          match date_format, clock_format with
          | Some d, Some c => Some (d ++ c)
          | _, _ => None
          end
      | [] => None
      end
  end.

Fixpoint digits (width : nat) (n : Z) (acc : string) : string :=
  match width with
  | O => acc
  | S w =>
      digits w (n / 10)
        (String (ascii_of_nat (48 + Z.to_nat (n mod 10))) acc)
  end.

Definition pad (width : nat) (n : Z) : string := digits width n "".

(** [%U]: the week of the year, weeks starting on Sunday. *)
Definition week_of_year (days : Z) : Z :=
  let '(y, _, _) := civil_from_days days in
  let yday := days - days_from_civil y 1 1 in
  (yday + 7 - weekday days) / 7.

Definition format (fmt : string) (t : Z) : string :=
  let days := t / 86400 in
  let '(y, m, d) := civil_from_days days in
  if String.eqb fmt "%Y-%m" then pad 4 y ++ "-" ++ pad 2 m
  else if String.eqb fmt "%Y-%U" then pad 4 y ++ "-" ++ pad 2 (week_of_year days)
  else if String.eqb fmt "%d-%m-%Y" then pad 2 d ++ "-" ++ pad 2 m ++ "-" ++ pad 4 y
  else fmt.

#[local] Instance dates : DateLib := {|
  Timestamp := Z;
  to_datetime := parse_generic;
  to_datetime_format := parse_format;
  guess_datetime_format := guess_format;
  strftime := format;
  add_days := fun t n => t + n * 86400;
  ts_leb := Z.leb
|}.

End Calendar.

(* ------------------------------------------------------------------ *)
(** ** Sample data *)

Definition sample_row (profile status lab lot month week : string)
  : @Row Calendar.dates :=
  @mkRow Calendar.dates 0%Z (Some profile) (Some "Detected") (Some status)
    (Some lab) (Some "TL-1") (Some lot) month week.

(** Two invalid runs of lab A on lot L1 and one valid run of lab B on lot
    L2, all of profile P1 and of January 2024. *)
Definition three_runs : @DataFrame Calendar.dates :=
  [sample_row "P1" "Invalid" "A" "L1" "2024-01" "2024-01";
   sample_row "P1" "Invalid" "A" "L1" "2024-01" "2024-01";
   sample_row "P1" "Valid" "B" "L2" "2024-01" "2024-02"].

Definition numbered (prefix : string) (n : nat) : string :=
  prefix ++ Calendar.pad 2 (Z.of_nat n).

(** Eighteen lots, L01 to L18 in this order, one run each. *)
Definition eighteen_lots : @DataFrame Calendar.dates :=
  map (fun n => sample_row "P1" "Valid" "A" (numbered "L" n) "2024-01" "2024-01")
    (seq 1 18).

(** A file of one data row under a header of ten named columns. *)
Definition ten_columns : list label :=
  map LStr ["Test date"; "Profile"; "C"; "Result"; "Status"; "Lab"; "G"; "H";
            "Truelab"; "Lot"].

Definition one_row_file (test_time : string) : @UploadedFile :=
  mkUploadedFile
    (Some (mkRawFrame ten_columns
             [[Some test_time; Some "P1"; None; Some "Detected"; Some "Valid";
               Some "A"; None; None; Some "TL-1"; Some "L1"]]))
    None.

(** The cells of one run in a file of ten columns. *)
Definition run_cells (test_time status lab lot : string) : list cell :=
  [Some test_time; Some "P1"; None; Some "Detected"; Some status; Some lab;
   None; None; Some "TL-1"; Some lot].

(** An upload of one file: one lab with one run on each of eighteen
    Mondays, which lie in the weeks 01 to 18 of 2024. *)
Definition mondays : list string :=
  ["2024-01-08 08:00:00"; "2024-01-15 08:00:00"; "2024-01-22 08:00:00";
   "2024-01-29 08:00:00"; "2024-02-05 08:00:00"; "2024-02-12 08:00:00";
   "2024-02-19 08:00:00"; "2024-02-26 08:00:00"; "2024-03-04 08:00:00";
   "2024-03-11 08:00:00"; "2024-03-18 08:00:00"; "2024-03-25 08:00:00";
   "2024-04-01 08:00:00"; "2024-04-08 08:00:00"; "2024-04-15 08:00:00";
   "2024-04-22 08:00:00"; "2024-04-29 08:00:00"; "2024-05-06 08:00:00"].

Definition eighteen_weeks_upload : list UploadedFile :=
  [mkUploadedFile
     (Some (mkRawFrame ten_columns
              (map (fun t => run_cells t "Valid" "A" "L1") mondays)))
     None].

(** An upload of one file with 300 lots, L001 to L300 in this order: a
    lot of even number has two runs, a lot of odd number one. *)
Definition lot_runs (n : nat) : list (list cell) :=
  let run :=
    run_cells "2024-01-08 08:00:00" "Valid" "A"
      ("L" ++ Calendar.pad 3 (Z.of_nat n)) in
  if Nat.even n then [run; run] else [run].

Definition three_hundred_lots_upload : list UploadedFile :=
  [mkUploadedFile
     (Some (mkRawFrame ten_columns (flat_map lot_runs (seq 1 300))))
     None].

(** 160 runs of one lab on one lot in one week, the first 23 of them
    invalid. *)
Definition tie_runs : @DataFrame Calendar.dates :=
  (repeat (sample_row "P1" "Invalid" "A" "L1" "2024-01" "2024-01") 23
   ++ repeat (sample_row "P1" "Valid" "A" "L1" "2024-01" "2024-01") 137)%list.

(** A frame of three columns: positions 3, 4, 5, 8 and 9 are missing. *)
Definition narrow_frame : RawFrame :=
  mkRawFrame (map LStr ["Test date"; "Profile"; "C"])
    [[Some "01-02-2024 08:00:00"; Some "P1"; Some "x"];
     [Some "02-02-2024 09:30:00"; Some "P2"; Some "y"]].


(* ------------------------------------------------------------------ *)
(** ** The rest of utils.py: profile ids and charts *)

(** [sorted(l)] on the values of an object column: strings sort by code
    point; NaN is a float, and comparing it with a string is a TypeError
    ([None] here); a list of NaN alone is left as it is, every comparison
    of NaN with NaN being False. *)
Definition sorted_cells (l : list cell) : option (list cell) :=
  if forallb (fun c => match c with Some _ => true | None => false end) l
  then Some (map Some (sorted (flat_map (fun c => match c with
                                                  | Some s => [s]
                                                  | None => []
                                                  end) l)))
  else if forallb (fun c => match c with Some _ => false | None => true end) l
       then Some l
       else None.

(** A trace of a figure: what [go.Bar] or [go.Scatter] is given. *)
Record Trace (X Y : Type) : Type := mkTrace {
  trace_type : string;
  trace_name : string;
  trace_color : string;
  trace_x : list X;
  trace_y : list Y
}.
Arguments mkTrace {X Y}.
Arguments trace_type {X Y}.
Arguments trace_name {X Y}.
Arguments trace_color {X Y}.
Arguments trace_x {X Y}.
Arguments trace_y {X Y}.

(** A figure of two traces with its layout titles. *)
Record Figure (X1 Y1 X2 Y2 : Type) : Type := mkFigure {
  fig_bars : Trace X1 Y1;
  fig_line : Trace X2 Y2;
  fig_title : string;
  fig_xaxis_title : string;
  fig_yaxis_title : string
}.
Arguments mkFigure {X1 Y1 X2 Y2}.
Arguments fig_bars {X1 Y1 X2 Y2}.
Arguments fig_line {X1 Y1 X2 Y2}.
Arguments fig_title {X1 Y1 X2 Y2}.
Arguments fig_xaxis_title {X1 Y1 X2 Y2}.
Arguments fig_yaxis_title {X1 Y1 X2 Y2}.

(** [df.sort_values(col, ascending=True)] on a column of counts. *)
Definition sort_values_by `{SortKind} {R} (key : R -> nat) (df : list R)
  : list R :=
  argsort (fun a b => Nat.leb (key a) (key b)) df.

Section Presentation.

Context {DL : DateLib} {SK : SortKind}.

(** [get_profile_ids]: [None] is the TypeError of [sorted]. *)
Definition get_profile_ids (df : option DataFrame) : option (list cell) :=
  match df with
  | None => Some []
  | Some df => sorted_cells (unique cell_same (map Profile_id df))
  end.

Definition create_trend_chart (bar_color line_color title xaxis_title : string)
  (data : option (list TrendRow))
  : option (Figure Timestamp nat Timestamp nat) :=
  match data with
  | None => None
  | Some data =>
      if empty data then None else
      Some (mkFigure
              (mkTrace "bar" "Total Runs" bar_color
                 (map trend_date data) (map trend_Total_Runs data))
              (mkTrace "scatter" "Total Invalid/Indeterminate" line_color
                 (map trend_date data)
                 (map trend_Total_Invalid_Indeterminate data))
              title xaxis_title "Count")
  end.

Definition create_monthly_trend_chart (monthly_data : option (list TrendRow)) :=
  create_trend_chart "#4E79A7" "#F28E2B" "Monthly Trend Analysis" "Month"
    monthly_data.

Definition create_weekly_trend_chart (weekly_data : option (list TrendRow)) :=
  create_trend_chart "#76B7B2" "#E15759" "Weekly Trend Analysis" "Week"
    weekly_data.

Definition create_top_lots_chart (top_lots_data : option (list LotRow))
  : option (Figure nat cell Q cell) :=
  match top_lots_data with
  | None => None
  | Some top_lots_data =>
      if empty top_lots_data then None else
      let df := sort_values_by lot_Total_Runs top_lots_data in
      Some (mkFigure
              (mkTrace "bar" "Total Runs" "#6236FF"
                 (map lot_Total_Runs df) (map Lot_Number df))
              (mkTrace "scatter" "Invalid/Indeterminate %" "#FF3366"
                 (map lot_Invalid_Indeterminate_pct df) (map Lot_Number df))
              "Top 20 Lots by Total Runs" "Total Runs" "Lot Number")
  end.

(** The cache holds at most [maxsize] entries, one per key. *)
Definition cache_ok (c : list (CacheKey * ProfileResult)) : Prop :=
  length c <= maxsize /\ NoDup (map fst c).

(** A null value of a column. *)
Definition isna (col : Row -> cell) (r : Row) : bool := negb (notna col r).

End Presentation.

(** Three files: one that cannot be read between two of one row each. *)
Definition unreadable_file : UploadedFile := mkUploadedFile None None.

Definition three_files : list UploadedFile :=
  [one_row_file "2024-01-05 08:00:00"; unreadable_file;
   one_row_file "2024-02-07 09:00:00"].

(** The sample runs with a fourth run that names no lab and no lot. *)
Definition four_runs : @DataFrame Calendar.dates :=
  (three_runs
   ++ [@mkRow Calendar.dates 0%Z (Some "P1") (Some "Detected") (Some "Invalid")
         None (Some "TL-2") None "2024-02" "2024-05"])%list.

(* ================================================================== *)
(** * Proofs *)

(* ------------------------------------------------------------------ *)
(** ** The insertion sort keeps the contract *)

Section InsertionSort.

Context {A : Type}.
Variables le before : A -> A -> bool.
Hypothesis le_trans : forall x y z, le x y = true -> le y z = true -> le x z = true.
Hypothesis before_le : forall x y, before x y = true -> le x y = true.
Hypothesis not_before_le : forall x y, before x y = false -> le y x = true.

Lemma insert_by_perm (x : A) (l : list A) :
  Permutation (x :: l) (insert_by before x l).
Proof using Type.
  induction l as [|y r IH]; simpl; [reflexivity|].
  destruct (before x y); [reflexivity|].
  rewrite perm_swap. now apply perm_skip.
Qed.

Lemma isort_perm (l : list A) : Permutation l (isort before l).
Proof using Type.
  induction l as [|x r IH]; simpl; [constructor|].
  rewrite <- insert_by_perm. now apply perm_skip.
Qed.

Lemma insert_by_sorted (x : A) (l : list A) :
  StronglySorted (fun a b => le a b = true) l ->
  StronglySorted (fun a b => le a b = true) (insert_by before x l).
Proof using le_trans before_le not_before_le.
  induction 1 as [|y r Hs IH Hy]; simpl.
  - repeat constructor.
  - destruct (before x y) eqn:E.
    + constructor; [now constructor|].
      apply before_le in E. constructor; [exact E|].
      rewrite Forall_forall in *. intros z Hz. eauto.
    + constructor; [exact IH|].
      apply not_before_le in E.
      rewrite Forall_forall in *. intros z Hz.
      apply (Permutation_in _ (Permutation_sym (insert_by_perm x r))) in Hz.
      destruct Hz as [<-|Hz]; auto.
Qed.

Lemma isort_sorted (l : list A) :
  StronglySorted (fun a b => le a b = true) (isort before l).
Proof using le_trans before_le not_before_le.
  induction l as [|x r IH]; simpl; [constructor|].
  now apply insert_by_sorted.
Qed.

End InsertionSort.

Lemma stable_sort_contract : SortContract stable_sort.
Proof.
  split.
  - intros A le l. apply isort_perm.
  - intros A le Htot Htrans l.
    apply (isort_sorted le le Htrans); [auto|].
    intros x y E. destruct (Htot x y) as [H|H]; [congruence|exact H].
Qed.


(* ------------------------------------------------------------------ *)
(** ** Loops, columns and strings *)

Section Loops.

Context {A B : Type} (f : A -> pyresult B).

Lemma mapM_Ok_Forall2 (l : list A) (r : list B) :
  mapM f l = Ok r -> Forall2 (fun x y => f x = Ok y) l r.
Proof.
  revert r. induction l as [|x l IH]; simpl; intros r H.
  - injection H as <-. constructor.
  - destruct (f x) as [y|e] eqn:Ex; simpl in H; [|discriminate].
    destruct (mapM f l) as [ys|e]; simpl in H; [|discriminate].
    injection H as <-. constructor; auto.
Qed.

Lemma mapM_Ok_length (l : list A) (r : list B) :
  mapM f l = Ok r -> length r = length l.
Proof.
  intros H. apply mapM_Ok_Forall2 in H. symmetry.
  now apply (Forall2_length H).
Qed.

Lemma mapM_Ok_In (l : list A) (r : list B) (y : B) :
  mapM f l = Ok r -> In y r -> exists x, In x l /\ f x = Ok y.
Proof.
  intros H. apply mapM_Ok_Forall2 in H.
  induction H as [|x y' l r Hxy _ IH]; simpl; [tauto|].
  intros [<-|Hy]; [now exists x; auto|].
  destruct (IH Hy) as (x' & Hx' & E). exists x'. auto.
Qed.

Lemma mapM_total (l : list A) :
  (forall x, In x l -> exists y, f x = Ok y) -> exists r, mapM f l = Ok r.
Proof.
  induction l as [|x l IH]; simpl; intros H; [now eexists|].
  destruct (H x (or_introl eq_refl)) as [y ->]. simpl.
  destruct IH as [r ->]; [intros; apply H; now right|].
  simpl. now eexists.
Qed.

(** A loop in which some turn raises [e], and no turn raises anything
    else, raises [e]. *)
Lemma mapM_raises (e : exn) (l : list A) :
  (forall x, In x l -> f x = Raise e \/ exists y, f x = Ok y) ->
  (exists x, In x l /\ f x = Raise e) ->
  mapM f l = Raise e.
Proof.
  induction l as [|x l IH]; simpl; intros Hall (x0 & Hin & Hx0); [tauto|].
  destruct (Hall x (or_introl eq_refl)) as [->|[y Hy]]; [reflexivity|].
  rewrite Hy. simpl. rewrite IH; [reflexivity| |].
  - intros; apply Hall; now right.
  - destruct Hin as [->|Hin]; [congruence|]. exists x0. auto.
Qed.


End Loops.

Lemma cell_same_eq (a b : cell) : cell_same a b = true <-> a = b.
Proof.
  destruct a as [x|], b as [y|]; simpl; try (split; congruence).
  rewrite String.eqb_eq. split; congruence.
Qed.

Section Unique.

Context {A : Type} (same : A -> A -> bool).
Hypothesis same_eq : forall a b, same a b = true <-> a = b.

Lemma existsb_same (x : A) (seen : list A) :
  existsb (same x) seen = true <-> In x seen.
Proof using same_eq.
  rewrite existsb_exists. split.
  - intros (y & Hy & E). apply same_eq in E. now subst.
  - intros H. exists x. split; [exact H|]. now apply same_eq.
Qed.

Lemma unique_from_In (seen l : list A) (x : A) :
  In x (unique_from same seen l) <-> In x l /\ ~ In x seen.
Proof using same_eq.
  revert seen. induction l as [|y l IH]; simpl; intros seen; [tauto|].
  destruct (existsb (same y) seen) eqn:E.
  - apply existsb_same in E. rewrite IH. split.
    + intros [H1 H2]. auto.
    + intros [[->|H1] H2]; [contradiction|auto].
  - assert (Hy : ~ In y seen).
    { intros H. apply existsb_same in H. congruence. }
    simpl. rewrite IH. simpl. split.
    + intros [->|[H1 H2]]; auto.
    + intros [[->|H1] H2]; [now left|].
      destruct (same y x) eqn:Eyx.
      * apply same_eq in Eyx. now left.
      * right. split; [exact H1|]. intros [->|H]; [|contradiction].
        assert (same x x = true) by now apply same_eq. congruence.
Qed.

Lemma unique_from_NoDup (seen l : list A) : NoDup (unique_from same seen l).
Proof using same_eq.
  revert seen. induction l as [|y l IH]; simpl; intros seen; [constructor|].
  destruct (existsb (same y) seen); [apply IH|].
  constructor; [|apply IH].
  rewrite unique_from_In. simpl. tauto.
Qed.

(** [unique] lists every value of the column, once. *)
Lemma unique_In (l : list A) (x : A) : In x (unique same l) <-> In x l.
Proof using same_eq.
  unfold unique. rewrite unique_from_In. simpl. tauto.
Qed.

Lemma unique_NoDup (l : list A) : NoDup (unique same l).
Proof using same_eq. apply unique_from_NoDup. Qed.

Lemma unique_nonempty (l : list A) : l <> [] -> unique same l <> [].
Proof using Type.
  destruct l as [|x l]; [congruence|]. intros _. unfold unique. simpl.
  discriminate.
Qed.

End Unique.

Lemma string_eqb_iff (a b : string) : String.eqb a b = true <-> a = b.
Proof. apply String.eqb_eq. Qed.

Lemma insert_sorted_In (x y : string) (l : list string) :
  In y (insert_sorted x l) <-> y = x \/ In y l.
Proof.
  induction l as [|z l IH]; simpl; [intuition congruence|].
  destruct (String.leb x z); simpl; [intuition congruence|].
  rewrite IH. intuition congruence.
Qed.

Lemma sorted_In (y : string) (l : list string) : In y (sorted l) <-> In y l.
Proof.
  induction l as [|x l IH]; simpl; [tauto|].
  rewrite insert_sorted_In, IH. intuition congruence.
Qed.

Lemma insert_sorted_length (x : string) (l : list string) :
  length (insert_sorted x l) = S (length l).
Proof.
  induction l as [|z l IH]; simpl; [reflexivity|].
  destruct (String.leb x z); simpl; congruence.
Qed.

Lemma sorted_nonempty (l : list string) : l <> [] -> sorted l <> [].
Proof.
  destruct l as [|x l]; [congruence|]. intros _ H.
  apply (f_equal (@length string)) in H. simpl in H.
  rewrite insert_sorted_length in H. discriminate.
Qed.

Lemma empty_false_iff {R} (df : list R) : empty df = false <-> df <> [].
Proof. destruct df; simpl; split; congruence. Qed.

Lemma empty_true_iff {R} (df : list R) : empty df = true <-> df = [].
Proof. destruct df; simpl; split; congruence. Qed.

(** The two bad statuses are different strings, so their counts add up to
    no more than the rows. *)
Lemma bad_counts_le {R} (col : R -> cell) (df : list R) :
  count_eq col "Invalid" df + count_eq col "Indeterminate" df <= length df.
Proof.
  unfold count_eq. induction df as [|r df IH]; simpl; [lia|].
  destruct (col r) as [s|]; simpl; [|lia].
  destruct (String.eqb s "Invalid") eqn:E1.
  - apply String.eqb_eq in E1. subst s. simpl. lia.
  - destruct (String.eqb s "Indeterminate"); simpl; lia.
Qed.

(* ------------------------------------------------------------------ *)
(** ** Rounding and percentages *)

Lemma round_half_even_bounds (q : Q) (a b : Z) :
  (inject_Z a <= q)%Q -> (q <= inject_Z b)%Q ->
  (a <= round_half_even q <= b)%Z.
Proof.
  intros Ha Hb.
  assert (Hfa : (a <= Qfloor q)%Z).
  { rewrite <- (Qfloor_Z a). now apply Qfloor_resp_le. }
  assert (Hfb : (Qfloor q <= b)%Z).
  { rewrite <- (Qfloor_Z b). now apply Qfloor_resp_le. }
  assert (Hup : (0 < q - inject_Z (Qfloor q))%Q -> (Qfloor q + 1 <= b)%Z).
  { intros Hpos.
    destruct (Z.eq_dec (Qfloor q) b) as [E|E]; [|lia].
    rewrite E in Hpos. lra. }
  unfold round_half_even.
  destruct (Qcompare (q - inject_Z (Qfloor q)) (1 # 2)) eqn:E.
  - apply Qeq_alt in E. destruct (Z.even (Qfloor q)); [lia|].
    split; [lia|]. apply Hup. lra.
  - lia.
  - apply Qgt_alt in E. split; [lia|]. apply Hup. lra.
Qed.

Lemma round_half_even_near (q : Q) :
  (q - (1 # 2) <= inject_Z (round_half_even q))%Q /\
  (inject_Z (round_half_even q) <= q + (1 # 2))%Q.
Proof.
  pose proof (Qfloor_le q) as Hlo. pose proof (Qlt_floor q) as Hhi.
  unfold round_half_even.
  rewrite inject_Z_plus in Hhi. change (inject_Z 1) with 1%Q in Hhi.
  destruct (Qcompare (q - inject_Z (Qfloor q)) (1 # 2)) eqn:E.
  - apply Qeq_alt in E.
    destruct (Z.even (Qfloor q)).
    + split; lra.
    + rewrite inject_Z_plus. change (inject_Z 1) with 1%Q. split; lra.
  - apply Qlt_alt in E. split; lra.
  - apply Qgt_alt in E. rewrite inject_Z_plus. change (inject_Z 1) with 1%Q.
    split; lra.
Qed.

Lemma round_half_even_nonneg (q : Q) :
  (0 <= q)%Q -> (0 <= round_half_even q)%Z.
Proof.
  intros H. assert (Hf : (0 <= Qfloor q)%Z).
  { rewrite <- (Qfloor_Z 0). now apply Qfloor_resp_le. }
  unfold round_half_even.
  destruct (Qcompare (q - inject_Z (Qfloor q)) (1 # 2));
    [destruct (Z.even (Qfloor q))| |]; lia.
Qed.

Lemma pow2_pos (e : Z) : (0 < pow2 e)%Q.
Proof. apply Qpower_0_lt. reflexivity. Qed.

Lemma pow2_add (a b : Z) : (pow2 (a + b) == pow2 a * pow2 b)%Q.
Proof. apply Qpower_plus. discriminate. Qed.

Lemma pow2_Z (n : Z) : (0 <= n)%Z -> (pow2 n == inject_Z (2 ^ n))%Q.
Proof. intros H. unfold pow2. now rewrite Zpower_Qpower. Qed.

Lemma binade_le (q : Q) : (0 < q)%Q -> (pow2 (binade q) <= q)%Q.
Proof.
  intros Hq. unfold binade.
  set (a := Qnum q). set (b := Zpos (Qden q)).
  set (la := Z.log2 a). set (lb := Z.log2 b).
  destruct (Qle_bool (pow2 (la - lb)) q) eqn:E.
  - now apply Qle_bool_iff.
  - clear E.
    assert (Ha : (0 < a)%Z).
    { unfold a. destruct q as [n d]. unfold Qlt in Hq. simpl in *. lia. }
    assert (Hb : (0 < b)%Z) by (unfold b; lia).
    destruct (Z.log2_spec a Ha) as [Hla _]. fold la in Hla.
    destruct (Z.log2_spec b Hb) as [_ Hlb]. fold lb in Hlb.
    assert (H0a : (0 <= la)%Z) by apply Z.log2_nonneg.
    assert (H0b : (0 <= lb)%Z) by apply Z.log2_nonneg.
    replace (la - lb - 1)%Z with (la + - (lb + 1))%Z by lia.
    rewrite pow2_add. unfold pow2 at 2. rewrite Qpower_opp.
    fold (pow2 (lb + 1)). rewrite !pow2_Z by lia.
    assert (Eq : (q == inject_Z a / inject_Z b)%Q).
    { unfold a, b. destruct q as [n d]. simpl. apply Qmake_Qdiv. }
    rewrite Eq.
    assert (Hb' : (0 < inject_Z b)%Q).
    { change 0%Q with (inject_Z 0). now rewrite <- Zlt_Qlt. }
    assert (Hp : (0 < inject_Z (2 ^ (lb + 1)))%Q).
    { change 0%Q with (inject_Z 0). rewrite <- Zlt_Qlt. lia. }
    apply Qle_shift_div_l; [exact Hb'|].
    change (inject_Z (2 ^ la) * / inject_Z (2 ^ (lb + 1)) * inject_Z b)%Q
      with (inject_Z (2 ^ la) / inject_Z (2 ^ (lb + 1)) * inject_Z b)%Q.
    setoid_replace (inject_Z (2 ^ la) / inject_Z (2 ^ (lb + 1)) * inject_Z b)%Q
      with (inject_Z (2 ^ la) * inject_Z b / inject_Z (2 ^ (lb + 1)))%Q
      by (field; lra).
    apply Qle_shift_div_r; [exact Hp|].
    rewrite <- !inject_Z_mult, <- Zle_Qle.
    apply Z.mul_le_mono_nonneg; lia.
Qed.


Lemma fl_error (q : Q) :
  (0 <= q)%Q ->
  (0 <= fl q)%Q /\
  (q - (q * eps + tiny) <= fl q)%Q /\ (fl q <= q + (q * eps + tiny))%Q.
Proof.
  intros Hq. unfold fl.
  pose proof (pow2_pos (-53)) as He. fold eps in He.
  pose proof (pow2_pos (-1075)) as Ht. fold tiny in Ht.
  destruct (Qle_bool q 0) eqn:E0.
  - apply Qle_bool_iff in E0.
    assert (Hz : (q * eps == 0)%Q) by (setoid_replace q with 0%Q by lra; ring).
    split; [lra|]. split; lra.
  - assert (Hpos : (0 < q)%Q).
    { destruct (Qlt_le_dec 0 q) as [H|H]; [exact H|].
      apply Qle_bool_iff in H. congruence. }
    clear E0.
    set (ue := Z.max (binade q - 52) (-1074)).
    pose proof (pow2_pos ue) as Hu.
    set (ulp := pow2 ue) in *.
    destruct (round_half_even_near (q / ulp)) as [Hlo Hhi].
    set (m := inject_Z (round_half_even (q / ulp))) in *.
    assert (Hm0 : (0 <= m)%Q).
    { unfold m. change 0%Q with (inject_Z 0). rewrite <- Zle_Qle.
      apply round_half_even_nonneg.
      apply Qle_shift_div_l; lra. }
    assert (Hulp : (ulp <= q * (2 * eps) + 2 * tiny)%Q).
    { unfold ulp, ue.
      assert (E2 : (2 * eps == pow2 (-52))%Q) by reflexivity.
      assert (T2 : (2 * tiny == pow2 (-1074))%Q) by reflexivity.
      destruct (Z.max_spec (binade q - 52) (-1074)) as [[_ ->]|[_ ->]].
      - rewrite <- T2.
        assert (0 <= q * (2 * eps))%Q by (apply Qmult_le_0_compat; lra).
        lra.
      - replace (binade q - 52)%Z with (binade q + -52)%Z by lia.
        rewrite pow2_add, <- E2.
        pose proof (binade_le q Hpos) as Hb.
        assert (pow2 (binade q) * (2 * eps) <= q * (2 * eps))%Q
          by (apply Qmult_le_compat_r; lra).
        lra. }
    assert (Eq : (q == q / ulp * ulp)%Q) by (field; lra).
    assert (L : ((q / ulp - (1 # 2)) * ulp <= m * ulp)%Q)
      by (apply Qmult_le_compat_r; lra).
    assert (U : (m * ulp <= (q / ulp + (1 # 2)) * ulp)%Q)
      by (apply Qmult_le_compat_r; lra).
    assert (L' : (q - (1 # 2) * ulp <= m * ulp)%Q).
    { setoid_replace (q - (1 # 2) * ulp)%Q with ((q / ulp - (1 # 2)) * ulp)%Q;
        [exact L|]. field. lra. }
    assert (U' : (m * ulp <= q + (1 # 2) * ulp)%Q).
    { setoid_replace (q + (1 # 2) * ulp)%Q with ((q / ulp + (1 # 2)) * ulp)%Q;
        [exact U|]. field. lra. }
    split; [apply Qmult_le_0_compat; lra|]. split; lra.
Qed.

Lemma round_half_even_Z (q : Q) (z : Z) :
  (q == inject_Z z)%Q -> round_half_even q = z.
Proof.
  intros H. unfold round_half_even.
  assert (Hf : Qfloor q = z) by (rewrite (Qfloor_comp _ _ H); apply Qfloor_Z).
  rewrite Hf.
  assert (E : (q - inject_Z z ?= 1 # 2)%Q = Lt).
  { apply (proj1 (Qlt_alt _ _)). lra. }
  now rewrite E.
Qed.

Lemma eps_value : (eps == 1 # 9007199254740992)%Q.
Proof. reflexivity. Qed.

Lemma tiny_small : (tiny <= 1 # 1267650600228229401496703205376)%Q.
Proof. apply Qle_bool_iff. vm_compute. reflexivity. Qed.

Lemma inject_nat_pos (n : nat) : 0 < n -> (0 < inject_Z (Z.of_nat n))%Q.
Proof. intros H. change 0%Q with (inject_Z 0). rewrite <- Zlt_Qlt. lia. Qed.

Lemma inject_nat_nonneg (n : nat) : (0 <= inject_Z (Z.of_nat n))%Q.
Proof. change 0%Q with (inject_Z 0). rewrite <- Zle_Qle. lia. Qed.

(** A natural number below 2^53 is a binary64. *)
Lemma fl_nat (n : nat) :
  (Z.of_nat n < 2 ^ 53)%Z -> (fl (inject_Z (Z.of_nat n)) == inject_Z (Z.of_nat n))%Q.
Proof.
  intros Hn. unfold fl.
  destruct (Qle_bool (inject_Z (Z.of_nat n)) 0) eqn:E0.
  - apply Qle_bool_iff in E0. pose proof (inject_nat_nonneg n). lra.
  - assert (Hpos : (0 < Z.of_nat n)%Z).
    { destruct n; [discriminate E0|lia]. }
    clear E0. set (z := Z.of_nat n) in *.
    destruct (Z.log2_spec z Hpos) as [Hlo Hhi].
    assert (H0 : (0 <= Z.log2 z)%Z) by apply Z.log2_nonneg.
    assert (Hl : (Z.log2 z < 53)%Z).
    { apply Z.log2_lt_pow2; lia. }
    assert (Eb : binade (inject_Z z) = Z.log2 z).
    { unfold binade. cbn [Qnum Qden inject_Z]. change (Z.log2 1) with 0%Z.
      rewrite Z.sub_0_r.
      assert (E : Qle_bool (pow2 (Z.log2 z)) (inject_Z z) = true).
      { apply Qle_bool_iff. rewrite pow2_Z by lia. now rewrite <- Zle_Qle. }
      now rewrite E. }
    rewrite Eb. rewrite Z.max_l by lia.
    set (s := (52 - Z.log2 z)%Z).
    assert (Es : (pow2 (Z.log2 z - 52) == / inject_Z (2 ^ s))%Q).
    { replace (Z.log2 z - 52)%Z with (- s)%Z by (unfold s; lia).
      unfold pow2. rewrite Qpower_opp. fold (pow2 s).
      rewrite pow2_Z by (unfold s; lia). reflexivity. }
    assert (Hp : (0 < inject_Z (2 ^ s))%Q).
    { change 0%Q with (inject_Z 0). rewrite <- Zlt_Qlt.
      apply Z.pow_pos_nonneg; unfold s; lia. }
    rewrite (round_half_even_Z _ (z * 2 ^ s)).
    + rewrite Es, inject_Z_mult. field. lra.
    + rewrite Es, inject_Z_mult. field. lra.
Qed.

Lemma nearest_hundredth (k n : nat) (j : Z) (d : Q) :
  0 < n -> (Z.of_nat n < 2 ^ 32)%Z ->
  (0 <= d)%Q -> (d <= 1 # 17179869184)%Q ->
  let exact := (inject_Z (Z.of_nat k) / inject_Z (Z.of_nat n) * 100)%Q in
  (inject_Z j - ((1 # 2) + d) <= exact * 100)%Q ->
  (exact * 100 <= inject_Z j + ((1 # 2) + d))%Q ->
  rounded_to_2 exact (inject_Z j / 100).
Proof.
  intros Hn Hb Hd0 Hd exact Hlo Hhi.
  set (K := inject_Z (Z.of_nat k)) in *. set (N := inject_Z (Z.of_nat n)) in *.
  set (J := inject_Z j) in *.
  assert (HN : (0 < N)%Q) by now apply inject_nat_pos.
  assert (HN2 : (N < 4294967296)%Q).
  { unfold N. change 4294967296%Q with (inject_Z (2 ^ 32)). now rewrite <- Zlt_Qlt. }
  assert (HdN : (d * N <= 1 # 4)%Q).
  { assert (d * N <= (1 # 17179869184) * N)%Q by (apply Qmult_le_compat_r; lra).
    lra. }
  assert (Ex : (exact * 100 * N == 10000 * K)%Q).
  { unfold exact. field. lra. }
  assert (L : ((J - ((1 # 2) + d)) * N <= exact * 100 * N)%Q)
    by (apply Qmult_le_compat_r; lra).
  assert (U : (exact * 100 * N <= (J + ((1 # 2) + d)) * N)%Q)
    by (apply Qmult_le_compat_r; lra).
  rewrite Ex in L, U.
  assert (ZU : (20000 * Z.of_nat k < 2 * j * Z.of_nat n + Z.of_nat n + 1)%Z).
  { rewrite Zlt_Qlt.
    rewrite !inject_Z_plus, !inject_Z_mult. fold K N J.
    change (inject_Z 20000) with 20000%Q. change (inject_Z 2) with 2%Q.
    change (inject_Z 1) with 1%Q. lra. }
  assert (ZL : (2 * j * Z.of_nat n < 20000 * Z.of_nat k + Z.of_nat n + 1)%Z).
  { rewrite Zlt_Qlt.
    rewrite !inject_Z_plus, !inject_Z_mult. fold K N J.
    change (inject_Z 20000) with 20000%Q. change (inject_Z 2) with 2%Q.
    change (inject_Z 1) with 1%Q. lra. }
  assert (QU : (20000 * K <= 2 * J * N + N)%Q).
  { assert (H : (20000 * Z.of_nat k <= 2 * j * Z.of_nat n + Z.of_nat n)%Z) by lia.
    rewrite Zle_Qle in H.
    rewrite !inject_Z_plus, !inject_Z_mult in H. exact H. }
  assert (QL : (2 * J * N <= 20000 * K + N)%Q).
  { assert (H : (2 * j * Z.of_nat n <= 20000 * Z.of_nat k + Z.of_nat n)%Z) by lia.
    rewrite Zle_Qle in H.
    rewrite !inject_Z_plus, !inject_Z_mult in H. exact H. }
  split; [now exists j|].
  assert (Ee : (exact == 100 * K / N)%Q) by (unfold exact; field; lra).
  rewrite Ee. split.
  - apply Qle_shift_div_l; [exact HN|].
    setoid_replace ((J / 100 - (1 # 200)) * N)%Q
      with ((2 * J * N - N) / 200)%Q by field.
    apply Qle_shift_div_r; lra.
  - apply Qle_shift_div_r; [exact HN|].
    setoid_replace ((J / 100 + (1 # 200)) * N)%Q
      with ((2 * J * N + N) / 200)%Q by field.
    apply Qle_shift_div_l; lra.
Qed.

Ltac float_constants :=
  pose proof eps_value; pose proof tiny_small;
  pose proof (pow2_pos (-53)); pose proof (pow2_pos (-1075));
  fold eps in *; fold tiny in *.

Lemma fl_near (q : Q) :
  (0 <= q)%Q ->
  (0 <= fl q)%Q /\
  (q - (q * (1 # 9007199254740992) + (1 # 1267650600228229401496703205376))
   <= fl q)%Q /\
  (fl q <= q + (q * (1 # 9007199254740992)
                + (1 # 1267650600228229401496703205376)))%Q.
Proof.
  intros Hq. destruct (fl_error q Hq) as (H0 & Hlo & Hhi). float_constants.
  assert (E : (q * eps == q * (1 # 9007199254740992))%Q)
    by (rewrite eps_value; reflexivity).
  rewrite E in Hlo, Hhi. split; [exact H0|]. split; lra.
Qed.

Lemma exact_percent_bounds (k n : nat) :
  k <= n -> 0 < n ->
  (0 <= inject_Z (Z.of_nat k) / inject_Z (Z.of_nat n))%Q /\
  (inject_Z (Z.of_nat k) / inject_Z (Z.of_nat n) <= 1)%Q.
Proof.
  intros Hk Hn. pose proof (inject_nat_pos n Hn). pose proof (inject_nat_nonneg k).
  assert (inject_Z (Z.of_nat k) <= inject_Z (Z.of_nat n))%Q
    by (rewrite <- Zle_Qle; lia).
  split; [apply Qle_shift_div_l; lra|apply Qle_shift_div_r; lra].
Qed.

Lemma percent_of_near (k n : nat) :
  k <= n -> 0 < n ->
  exists x, percent_of k n = Ok x /\
    (0 <= x)%Q /\
    (exact_percent k n - slack <= x)%Q /\ (x <= exact_percent k n + slack)%Q.
Proof.
  intros Hk Hn. unfold percent_of, truediv.
  replace (Nat.ltb 0 n) with true by (symmetry; now apply Nat.ltb_lt).
  replace (Nat.eqb n 0) with false by (symmetry; apply Nat.eqb_neq; lia).
  unfold bind. eexists. split; [reflexivity|].
  destruct (exact_percent_bounds k n Hk Hn) as [Hq0 Hq1].
  unfold exact_percent, slack.
  set (q := (inject_Z (Z.of_nat k) / inject_Z (Z.of_nat n))%Q) in *.
  destruct (fl_near q Hq0) as (H0 & L1 & U1).
  assert (H100 : (0 <= fl q * 100)%Q) by lra.
  destruct (fl_near (fl q * 100) H100) as (H0' & L2 & U2).
  split; [exact H0'|]. split; lra.
Qed.

Lemma np_ratio_near (k n : nat) :
  k <= n -> 0 < n ->
  let q := (inject_Z (Z.of_nat k) / inject_Z (Z.of_nat n))%Q in
  let r := (to_float k / to_float n)%Q in
  (0 <= r)%Q /\ (q - (1 # 1125899906842624) <= r)%Q /\
  (r <= q + (1 # 1125899906842624))%Q.
Proof.
  intros Hk Hn q r. unfold r, to_float.
  destruct (exact_percent_bounds k n Hk Hn) as [Hq0 Hq1]. fold q in Hq0, Hq1.
  pose proof (inject_nat_pos n Hn) as HN. pose proof (inject_nat_nonneg k) as HK.
  assert (HN1 : (1 <= inject_Z (Z.of_nat n))%Q).
  { change 1%Q with (inject_Z 1). rewrite <- Zle_Qle. lia. }
  set (K := inject_Z (Z.of_nat k)) in *. set (N := inject_Z (Z.of_nat n)) in *.
  destruct (fl_near K HK) as (HfK & LK & UK).
  destruct (fl_near N (Qlt_le_weak _ _ HN)) as (HfN & LN & UN).
  set (FK := fl K) in *. set (F := fl N) in *.
  assert (HF : (0 < F)%Q) by lra.
  assert (EqN : (q * N == K)%Q) by (unfold q; field; lra).
  assert (LqF : (q * (N - (N * (1 # 9007199254740992)
                           + (1 # 1267650600228229401496703205376)))
                 <= q * F)%Q).
  { rewrite (Qmult_comm q F), (Qmult_comm q). apply Qmult_le_compat_r; lra. }
  assert (UqF : (q * F <= q * (N + (N * (1 # 9007199254740992)
                                   + (1 # 1267650600228229401496703205376))))%Q).
  { rewrite (Qmult_comm q F), (Qmult_comm q _). apply Qmult_le_compat_r; lra. }
  assert (E1 : (q * (N - (N * (1 # 9007199254740992)
                          + (1 # 1267650600228229401496703205376)))
                == K - K * (1 # 9007199254740992)
                   - q * (1 # 1267650600228229401496703205376))%Q).
  { rewrite <- EqN. ring. }
  assert (E2 : (q * (N + (N * (1 # 9007199254740992)
                          + (1 # 1267650600228229401496703205376)))
                == K + K * (1 # 9007199254740992)
                   + q * (1 # 1267650600228229401496703205376))%Q).
  { rewrite <- EqN. ring. }
  rewrite E1 in LqF. rewrite E2 in UqF.
  assert (HK' : (K <= N)%Q) by (rewrite <- EqN; rewrite <- (Qmult_1_l N) at 2;
                                apply Qmult_le_compat_r; lra).
  split; [apply Qle_shift_div_l; lra|]. split.
  - apply Qle_shift_div_l; [exact HF|].
    setoid_replace ((q - (1 # 1125899906842624)) * F)%Q
      with (q * F - (1 # 1125899906842624) * F)%Q by ring.
    lra.
  - apply Qle_shift_div_r; [exact HF|].
    setoid_replace ((q + (1 # 1125899906842624)) * F)%Q
      with (q * F + (1 # 1125899906842624) * F)%Q by ring.
    lra.
Qed.

Lemma np_percent_of_near (k n : nat) :
  k <= n -> 0 < n ->
  exists x, np_percent_of k n = Ok x /\
    (0 <= x)%Q /\
    (exact_percent k n - slack <= x)%Q /\ (x <= exact_percent k n + slack)%Q.
Proof.
  intros Hk Hn. unfold np_percent_of.
  replace (Nat.ltb 0 n) with true by (symmetry; now apply Nat.ltb_lt).
  eexists. split; [reflexivity|].
  destruct (exact_percent_bounds k n Hk Hn) as [Hq0 Hq1].
  destruct (np_ratio_near k n Hk Hn) as (Hr0 & Lr & Ur).
  unfold exact_percent, slack.
  set (q := (inject_Z (Z.of_nat k) / inject_Z (Z.of_nat n))%Q) in *.
  set (r := (to_float k / to_float n)%Q) in *.
  destruct (fl_near r Hr0) as (H0 & L1 & U1).
  assert (H100 : (0 <= fl r * 100)%Q) by lra.
  destruct (fl_near (fl r * 100) H100) as (H0' & L2 & U2).
  split; [exact H0'|]. split; lra.
Qed.

Lemma hundredths_bounds (j : Z) (y : Q) :
  (0 <= y)%Q -> (y <= 10000 + (1 # 4))%Q ->
  (inject_Z j <= y + (1 # 2))%Q -> (0 <= j)%Z ->
  (0 <= inject_Z j / 100)%Q /\ (inject_Z j / 100 <= 100)%Q.
Proof.
  intros Hy0 Hy Hj Hj0.
  assert (Hz : (j < 10001)%Z).
  { rewrite Zlt_Qlt. change (inject_Z 10001) with 10001%Q. lra. }
  assert (H1 : (inject_Z j <= 10000)%Q).
  { change 10000%Q with (inject_Z 10000). rewrite <- Zle_Qle. lia. }
  assert (H2 : (0 <= inject_Z j)%Q).
  { change 0%Q with (inject_Z 0). now rewrite <- Zle_Qle. }
  split; [apply Qle_shift_div_l; lra|apply Qle_shift_div_r; lra].
Qed.

(** [round] on a float64 percentage of [k] rows out of [n]. *)
Lemma round2_rate (k n : nat) (x : Q) :
  k <= n -> 0 < n -> (0 <= x)%Q ->
  (exact_percent k n - slack <= x)%Q -> (x <= exact_percent k n + slack)%Q ->
  ((0 <= round2 x)%Q /\ (round2 x <= 100)%Q) /\
  ((Z.of_nat n < 2 ^ 32)%Z -> rounded_to_2 (exact_percent k n) (round2 x)).
Proof.
  intros Hk Hn Hx0 Lx Ux.
  destruct (exact_percent_bounds k n Hk Hn) as [Hq0 Hq1].
  unfold round2. destruct (round_half_even_near (x * 100)) as [Lj Uj].
  pose proof (round_half_even_nonneg (x * 100)) as Hj0.
  set (j := round_half_even (x * 100)) in *.
  unfold exact_percent, slack in *.
  set (q := (inject_Z (Z.of_nat k) / inject_Z (Z.of_nat n))%Q) in *.
  split.
  - apply (hundredths_bounds j (x * 100)); try lra. apply Hj0. lra.
  - intros Hb.
    apply (nearest_hundredth k n j (1 # 34359738368) Hn Hb); fold q; lra.
Qed.

Lemma np_round2_rate (k n : nat) (x : Q) :
  k <= n -> 0 < n -> (0 <= x)%Q ->
  (exact_percent k n - slack <= x)%Q -> (x <= exact_percent k n + slack)%Q ->
  ((0 <= np_round2 x)%Q /\ (np_round2 x <= 100)%Q) /\
  ((Z.of_nat n < 2 ^ 32)%Z -> rounded_to_2 (exact_percent k n) (np_round2 x)).
Proof.
  intros Hk Hn Hx0 Lx Ux.
  destruct (exact_percent_bounds k n Hk Hn) as [Hq0 Hq1].
  unfold np_round2.
  assert (Hx100 : (0 <= x * 100)%Q) by lra.
  destruct (fl_near (x * 100) Hx100) as (Hy0 & Ly & Uy).
  set (y := fl (x * 100)) in *.
  destruct (round_half_even_near y) as [Lj Uj].
  pose proof (round_half_even_nonneg y Hy0) as Hj0.
  set (j := round_half_even y) in *.
  unfold exact_percent, slack in *.
  set (q := (inject_Z (Z.of_nat k) / inject_Z (Z.of_nat n))%Q) in *.
  split.
  - apply (hundredths_bounds j y); try lra. exact Hj0.
  - intros Hb.
    apply (nearest_hundredth k n j (1 # 34359738368) Hn Hb); fold q; lra.
Qed.

Section Rates.

Context {DL : DateLib}.

Lemma percent_of_Ok (bad total : nat) :
  exists q, percent_of bad total = Ok q.
Proof.
  unfold percent_of, truediv. destruct total as [|n]; simpl;
    eexists; reflexivity.
Qed.

Lemma np_percent_of_Ok (bad total : nat) :
  exists q, np_percent_of bad total = Ok q.
Proof.
  unfold np_percent_of. destruct (Nat.ltb 0 total); eexists; reflexivity.
Qed.

Lemma round2_0 : (round2 0 == 0)%Q.
Proof. reflexivity. Qed.

Lemma np_round2_0 : (np_round2 0 == 0)%Q.
Proof. reflexivity. Qed.

(** The percentage the Python operations compute for a group is its
    rate. *)
Lemma rate_of_percent (group : DataFrame) (q : Q) :
  percent_of (invalid_indeterminate group) (length group) = Ok q ->
  rate_of group (round2 q).
Proof.
  intros H. destruct (Nat.eq_dec (length group) 0) as [Hn|Hn].
  - unfold percent_of in H. rewrite Hn in H. injection H as <-.
    unfold rate_of. split; [intros; lia|]. split; [intros; reflexivity|].
    split; discriminate.
  - assert (Hlt : 0 < length group) by lia.
    destruct (percent_of_near (invalid_indeterminate group) (length group))
      as (x & E & Hx0 & Lx & Ux); [apply bad_counts_le|exact Hlt|].
    rewrite E in H. injection H as <-.
    destruct (round2_rate _ _ x (bad_counts_le _ _) Hlt Hx0 Lx Ux)
      as [[H0 H1] Hr].
    unfold rate_of. split; [intros _; exact Hr|]. split; [intros; lia|].
    split; assumption.
Qed.

(** The percentage the numpy operations compute for a group is its rate
    as well. *)
Lemma rate_of_np_percent (group : DataFrame) (q : Q) :
  np_percent_of (invalid_indeterminate group) (length group) = Ok q ->
  rate_of group (np_round2 q).
Proof.
  intros H. destruct (Nat.eq_dec (length group) 0) as [Hn|Hn].
  - unfold np_percent_of in H. rewrite Hn in H. injection H as <-.
    unfold rate_of. split; [intros; lia|]. split; [intros; reflexivity|].
    split; discriminate.
  - assert (Hlt : 0 < length group) by lia.
    destruct (np_percent_of_near (invalid_indeterminate group) (length group))
      as (x & E & Hx0 & Lx & Ux); [apply bad_counts_le|exact Hlt|].
    rewrite E in H. injection H as <-.
    destruct (np_round2_rate _ _ x (bad_counts_le _ _) Hlt Hx0 Lx Ux)
      as [[H0 H1] Hr].
    unfold rate_of. split; [intros _; exact Hr|]. split; [intros; lia|].
    split; assumption.
Qed.

(** The rate of the last rows of a group that has none is 0. *)
Lemma rate_of_nil : rate_of [] (np_round2 0).
Proof.
  unfold rate_of. simpl.
  split; [intros; lia|]. split; [intros; reflexivity|].
  split; discriminate.
Qed.


End Rates.

(* ------------------------------------------------------------------ *)
(** ** Splitting week keys *)

Lemma str_split_nonempty (c : ascii) (s : string) : str_split c s <> [].
Proof.
  destruct s as [|x r]; simpl; [discriminate|].
  destruct (Ascii.eqb x c); [discriminate|].
  destruct (str_split c r); discriminate.
Qed.

Lemma str_split_without (c : ascii) (s : string) :
  contains c s = false -> str_split c s = [s].
Proof.
  induction s as [|x r IH]; simpl; [reflexivity|].
  destruct (Ascii.eqb x c); simpl; [discriminate|].
  intros H. now rewrite (IH H).
Qed.

Lemma str_split_with (c : ascii) (s : string) :
  contains c s = true -> exists a b rest, str_split c s = a :: b :: rest.
Proof.
  induction s as [|x r IH]; simpl; [discriminate|].
  destruct (Ascii.eqb x c); simpl.
  - intros _. destruct (str_split c r) as [|b rest] eqn:E.
    + now apply str_split_nonempty in E.
    + now eexists _, _, _.
  - intros H. destruct (IH H) as (a & b & rest & ->). now eexists _, _, _.
Qed.

(** [s.split(c)[0]] is always there; [s.split(c)[1]] is there exactly
    when [s] contains [c]. *)
Lemma getitem_split_0 (c : ascii) (s : string) :
  exists a, getitem (str_split c s) 0 = Ok a.
Proof.
  unfold getitem. destruct (str_split c s) as [|a l] eqn:E.
  - now apply str_split_nonempty in E.
  - now exists a.
Qed.

Lemma getitem_split_1_without (c : ascii) (s : string) :
  contains c s = false -> getitem (str_split c s) 1 = Raise IndexError.
Proof. intros H. now rewrite (str_split_without _ _ H). Qed.

Lemma getitem_split_1_with (c : ascii) (s : string) :
  contains c s = true -> exists b, getitem (str_split c s) 1 = Ok b.
Proof.
  intros H. destruct (str_split_with _ _ H) as (a & b & rest & ->).
  now exists b.
Qed.

(* ------------------------------------------------------------------ *)
(** ** What each analysis returns *)

Section Analyses.

Context {DL : DateLib} {SK : SortKind}.

Lemma filter_by_nil col sentinel selected : filter_by col sentinel selected [] = [].
Proof.
  unfold filter_by. destruct selected as [s|]; [|reflexivity].
  now destruct (truthy (Some s) && negb (String.eqb s sentinel)).
Qed.

Lemma lot_entry_Ok (df : DataFrame) (lot_number : cell) :
  let lot_df := filter (fun r => cell_eq (Lot r) lot_number) df in
  exists row, lot_entry df lot_number = Ok row /\
    Lot_Number row = lot_number /\
    lot_Total_Runs row = length lot_df /\
    lot_Total_Invalid_Indeterminate row = invalid_indeterminate lot_df /\
    rate_of lot_df (lot_Invalid_Indeterminate_pct row).
Proof.
  intros lot_df. unfold lot_entry. fold lot_df.
  destruct (percent_of_Ok (invalid_indeterminate lot_df) (length lot_df))
    as [q E].
  pose proof (rate_of_percent lot_df q E) as Hrate.
  unfold invalid_indeterminate in E. rewrite E. unfold bind.
  eexists. split; [reflexivity|]. cbn [Lot_Number lot_Total_Runs
    lot_Total_Invalid_Indeterminate lot_Invalid_Indeterminate_pct].
  do 3 (split; [reflexivity|]). exact Hrate.
Qed.

Lemma lab_entry_Ok (df : DataFrame) (lab_name : cell) :
  let lab_df := filter (fun r => cell_eq (Lab_name r) lab_name) df in
  exists row, lab_entry df lab_name = Ok row /\
    Lab_Name row = lab_name /\
    Total_Tests row = length lab_df /\
    rate_of lab_df (lab_Invalid_Indeterminate_pct row) /\
    rate_of (tail_rows 10 lab_df) (Last_10_runs_Invalid_Indeterminate_pct row).
Proof.
  intros lab_df. unfold lab_entry. fold lab_df.
  destruct (np_percent_of_Ok (invalid_indeterminate lab_df) (length lab_df))
    as [q E].
  pose proof (rate_of_np_percent lab_df q E) as Hrate.
  unfold invalid_indeterminate in E. rewrite E. unfold bind at 1.
  set (last_10 := tail_rows 10 lab_df).
  destruct (np_percent_of_Ok (invalid_indeterminate last_10) (length last_10))
    as [q10 E10].
  pose proof (rate_of_np_percent last_10 q10 E10) as Hlast.
  unfold invalid_indeterminate in E10.
  destruct (empty last_10) eqn:Ee; cbn [negb].
  - unfold bind. eexists. split; [reflexivity|].
    cbn [Lab_Name Total_Tests lab_Invalid_Indeterminate_pct
         Last_10_runs_Invalid_Indeterminate_pct].
    do 2 (split; [reflexivity|]). split; [exact Hrate|].
    apply empty_true_iff in Ee. rewrite Ee. apply rate_of_nil.
  - rewrite E10. unfold bind. eexists. split; [reflexivity|].
    cbn [Lab_Name Total_Tests lab_Invalid_Indeterminate_pct
         Last_10_runs_Invalid_Indeterminate_pct].
    do 2 (split; [reflexivity|]). split; assumption.
Qed.

(** The rows a loop over the values of a column produces: one per value,
    each what its turn returns. *)
Lemma lot_table_Ok (df : DataFrame) :
  exists lots, mapM (lot_entry df) (unique cell_same (map Lot df)) = Ok lots.
Proof.
  apply mapM_total. intros lot _.
  destruct (lot_entry_Ok df lot) as (row & E & _). now exists row.
Qed.

Lemma lab_table_Ok (df : DataFrame) :
  exists labs, mapM (lab_entry df) (unique cell_same (map Lab_name df)) = Ok labs.
Proof.
  apply mapM_total. intros lab _.
  destruct (lab_entry_Ok df lab) as (row & E & _). now exists row.
Qed.

Lemma map_nonempty {X Y} (g : X -> Y) (l : list X) : l <> [] -> map g l <> [].
Proof. destruct l; simpl; congruence. Qed.

Lemma mapM_Ok_nonempty {X Y} (g : X -> pyresult Y) (l : list X) (r : list Y) :
  mapM g l = Ok r -> l <> [] -> r <> [].
Proof.
  intros H Hl Hr. apply mapM_Ok_length in H. subst r.
  destruct l; simpl in *; congruence.
Qed.

(** [lot_specific_analysis], case by case. *)
Lemma lot_specific_analysis_empty (df : DataFrame) (p : option string) :
  filter_profile p df = [] -> lot_specific_analysis (Some df) p = Ok (None, None).
Proof.
  intros H. unfold lot_specific_analysis.
  destruct (empty df); [reflexivity|]. now rewrite H.
Qed.

Lemma lot_specific_analysis_populated (df : DataFrame) (p : option string) :
  filter_profile p df <> [] ->
  exists lots,
    mapM (lot_entry (filter_profile p df))
      (unique cell_same (map Lot (filter_profile p df))) = Ok lots /\
    lots <> [] /\
    lot_specific_analysis (Some df) p =
      Ok (Some lots, Some (firstn 20 (sort_values_desc lot_Total_Runs lots))).
Proof.
  intros H. unfold lot_specific_analysis.
  destruct (empty df) eqn:Edf.
  { apply empty_true_iff in Edf. subst df. unfold filter_profile in H.
    now rewrite filter_by_nil in H. }
  set (d := filter_profile p df) in *.
  apply empty_false_iff in H as He. rewrite He.
  destruct (lot_table_Ok d) as [lots E]. exists lots.
  assert (Hne : lots <> []).
  { apply (mapM_Ok_nonempty _ _ _ E).
    apply unique_nonempty. now apply map_nonempty. }
  split; [exact E|]. split; [exact Hne|].
  rewrite E. simpl. destruct lots as [|x lots]; [congruence|]. reflexivity.
Qed.

(** [profile_summary], case by case. *)
Lemma profile_summary_empty (df : DataFrame) (p : option string) :
  filter_profile p df = [] -> profile_summary (Some df) p = Ok (None, None).
Proof.
  intros H. unfold profile_summary.
  destruct (empty df); [reflexivity|]. now rewrite H.
Qed.

Lemma profile_summary_populated (df : DataFrame) (p : option string) :
  filter_profile p df <> [] ->
  let d := filter_profile p df in
  exists s labs,
    profile_summary (Some df) p = Ok (Some s, Some labs) /\
    Total_Runs s = length d /\
    Total_Invalids s = count_eq Test_status "Invalid" d /\
    Total_Indeterminates s = count_eq Test_status "Indeterminate" d /\
    rate_of d (Overall_Invalid_Indeterminate_pct s) /\
    mapM (lab_entry d) (unique cell_same (map Lab_name d)) = Ok labs.
Proof.
  intros H d. unfold profile_summary.
  destruct (empty df) eqn:Edf.
  { apply empty_true_iff in Edf. subst df. unfold filter_profile in H.
    now rewrite filter_by_nil in H. }
  fold d. apply empty_false_iff in H as He. fold d in He. rewrite He.
  destruct (np_percent_of_Ok (invalid_indeterminate d) (length d)) as [q E]. pose proof E as E0.
  unfold invalid_indeterminate in E. rewrite E. simpl.
  destruct (lab_table_Ok d) as [labs El]. rewrite El. simpl.
  eexists _, labs. split; [reflexivity|]. simpl.
  do 3 (split; [reflexivity|]). split; [now apply rate_of_np_percent|reflexivity].
Qed.

End Analyses.

Section Weekly.

Context {DL : DateLib} {SK : SortKind}.

(** The [except (IndexError, ValueError)] catches everything the [try]
    can raise. *)
Lemma date_range_of_Ok (week : string) : exists s, date_range_of week = Ok s.
Proof.
  unfold date_range_of, week_date_range, getitem, bind.
  destruct (nth_error (str_split "-" week) 0); [|now eexists].
  destruct (nth_error (str_split "-" week) 1); [|now eexists].
  destruct (to_datetime_format _ _); now eexists.
Qed.

(** When the week key does not split, the fallback text is chosen. *)
Lemma date_range_of_without (week : string) :
  contains "-" week = false -> date_range_of week = Ok ("Week " ++ week).
Proof.
  intros H. unfold date_range_of, week_date_range.
  destruct (getitem_split_0 "-" week) as [a ->]. simpl.
  now rewrite (getitem_split_1_without _ _ H).
Qed.

(** When the week key splits but is not a date, the fallback text is
    chosen as well. *)
Lemma date_range_of_unreadable (week year week_num : string) :
  getitem (str_split "-" week) 0 = Ok year ->
  getitem (str_split "-" week) 1 = Ok week_num ->
  to_datetime_format "%Y-%U-%w" (year ++ "-" ++ week_num ++ "-1") = None ->
  date_range_of week = Ok ("Week " ++ week).
Proof.
  intros H0 H1 Hp. unfold date_range_of, week_date_range.
  rewrite H0, H1. unfold bind. now rewrite Hp.
Qed.

Lemma week_display_of_without (week : string) :
  contains "-" week = false -> week_display_of week = Raise IndexError.
Proof.
  intros H. unfold week_display_of.
  destruct (getitem_split_0 "-" week) as [a ->]. simpl.
  now rewrite (getitem_split_1_without _ _ H).
Qed.

Lemma week_display_of_with (week : string) :
  contains "-" week = true -> exists s, week_display_of week = Ok s.
Proof.
  intros H. unfold week_display_of.
  destruct (getitem_split_0 "-" week) as [a ->]. simpl.
  destruct (getitem_split_1_with _ _ H) as [b ->]. simpl. now eexists.
Qed.

Lemma lab_week_entry_without (week date_range : string) (week_df : DataFrame)
  (lab_name : cell) :
  contains "-" week = false ->
  lab_week_entry week date_range week_df lab_name = Raise IndexError.
Proof.
  intros H. unfold lab_week_entry.
  set (g := filter _ week_df).
  destruct (percent_of_Ok (invalid_indeterminate g) (length g)) as [q E]. pose proof E as E0.
  unfold invalid_indeterminate in E. rewrite E. simpl.
  now rewrite (week_display_of_without _ H).
Qed.

Lemma lab_week_entry_with (week date_range : string) (week_df : DataFrame)
  (lab_name : cell) :
  contains "-" week = true ->
  let g := filter (fun r => cell_eq (Lab_name r) lab_name) week_df in
  exists row, lab_week_entry week date_range week_df lab_name = Ok row /\
    wk_Lab_Name row = lab_name /\
    wk_Date_Range row = date_range /\
    wk_Total_Runs row = length g /\
    rate_of g (wk_Invalid_Indeterminate_pct row).
Proof.
  intros H g. unfold lab_week_entry. fold g.
  destruct (percent_of_Ok (invalid_indeterminate g) (length g)) as [q E]. pose proof E as E0.
  unfold invalid_indeterminate in E. rewrite E. simpl.
  destruct (week_display_of_with _ H) as [s ->]. simpl.
  eexists. split; [reflexivity|]. simpl.
  do 3 (split; [reflexivity|]). now apply rate_of_percent.
Qed.

Lemma week_entries_with (df : DataFrame) (week : string) :
  contains "-" week = true ->
  exists rows, week_entries df week = Ok rows /\
    Forall (fun row =>
              rate_of (week_lab_group df week (wk_Lab_Name row))
                (wk_Invalid_Indeterminate_pct row)) rows /\
    length rows =
      length (unique cell_same
                (map Lab_name (filter (fun r => String.eqb (Week r) week) df))).
Proof.
  intros H. unfold week_entries.
  destruct (date_range_of_Ok week) as [dr ->]. simpl.
  set (week_df := filter _ df).
  destruct (mapM_total (lab_week_entry week dr week_df)
              (unique cell_same (map Lab_name week_df))) as [rows E].
  { intros lab _.
    destruct (lab_week_entry_with week dr week_df lab H) as (row & Er & _).
    now exists row. }
  exists rows. split; [exact E|]. split.
  - apply Forall_forall. intros row Hrow.
    destruct (mapM_Ok_In _ _ _ _ E Hrow) as (lab & _ & Er).
    destruct (lab_week_entry_with week dr week_df lab H)
      as (row' & Er' & Hlab & _ & _ & Hrate).
    rewrite Er in Er'. injection Er' as <-. now rewrite Hlab.
  - now apply mapM_Ok_length in E.
Qed.

Lemma week_entries_without (df : DataFrame) (week : string) :
  contains "-" week = false ->
  In week (map Week df) ->
  week_entries df week = Raise IndexError.
Proof.
  intros H Hin. unfold week_entries.
  destruct (date_range_of_Ok week) as [dr ->]. simpl.
  set (week_df := filter _ df).
  assert (Hne : unique cell_same (map Lab_name week_df) <> []).
  { apply unique_nonempty, map_nonempty.
    apply in_map_iff in Hin as (r & Hr & Hin).
    intros E.
    assert (Hr' : In r week_df).
    { apply filter_In. split; [exact Hin|]. now apply String.eqb_eq. }
    rewrite E in Hr'. contradiction. }
  destruct (unique cell_same (map Lab_name week_df)) as [|lab labs];
    [congruence|].
  simpl. now rewrite (lab_week_entry_without _ _ _ _ H).
Qed.

Lemma week_keys_In (df : DataFrame) (week : string) :
  In week (sorted (unique String.eqb (map Week df))) <-> In week (map Week df).
Proof. rewrite sorted_In. apply unique_In, string_eqb_iff. Qed.

(** The two loops finish when every week key splits. *)
Lemma weekly_lab_data_with (df : DataFrame) :
  (forall r, In r df -> contains "-" (Week r) = true) ->
  exists rows, weekly_lab_data df = Ok rows /\
    Forall (fun row => exists week,
              rate_of (week_lab_group df week (wk_Lab_Name row))
                (wk_Invalid_Indeterminate_pct row)) rows.
Proof.
  intros H. unfold weekly_lab_data.
  assert (Hw : forall week, In week (sorted (unique String.eqb (map Week df))) ->
                            contains "-" week = true).
  { intros week Hin. apply week_keys_In, in_map_iff in Hin as (r & <- & Hr).
    now apply H. }
  destruct (mapM_total (week_entries df) (sorted (unique String.eqb (map Week df))))
    as [per_week E].
  { intros week Hin.
    destruct (week_entries_with df week (Hw week Hin)) as (rows & Er & _).
    now exists rows. }
  rewrite E. simpl. eexists. split; [reflexivity|].
  apply Forall_forall. intros row Hrow.
  apply in_concat in Hrow as (rows & Hrows & Hrow).
  destruct (mapM_Ok_In _ _ _ _ E Hrows) as (week & Hin & Er).
  destruct (week_entries_with df week (Hw week Hin)) as (rows' & Er' & Hall & _).
  rewrite Er in Er'. injection Er' as <-.
  exists week. rewrite Forall_forall in Hall. now apply Hall.
Qed.

(** They stop with IndexError when some week key does not. *)
Lemma weekly_lab_data_without (df : DataFrame) :
  (exists r, In r df /\ contains "-" (Week r) = false) ->
  weekly_lab_data df = Raise IndexError.
Proof.
  intros (r & Hr & Hd). unfold weekly_lab_data.
  rewrite (mapM_raises (week_entries df) IndexError); [reflexivity| |].
  - intros week Hin. apply week_keys_In in Hin.
    destruct (contains "-" week) eqn:E.
    + right. destruct (week_entries_with df week E) as (rows & Er & _).
      now exists rows.
    + left. now apply week_entries_without.
  - exists (Week r). split.
    + apply week_keys_In. now apply in_map.
    + apply week_entries_without; [exact Hd|now apply in_map].
Qed.

Lemma all_or_some_without (df : DataFrame) :
  (forall r, In r df -> contains "-" (Week r) = true) \/
  (exists r, In r df /\ contains "-" (Week r) = false).
Proof.
  induction df as [|r df [IH|(r' & Hr' & Hd)]].
  - left. intros r [].
  - destruct (contains "-" (Week r)) eqn:E.
    + left. intros r' [<-|Hr']; auto.
    + right. exists r. simpl. auto.
  - right. exists r'. simpl. auto.
Qed.

End Weekly.

(* ------------------------------------------------------------------ *)
(** ** Orders and sorted tables *)

Lemma ascii_compare_trans_le (a b c : ascii) :
  Ascii.compare a b <> Gt -> Ascii.compare b c <> Gt ->
  Ascii.compare a c <> Gt.
Proof.
  unfold Ascii.compare. rewrite !N.compare_le_iff. apply N.le_trans.
Qed.

Lemma string_compare_trans_le (s1 s2 s3 : string) :
  String.compare s1 s2 <> Gt -> String.compare s2 s3 <> Gt ->
  String.compare s1 s3 <> Gt.
Proof.
  revert s2 s3. induction s1 as [|a s1 IH]; intros [|b s2] [|c s3]; simpl;
    try congruence.
  destruct (Ascii.compare a b) eqn:Eab; try congruence;
    destruct (Ascii.compare b c) eqn:Ebc; try congruence; intros H1 H2.
  - apply Ascii.compare_eq_iff in Eab, Ebc. subst.
    assert (E : Ascii.compare c c = Eq).
    { unfold Ascii.compare. apply N.compare_refl. }
    rewrite E. eauto.
  - apply Ascii.compare_eq_iff in Eab. subst. now rewrite Ebc.
  - apply Ascii.compare_eq_iff in Ebc. subst. now rewrite Eab.
  - assert (Hac : Ascii.compare a c <> Gt).
    { apply (ascii_compare_trans_le a b c); congruence. }
    destruct (Ascii.compare a c) eqn:Eac; try congruence.
    apply Ascii.compare_eq_iff in Eac. subst.
    unfold Ascii.compare in Eab, Ebc.
    rewrite N.compare_lt_iff in Eab, Ebc. lia.
Qed.

Lemma string_leb_trans (s1 s2 s3 : string) :
  String.leb s1 s2 = true -> String.leb s2 s3 = true -> String.leb s1 s3 = true.
Proof.
  unfold String.leb. intros H1 H2.
  assert (H : String.compare s1 s3 <> Gt).
  { apply (string_compare_trans_le s1 s2 s3).
    - destruct (String.compare s1 s2); congruence.
    - destruct (String.compare s2 s3); congruence. }
  destruct (String.compare s1 s3); congruence.
Qed.

Lemma key_leb_total {R} (key : R -> cell) (x y : R) :
  key_leb key x y = true \/ key_leb key y x = true.
Proof.
  unfold key_leb. destruct (key x), (key y); auto. apply String.leb_total.
Qed.

Lemma key_leb_trans {R} (key : R -> cell) (x y z : R) :
  key_leb key x y = true -> key_leb key y z = true -> key_leb key x z = true.
Proof.
  unfold key_leb. destruct (key x), (key y), (key z); try congruence.
  apply string_leb_trans.
Qed.

Section SortedTables.

Context {R : Type}.

Lemma StronglySorted_impl (rel rel' : R -> R -> Prop) (l : list R) :
  (forall a b, rel a b -> rel' a b) ->
  StronglySorted rel l -> StronglySorted rel' l.
Proof.
  intros Himp. induction 1 as [|x l Hs IH Hx]; constructor; [exact IH|].
  eapply Forall_impl; [|exact Hx]. intros b. apply Himp.
Qed.

Lemma StronglySorted_app (rel : R -> R -> Prop) (l1 l2 : list R) :
  StronglySorted rel l1 -> StronglySorted rel l2 ->
  (forall a b, In a l1 -> In b l2 -> rel a b) ->
  StronglySorted rel (l1 ++ l2).
Proof.
  induction 1 as [|x l1 Hs IH Hx]; simpl; intros H2 Hc; [exact H2|].
  constructor.
  - apply IH; [exact H2|]. intros; apply Hc; simpl; auto.
  - apply Forall_app. split; [exact Hx|].
    apply Forall_forall. intros b Hb. apply Hc; simpl; auto.
Qed.

Lemma StronglySorted_rev (rel : R -> R -> Prop) (l : list R) :
  StronglySorted rel l -> StronglySorted (fun a b => rel b a) (rev l).
Proof.
  induction 1 as [|x l Hs IH Hx]; simpl; [constructor|].
  apply StronglySorted_app; [exact IH|repeat constructor|].
  intros a b Ha [<-|[]]. rewrite Forall_forall in Hx.
  apply Hx. now apply in_rev.
Qed.

Lemma StronglySorted_app_inv (rel : R -> R -> Prop) (l1 l2 : list R) :
  StronglySorted rel (l1 ++ l2) ->
  StronglySorted rel l1 /\ StronglySorted rel l2 /\
  (forall a b, In a l1 -> In b l2 -> rel a b).
Proof.
  induction l1 as [|x l1 IH]; simpl; intros H.
  - repeat split; [constructor|exact H|tauto].
  - inversion H as [|? ? Hs Hx]; subst.
    destruct (IH Hs) as (H1 & H2 & Hc).
    apply Forall_app in Hx as [Hx1 Hx2].
    repeat split; [now constructor|exact H2|].
    intros a b [<-|Ha] Hb; [|now apply Hc].
    rewrite Forall_forall in Hx2. now apply Hx2.
Qed.

Lemma filter_partition (f : R -> bool) (l : list R) :
  Permutation l (filter f l ++ filter (fun r => negb (f r)) l).
Proof.
  induction l as [|x l IH]; simpl; [constructor|].
  destruct (f x); simpl; [now constructor|].
  now apply Permutation_cons_app.
Qed.

Context {SK : SortKind}.
Hypothesis sort_ok : SortContract SK.

(** [sort_values(col, ascending=False)] rearranges the rows into
    nonincreasing key order. *)
Lemma sort_values_desc_perm (key : R -> nat) (df : list R) :
  Permutation df (sort_values_desc key df).
Proof.
  unfold sort_values_desc.
  rewrite <- Permutation_rev, <- (argsort_perm SK sort_ok).
  apply Permutation_rev.
Qed.

Lemma sort_values_desc_sorted (key : R -> nat) (df : list R) :
  StronglySorted (fun a b => key b <= key a) (sort_values_desc key df).
Proof.
  unfold sort_values_desc.
  apply (StronglySorted_rev (fun a b => key a <= key b)).
  apply (StronglySorted_impl (fun a b => Nat.leb (key a) (key b) = true)).
  - intros a b. apply Nat.leb_le.
  - apply (argsort_sorted SK sort_ok).
    + intros x y. rewrite !Nat.leb_le. lia.
    + intros x y z. rewrite !Nat.leb_le. lia.
Qed.

Lemma sort_values_desc_length (key : R -> nat) (df : list R) :
  length (sort_values_desc key df) = length df.
Proof. symmetry. apply Permutation_length, sort_values_desc_perm. Qed.

(** [sort_values(col)] rearranges the rows into nondecreasing key order,
    NaN keys last. *)
Lemma sort_values_asc_perm (key : R -> cell) (df : list R) :
  Permutation df (sort_values_asc key df).
Proof.
  unfold sort_values_asc.
  rewrite <- (argsort_perm SK sort_ok). apply filter_partition.
Qed.

Lemma sort_values_asc_sorted (key : R -> cell) (df : list R) :
  StronglySorted (fun a b => key_leb key a b = true) (sort_values_asc key df).
Proof.
  unfold sort_values_asc. apply StronglySorted_app.
  - apply (argsort_sorted SK sort_ok);
      [apply key_leb_total|apply key_leb_trans].
  - induction df as [|x df IH]; simpl; [constructor|].
    destruct (notna key x) eqn:E; simpl; [exact IH|].
    constructor; [exact IH|].
    apply Forall_forall. intros b Hb. apply filter_In in Hb as [_ Hb].
    unfold notna in Hb. unfold key_leb.
    destruct (key b); [discriminate|]. now destruct (key x).
  - intros a b _ Hb. apply filter_In in Hb as [_ Hb].
    unfold notna in Hb. unfold key_leb.
    destruct (key b); [discriminate|]. now destruct (key a).
Qed.

End SortedTables.

Section Trend.

Context {DL : DateLib} {SK : SortKind}.
Hypothesis sort_ok : SortContract SK.

Lemma groupby_agg_keys (col : Row -> string) (df : DataFrame) (g : TrendGroup) :
  In g (groupby_agg col df) -> exists r, In r df /\ col r = group_key g.
Proof.
  unfold groupby_agg. intros H. apply in_map_iff in H as (k & <- & Hk).
  simpl. rewrite sorted_In, (unique_In String.eqb string_eqb_iff) in Hk.
  apply in_map_iff in Hk as (r & <- & Hr). now exists r.
Qed.

Lemma groupby_agg_nonempty (col : Row -> string) (df : DataFrame) :
  df <> [] -> groupby_agg col df <> [].
Proof.
  intros H. unfold groupby_agg.
  apply map_nonempty, sorted_nonempty, unique_nonempty. now apply map_nonempty.
Qed.

Lemma sort_by_date_nonempty (rows : list TrendRow) :
  rows <> [] -> sort_by_date rows <> [].
Proof.
  intros H E. unfold sort_by_date in E.
  pose proof (argsort_perm SK sort_ok _
                (fun a b => ts_leb (trend_date a) (trend_date b)) rows) as Hp.
  rewrite E in Hp. apply Permutation_sym, Permutation_nil in Hp. congruence.
Qed.

Lemma convert_keys_total (parse : string -> option Timestamp)
  (groups : list (string * TrendGroup)) :
  (forall kg, In kg groups -> parse (fst kg) <> None) ->
  exists rows, convert_keys parse groups = Ok rows.
Proof.
  intros H. apply mapM_total. intros kg Hin.
  specialize (H kg Hin). destruct (parse (fst kg)); [now eexists|congruence].
Qed.

Lemma Forall2_combine_In {X Y} (rel : X -> Y -> Prop) (l1 : list X) (l2 : list Y)
  (x : X) (y : Y) :
  Forall2 rel l1 l2 -> In (y, x) (combine l2 l1) -> rel x y.
Proof.
  induction 1 as [|a b l1 l2 Hab _ IH]; simpl; [tauto|].
  intros [E|H]; [injection E as <- <-; exact Hab|auto].
Qed.

Lemma combine_nonempty {X Y} (l1 : list X) (l2 : list Y) :
  length l1 = length l2 -> l2 <> [] -> combine l1 l2 <> [].
Proof. destruct l1, l2; simpl; congruence. Qed.

(** With every key of the filtered rows convertible, both tables are
    built. *)
Lemma trend_analysis_converts (df : DataFrame) (p l : option string) :
  let d := filter_lab l (filter_profile p df) in
  d <> [] -> forallb key_converts d = true ->
  exists m w, trend_analysis (Some df) p l = Ok (Some m, Some w) /\
              m <> [] /\ w <> [].
Proof.
  intros d Hd Hc. unfold trend_analysis.
  destruct (empty df) eqn:Edf.
  { apply empty_true_iff in Edf. subst df. unfold d, filter_lab, filter_profile in Hd.
    now rewrite !filter_by_nil in Hd. }
  fold d. apply empty_false_iff in Hd as He. fold d in He. rewrite He.
  rewrite forallb_forall in Hc.
  destruct (convert_keys_total to_datetime
              (map (fun g => (group_key g ++ "-01", g)) (groupby_agg Month d)))
    as [monthly Em].
  { intros kg Hin. apply in_map_iff in Hin as (g & <- & Hg). simpl.
    apply groupby_agg_keys in Hg as (r & Hr & <-).
    specialize (Hc r Hr). unfold key_converts in Hc.
    destruct (to_datetime (Month r ++ "-01")); congruence. }
  rewrite Em. unfold bind at 1.
  destruct (mapM_total (fun g => week_to_text (group_key g)) (groupby_agg Week d))
    as [keys Ek].
  { intros g Hg. apply groupby_agg_keys in Hg as (r & Hr & <-).
    specialize (Hc r Hr). unfold key_converts in Hc.
    destruct (to_datetime (Month r ++ "-01")); [|discriminate].
    destruct (week_to_text (Week r)); [now eexists|discriminate]. }
  rewrite Ek. unfold bind at 1.
  destruct (convert_keys_total (to_datetime_format "%Y-W%U-%w")
              (combine keys (groupby_agg Week d))) as [weekly Ew].
  { intros [t g] Hin. simpl.
    pose proof (mapM_Ok_Forall2 _ _ _ Ek) as HF.
    pose proof (Forall2_combine_In _ _ _ _ _ HF Hin) as Ht. simpl in Ht.
    apply in_combine_r, groupby_agg_keys in Hin as (r & Hr & E).
    specialize (Hc r Hr). unfold key_converts in Hc.
    destruct (to_datetime (Month r ++ "-01")); [|discriminate].
    rewrite E, Ht in Hc.
    destruct (to_datetime_format "%Y-W%U-%w" t); congruence. }
  rewrite Ew. unfold bind.
  eexists _, _. split; [reflexivity|]. split.
  - apply sort_by_date_nonempty.
    apply (mapM_Ok_nonempty _ _ _ Em), map_nonempty.
    now apply groupby_agg_nonempty.
  - apply sort_by_date_nonempty.
    apply (mapM_Ok_nonempty _ _ _ Ew), combine_nonempty.
    + now apply mapM_Ok_length in Ek.
    + now apply groupby_agg_nonempty.
Qed.

Lemma trend_analysis_empty (df : DataFrame) (p l : option string) :
  filter_lab l (filter_profile p df) = [] ->
  trend_analysis (Some df) p l = Ok (None, None).
Proof.
  intros H. unfold trend_analysis.
  destruct (empty df); [reflexivity|]. now rewrite H.
Qed.

(** Whatever [trend_analysis] returns is two empty-signals or two tables
    with rows. *)
Lemma trend_analysis_Ok (df : DataFrame) (p l : option string) r :
  let d := filter_lab l (filter_profile p df) in
  trend_analysis (Some df) p l = Ok r ->
  (d = [] /\ r = (None, None)) \/
  (d <> [] /\ exists m w, r = (Some m, Some w) /\ m <> [] /\ w <> []).
Proof.
  intros d H. destruct (empty d) eqn:He.
  - apply empty_true_iff in He. unfold d in He.
    rewrite (trend_analysis_empty _ _ _ He) in H. injection H as <-.
    left. split; [exact He|reflexivity].
  - assert (Hd : d <> []) by now apply empty_false_iff.
    right. split; [exact Hd|].
    unfold trend_analysis in H.
    destruct (empty df) eqn:Edf.
    { apply empty_true_iff in Edf. subst df.
      unfold d, filter_lab, filter_profile in Hd.
      now rewrite !filter_by_nil in Hd. }
    fold d in H. rewrite He in H.
    destruct (convert_keys to_datetime _) as [monthly|e] eqn:Em;
      [|discriminate].
    unfold bind at 1 in H.
    destruct (mapM (fun g => week_to_text (group_key g)) _) as [keys|e] eqn:Ek;
      [|discriminate].
    unfold bind at 1 in H.
    destruct (convert_keys (to_datetime_format "%Y-W%U-%w") _) as [weekly|e] eqn:Ew;
      [|discriminate].
    unfold bind in H. injection H as <-.
    eexists _, _. split; [reflexivity|]. split.
    + apply sort_by_date_nonempty.
      apply (mapM_Ok_nonempty _ _ _ Em), map_nonempty.
      now apply groupby_agg_nonempty.
    + apply sort_by_date_nonempty.
      apply (mapM_Ok_nonempty _ _ _ Ew), combine_nonempty.
      * now apply mapM_Ok_length in Ek.
      * now apply groupby_agg_nonempty.
Qed.


End Trend.

(* ------------------------------------------------------------------ *)
(** ** The cache of [profile_id_analysis] *)

Section Cache.

Context {DL : DateLib}.

Lemma key_eqb_eq (a b : CacheKey) : key_eqb a b = true <-> a = b.
Proof.
  destruct a as [h1 p1], b as [h2 p2]. unfold key_eqb. simpl.
  rewrite andb_true_iff. split.
  - intros [H1 H2]. f_equal.
    + destruct h1, h2; try discriminate; [|reflexivity].
      apply Z.eqb_eq in H1. now subst.
    + destruct p1, p2; try discriminate; [|reflexivity].
      apply String.eqb_eq in H2. now subst.
  - intros E. injection E as <- <-. split.
    + destruct h1; [apply Z.eqb_refl|reflexivity].
    + destruct p1; [apply String.eqb_refl|reflexivity].
Qed.

Lemma find_firstn {X} (f : X -> bool) (n : nat) (l : list X) (x : X) :
  find f (firstn n l) = Some x -> find f l = Some x.
Proof.
  revert n. induction l as [|y l IH]; intros [|n]; simpl; try discriminate.
  destruct (f y); [auto|apply IH].
Qed.

Lemma find_filter {X} (f g : X -> bool) (l : list X) :
  (forall x, f x = true -> g x = true) -> find f (filter g l) = find f l.
Proof.
  intros H. induction l as [|y l IH]; simpl; [reflexivity|].
  destruct (g y) eqn:Eg; simpl.
  - now rewrite IH.
  - destruct (f y) eqn:Ef; [|exact IH]. rewrite (H y Ef) in Eg. discriminate.
Qed.

Lemma cache_get_cons (k k' : CacheKey) (r : ProfileResult) c :
  cache_get k' ((k, r) :: c) =
  if key_eqb k k' then Some r else cache_get k' c.
Proof. unfold cache_get. simpl. now destruct (key_eqb k k'). Qed.

Lemma cache_get_firstn (k : CacheKey) (n : nat) c (r : ProfileResult) :
  cache_get k (firstn n c) = Some r -> cache_get k c = Some r.
Proof.
  unfold cache_get.
  destruct (find _ (firstn n c)) as [e|] eqn:Ef; [|discriminate].
  apply find_firstn in Ef. now rewrite Ef.
Qed.

(** With a coherent cache a call returns what the body returns on the
    session's frame, whatever [df_hash] is. *)
Lemma profile_id_analysis_coherent (h : option Z) (p : option string)
  (st : Session) :
  coherent st ->
  fst (profile_id_analysis h p st) = profile_summary (session_data st) p.
Proof.
  intros Hc. unfold profile_id_analysis.
  destruct (cache_get (h, p) (cache st)) as [r|] eqn:E.
  - simpl. symmetry. apply (Hc (h, p) r E).
  - now destruct (profile_summary (session_data st) p).
Qed.

(** Calls keep the session's frame and keep the cache coherent. *)
Lemma profile_id_analysis_keeps (h : option Z) (p : option string)
  (st : Session) :
  coherent st ->
  coherent (snd (profile_id_analysis h p st)) /\
  session_data (snd (profile_id_analysis h p st)) = session_data st.
Proof.
  intros Hc. unfold profile_id_analysis.
  destruct (cache_get (h, p) (cache st)) as [r|] eqn:E.
  - simpl. split; [|reflexivity]. intros k' r'. simpl.
    rewrite cache_get_cons.
    destruct (key_eqb (h, p) k') eqn:Ek.
    + apply key_eqb_eq in Ek. subst k'. intros H. injection H as <-.
      apply (Hc (h, p) r E).
    + unfold cache_get. rewrite find_filter.
      * apply (Hc k' r').
      * intros [k0 r0]. simpl. intros H0.
        apply key_eqb_eq in H0. subst k0.
        destruct (key_eqb k' (h, p)) eqn:E2; [|reflexivity].
        apply key_eqb_eq in E2. subst k'.
        assert (key_eqb (h, p) (h, p) = true) by now apply key_eqb_eq.
        congruence.
  - destruct (profile_summary (session_data st) p) as [r|e] eqn:Eb;
      cbn [fst snd session_data cache].
    + split; [|reflexivity]. intros k' r'. cbn [cache snd]. intros H.
      apply cache_get_firstn in H. rewrite cache_get_cons in H.
      destruct (key_eqb (h, p) k') eqn:Ek.
      * injection H as <-. apply key_eqb_eq in Ek. now subst k'.
      * now apply (Hc k' r').
    + split; [exact Hc|reflexivity].
Qed.

Lemma coherent_no_cache (df : option DataFrame) : coherent (mkSession df []).
Proof. intros k r. discriminate. Qed.

End Cache.

(* ------------------------------------------------------------------ *)
(** ** The properties of the specification *)

Section Claims.

Context {DL : DateLib} {SK : SortKind}.
Hypothesis sort_ok : SortContract SK.




Lemma weekly_analysis_cases (df : DataFrame) (p l : option string) :
  let d := filter_lab l (filter_profile p df) in
  weekly_analysis (Some df) p l =
  if empty d then Ok None
  else df_result <- weekly_lab_data d ;;
       Ok (Some (if negb (empty df_result)
                 then sort_values_asc wk_Lab_Name df_result
                 else df_result)).
Proof.
  intros d. unfold weekly_analysis. destruct (empty df) eqn:Edf; [|reflexivity].
  apply empty_true_iff in Edf. subst df. unfold d, filter_lab, filter_profile.
  now rewrite !filter_by_nil.
Qed.

(** What a turn of the loop over the labs puts in its row. *)
Lemma lab_week_entry_fields (week date_range : string) (week_df : DataFrame)
  (lab_name : cell) (row : WeeklyRow) :
  lab_week_entry week date_range week_df lab_name = Ok row ->
  let g := filter (fun r => cell_eq (Lab_name r) lab_name) week_df in
  exists year week_num,
    getitem (str_split "-" week) 0 = Ok year /\
    getitem (str_split "-" week) 1 = Ok week_num /\
    wk_Week row = year ++ " Week " ++ week_num /\
    wk_Date_Range row = date_range /\
    wk_Lab_Name row = lab_name /\
    wk_Total_Runs row = length g /\
    wk_Total_Invalid_Indeterminate row = invalid_indeterminate g.
Proof using Type.
  intros H g. unfold lab_week_entry in H. fold g in H.
  destruct (percent_of_Ok (invalid_indeterminate g) (length g)) as [q E]. pose proof E as E0.
  unfold invalid_indeterminate in E. rewrite E in H. unfold bind at 1 in H.
  unfold week_display_of in H.
  destruct (getitem (str_split "-" week) 0) as [year|e]; [|discriminate].
  unfold bind at 2 in H.
  destruct (getitem (str_split "-" week) 1) as [week_num|e]; [|discriminate].
  unfold bind in H. injection H as <-.
  exists year, week_num. repeat split.
Qed.

Lemma week_entries_steps (df : DataFrame) (week : string)
  (rows : list WeeklyRow) :
  week_entries df week = Ok rows ->
  exists date_range,
    date_range_of week = Ok date_range /\
    mapM (lab_week_entry week date_range
            (filter (fun r => String.eqb (Week r) week) df))
      (unique cell_same
         (map Lab_name (filter (fun r => String.eqb (Week r) week) df)))
    = Ok rows.
Proof using Type.
  unfold week_entries. destruct (date_range_of week) as [dr|e]; [|discriminate].
  unfold bind. intros H. now exists dr.
Qed.

Lemma weekly_analysis_steps (df : DataFrame) (p l : option string)
  (rows : list WeeklyRow) :
  weekly_analysis (Some df) p l = Ok (Some rows) ->
  let d := filter_lab l (filter_profile p df) in
  exists per_week,
    mapM (week_entries d) (sorted (unique String.eqb (map Week d))) = Ok per_week /\
    Permutation (concat per_week) rows.
Proof using sort_ok.
  intros H d. rewrite weekly_analysis_cases in H. fold d in H.
  destruct (empty d); [discriminate|]. unfold weekly_lab_data in H.
  destruct (mapM (week_entries d) _) as [per_week|e]; [|discriminate].
  unfold bind in H. injection H as <-. exists per_week. split; [reflexivity|].
  destruct (negb (empty (concat per_week))); [|reflexivity].
  apply (sort_values_asc_perm sort_ok).
Qed.

(** What the [try] leaves in [date_range] for a week key that splits. *)
Lemma date_range_of_split (week year week_num date_range : string) :
  getitem (str_split "-" week) 0 = Ok year ->
  getitem (str_split "-" week) 1 = Ok week_num ->
  date_range_of week = Ok date_range ->
  match to_datetime_format "%Y-%U-%w" (year ++ "-" ++ week_num ++ "-1") with
  | Some week_start =>
      date_range =
        strftime "%d-%m-%Y" week_start ++ " to "
        ++ strftime "%d-%m-%Y" (add_days week_start 6)
  | None => date_range = "Week " ++ week
  end.
Proof using Type.
  intros H0 H1. unfold date_range_of, week_date_range.
  rewrite H0, H1. unfold bind.
  destruct (to_datetime_format "%Y-%U-%w" (year ++ "-" ++ week_num ++ "-1"));
    intros H; now injection H as <-.
Qed.








Lemma lot_table_numbers (d : DataFrame) (lots : list LotRow) :
  mapM (lot_entry d) (unique cell_same (map Lot d)) = Ok lots ->
  map Lot_Number lots = unique cell_same (map Lot d).
Proof.
  intros E. apply mapM_Ok_Forall2 in E.
  induction E as [|lot row keys rows Hrow _ IH]; simpl; [reflexivity|].
  destruct (lot_entry_Ok d lot) as (row' & Er & Hlot & _).
  rewrite Hrow in Er. injection Er as <-. now rewrite Hlot, IH.
Qed.


(** A filter that asks for a value (a non-empty string other than the
    sentinel) which no row has leaves no row. *)
Lemma filter_by_absent (col : Row -> cell) (sentinel value : string)
  (df : DataFrame) :
  value <> "" -> value <> sentinel ->
  (forall r, In r df -> col r <> Some value) ->
  filter_by col sentinel (Some value) df = [].
Proof.
  intros H1 H2 Habs. unfold filter_by, truthy.
  apply String.eqb_neq in H1, H2. rewrite H1, H2. simpl.
  induction df as [|r df IH]; simpl; [reflexivity|].
  destruct (cell_eq_str (col r) value) eqn:E.
  - exfalso. apply (Habs r); [now left|].
    unfold cell_eq_str in E. destruct (col r) as [x|]; [|discriminate].
    apply String.eqb_eq in E. now subst.
  - apply IH. intros r' Hr'. apply Habs. now right.
Qed.

(** C4 (as amended). When no row is left after the profile and lab
    filters, Lot Summary returns (None, None), Trend returns (None, None)
    and Weekly-by-Lab returns None, and so does the body of Profile
    Summary; none of them raises.  A profile filter that names a
    non-empty identifier other than "All" which no row carries leaves no
    row.  Profile Summary itself reads the Dataset from the session and
    answers through its cache: it returns (None, None) on such a Dataset
    when nothing is stored under its arguments, or when the cache is
    coherent with the session's Dataset, and it returns what is stored
    under its arguments whenever something is.  The same empty-signals
    are returned with no Dataset at all. *)
Theorem C4_empty_signal (df : DataFrame) (p l : option string)
  (h : option Z) (st : Session) :
  (filter_profile p df = [] ->
     lot_specific_analysis (Some df) p = Ok (None, None) /\
     profile_summary (Some df) p = Ok (None, None) /\
     (session_data st = Some df ->
      cache_get (h, p) (cache st) = None \/ coherent st ->
      fst (profile_id_analysis h p st) = Ok (None, None))) /\
  (filter_lab l (filter_profile p df) = [] ->
     trend_analysis (Some df) p l = Ok (None, None) /\
     weekly_analysis (Some df) p l = Ok None) /\
  (forall pid, p = Some pid -> pid <> "" -> pid <> "All" ->
     (forall r, In r df -> Profile_id r <> Some pid) ->
     filter_profile p df = [] /\ filter_lab l (filter_profile p df) = []) /\
  (forall r, cache_get (h, p) (cache st) = Some r ->
     fst (profile_id_analysis h p st) = Ok r) /\
  (profile_summary None p = Ok (None, None) /\
   lot_specific_analysis None p = Ok (None, None) /\
   trend_analysis None p l = Ok (None, None) /\
   weekly_analysis None p l = Ok None).
Proof.
  split; [|split; [|split; [|split]]].
  - intros H. split; [now apply lot_specific_analysis_empty|].
    split; [now apply profile_summary_empty|].
    intros Hd [Hmiss|Hc].
    + unfold profile_id_analysis. rewrite Hmiss, Hd.
      now rewrite (profile_summary_empty df p H).
    + rewrite (profile_id_analysis_coherent h p st Hc), Hd.
      now apply profile_summary_empty.
  - intros H. split; [now apply trend_analysis_empty|].
    rewrite weekly_analysis_cases, H. reflexivity.
  - intros pid -> H1 H2 Habs.
    assert (E : filter_profile (Some pid) df = []).
    { now apply filter_by_absent. }
    split; [exact E|]. rewrite E. unfold filter_lab. apply filter_by_nil.
  - intros r H. unfold profile_id_analysis. now rewrite H.
  - repeat split.
Qed.

(** C9. Trend Analysis returns (None, None) exactly when no row is left
    after the filters, and otherwise two tables that both have rows: never
    one table and one empty-signal, never a table without rows.  It
    raises only when a month or week key of a filtered row cannot be
    read back as a date. *)
Theorem C9_trend_tables_together (df : DataFrame) (p l : option string) :
  let d := filter_lab l (filter_profile p df) in
  match trend_analysis (Some df) p l with
  | Ok (None, None) => d = []
  | Ok (Some monthly_data, Some weekly_data) =>
      d <> [] /\ monthly_data <> [] /\ weekly_data <> []
  | Ok _ => False
  | Raise _ => d <> [] /\ forallb key_converts d = false
  end.
Proof.
  intros d. destruct (trend_analysis (Some df) p l) as [r|e] eqn:E.
  - destruct (trend_analysis_Ok sort_ok df p l r E) as [[Hd ->]|(Hd & m & w & -> & Hm & Hw)].
    + exact Hd.
    + repeat split; assumption.
  - assert (Hd : d <> []).
    { intros Hd. unfold d in Hd.
      rewrite (trend_analysis_empty _ _ _ Hd) in E. discriminate. }
    split; [exact Hd|].
    destruct (forallb key_converts d) eqn:Ec; [|reflexivity].
    destruct (trend_analysis_converts sort_ok df p l Hd Ec) as (m & w & E' & _).
    rewrite E in E'. discriminate.
Qed.

(** C3 (as amended). Profile Summary receives a hash and the profile
    filter, not the Dataset: it reads the Dataset from the session and
    answers through a cache kept under its two arguments.  A call returns
    the result stored under its arguments when there is one and
    otherwise what its body computes from the session's Dataset.  In two
    sessions that hold the same Dataset and whose caches are coherent
    (every stored result is the body's result on the session's Dataset
    for the stored filter), calls with the same profile filter return the
    same result, the body's, whatever the hashes and whatever the caches
    hold; a call keeps the session's Dataset and the coherence.  (Lot
    Summary, Trend and Weekly-by-Lab receive the Dataset and the filters
    and read nothing else: the embedding makes them functions of these
    arguments.) *)
Theorem C3_profile_summary_inputs (st1 st2 : Session) (h1 h2 : option Z)
  (p : option string) :
  coherent st1 -> coherent st2 -> session_data st1 = session_data st2 ->
  fst (profile_id_analysis h1 p st1) = fst (profile_id_analysis h2 p st2) /\
  fst (profile_id_analysis h1 p st1) = profile_summary (session_data st1) p /\
  fst (profile_id_analysis h1 p st1) =
    match cache_get (h1, p) (cache st1) with
    | Some r => Ok r
    | None => profile_summary (session_data st1) p
    end /\
  coherent (snd (profile_id_analysis h1 p st1)) /\
  session_data (snd (profile_id_analysis h1 p st1)) = session_data st1.
Proof.
  intros H1 H2 E. split; [|split; [|split]].
  - rewrite !profile_id_analysis_coherent by assumption. now rewrite E.
  - now apply profile_id_analysis_coherent.
  - unfold profile_id_analysis.
    destruct (cache_get (h1, p) (cache st1)); [reflexivity|].
    now destruct (profile_summary (session_data st1) p).
  - now apply profile_id_analysis_keeps.
Qed.

Lemma load_and_process_csv_cases (fs : list UploadedFile) :
  load_and_process_csv fs =
    if empty (load_all fs) then None
    else Some (build_rows (concat (load_all fs))).
Proof.
  unfold load_and_process_csv. destruct fs; reflexivity.
Qed.







(** C8. When the direct selection of positions 0, 1, 3, 4, 5, 8, 9 fails
    (the frame is narrower than ten columns), the loader builds the table
    field by field: one row per input row, each field the cell at its
    position when the frame has that position and null otherwise.  The
    fallback returns a table, not an exception, so the file is kept. *)
Theorem C8_fallback (data : RawFrame) (e : exn) :
  select_direct data = Raise e ->
  let width := length (columns data) in
  width < 10 /\
  select_columns data = select_fallback data /\
  (0 < width -> length (select_columns data) = length (values data)) /\
  (forall k row, 0 < width -> nth_error (values data) k = Some row ->
     exists r, nth_error (select_columns data) k = Some r /\
       Forall (fun pf =>
                 snd pf r = if Nat.ltb (fst pf) width
                            then nth (fst pf) row None else None)
         source_positions) /\
  (forall uploaded_file,
     read_csv uploaded_file = Some data ->
     all_startswith_Unnamed (columns data) = Ok false ->
     all_isinstance_int (columns data) = false ->
     load_file uploaded_file = Ok (select_fallback data)).
Proof.
  intros H width.
  assert (Hsel : select_columns data = select_fallback data).
  { unfold select_columns. now rewrite H. }
  assert (Hw : width < 10).
  { unfold select_direct in H. fold width in H.
    destruct (Nat.ltb 9 width) eqn:E9.
    - apply Nat.ltb_lt in E9.
      assert (E : forallb (fun i => Nat.ltb i width) required_columns = true).
      { apply forallb_forall. intros i Hi. apply Nat.ltb_lt.
        unfold required_columns in Hi. simpl in Hi.
        repeat (destruct Hi as [<-|Hi]; [lia|]). contradiction. }
      rewrite E in H. discriminate.
    - apply Nat.ltb_ge in E9. lia. }
  split; [exact Hw|]. split; [exact Hsel|].
  assert (Hfb : 0 < width ->
                select_fallback data =
                map (select (fun row i => if Nat.ltb i width then iloc row i else None))
                  (values data)).
  { intros H0. unfold select_fallback. fold width.
    apply Nat.ltb_lt in H0. now rewrite H0. }
  split; [|split].
  - intros H0. rewrite Hsel, (Hfb H0). apply length_map.
  - intros k row H0 Hk. rewrite Hsel, (Hfb H0).
    exists (select (fun row i => if Nat.ltb i width then iloc row i else None) row).
    split; [apply map_nth_error; exact Hk|].
    unfold source_positions, select, iloc. repeat constructor.
  - intros f Hr Hu Hi. unfold load_file. rewrite Hr, Hu. simpl.
    rewrite Hi. simpl. now rewrite Hsel.
Qed.

(** The label and the date range of a row of the weekly table. *)
Lemma weekly_row_label (df : DataFrame) (p l : option string)
  (rows : list WeeklyRow) (row : WeeklyRow) :
  weekly_analysis (Some df) p l = Ok (Some rows) ->
  In row rows ->
  exists r year week_num,
    In r (filter_lab l (filter_profile p df)) /\
    getitem (str_split "-" (Week r)) 0 = Ok year /\
    getitem (str_split "-" (Week r)) 1 = Ok week_num /\
    wk_Week row = year ++ " Week " ++ week_num /\
    match to_datetime_format "%Y-%U-%w" (year ++ "-" ++ week_num ++ "-1") with
    | Some week_start =>
        wk_Date_Range row =
          strftime "%d-%m-%Y" week_start ++ " to "
          ++ strftime "%d-%m-%Y" (add_days week_start 6)
    | None => wk_Date_Range row = "Week " ++ Week r
    end.
Proof using sort_ok.
  intros H Hrow.
  destruct (weekly_analysis_steps df p l rows H) as (per_week & E & Hp).
  apply (Permutation_in _ (Permutation_sym Hp)) in Hrow.
  apply in_concat in Hrow as (wrows & Hw & Hrow).
  destruct (mapM_Ok_In _ _ _ _ E Hw) as (week & Hweek & Ew).
  apply week_keys_In, in_map_iff in Hweek as (r & <- & Hr).
  destruct (week_entries_steps _ _ _ Ew) as (dr & Edr & El).
  destruct (mapM_Ok_In _ _ _ _ El Hrow) as (lab & _ & Erow).
  destruct (lab_week_entry_fields _ _ _ _ _ Erow)
    as (year & week_num & H0 & H1 & Hlabel & Hrange & _).
  exists r, year, week_num.
  split; [exact Hr|]. split; [exact H0|]. split; [exact H1|].
  split; [exact Hlabel|].
  rewrite Hrange. now apply date_range_of_split.
Qed.


(** C6 (as amended). For a non-empty filtered Dataset the Lot Summary has
    one row per distinct lot, in order of first appearance, and the
    Top-20 view has min(20, number of lots) of these rows, in
    nonincreasing order of total runs, none of them with fewer runs than
    a row left out.  (The order among lots with equal runs is whatever
    the sort gives.)  For an empty filtered Dataset both are None. *)
Theorem C6_top_20 (df : DataFrame) (p : option string) :
  let d := filter_profile p df in
  match lot_specific_analysis (Some df) p with
  | Ok (None, None) => d = []
  | Ok (Some lots, Some top_lots) =>
      d <> [] /\
      map Lot_Number lots = unique cell_same (map Lot d) /\
      NoDup (map Lot_Number lots) /\
      length top_lots = min 20 (length lots) /\
      StronglySorted (fun a b => lot_Total_Runs b <= lot_Total_Runs a) top_lots /\
      exists rest,
        Permutation lots (top_lots ++ rest) /\
        forall a b, In a top_lots -> In b rest ->
                    lot_Total_Runs b <= lot_Total_Runs a
  | _ => False
  end.
Proof.
  intros d. destruct (empty d) eqn:He.
  - apply empty_true_iff in He.
    now rewrite (lot_specific_analysis_empty df p He).
  - apply empty_false_iff in He.
    destruct (lot_specific_analysis_populated df p He) as (lots & El & _ & ->).
    fold d in El. pose proof (lot_table_numbers _ _ El) as Hn.
    set (sorted_lots := sort_values_desc lot_Total_Runs lots).
    pose proof (sort_values_desc_sorted sort_ok lot_Total_Runs lots) as Hs.
    fold sorted_lots in Hs. rewrite <- (firstn_skipn 20 sorted_lots) in Hs.
    apply StronglySorted_app_inv in Hs as (Hs1 & _ & Hc).
    split; [exact He|]. split; [exact Hn|]. split.
    { rewrite Hn. apply unique_NoDup, cell_same_eq. }
    split.
    { rewrite length_firstn. unfold sorted_lots.
      now rewrite (sort_values_desc_length sort_ok). }
    split; [exact Hs1|].
    exists (skipn 20 sorted_lots). split.
    + rewrite firstn_skipn. apply (sort_values_desc_perm sort_ok).
    + exact Hc.
Qed.

End Claims.

(* ------------------------------------------------------------------ *)
(** ** The properties on concrete inputs *)

(** C2 (the code against the claim). [parse_date] tries day-month-year
    first: it reads "03-04-2024 10:00:00" as the 3rd of April.  The builder
    does not call it: it reads the same text with the generic parse alone,
    as the 4th of March, and files the row under month 2024-03. *)
Theorem C2_builder_reads_month_first :
  let date_string := "03-04-2024 10:00:00" in
  @parse_date Calendar.dates date_string =
    @to_datetime_format Calendar.dates "%d-%m-%Y %H:%M:%S" date_string /\
  option_map (@strftime Calendar.dates "%d-%m-%Y")
    (@parse_date Calendar.dates date_string) = Some "03-04-2024" /\
  match @load_and_process_csv Calendar.dates [one_row_file date_string] with
  | Some [row] =>
      Some (Test_date_time row) = @to_datetime Calendar.dates date_string /\
      @strftime Calendar.dates "%d-%m-%Y" (Test_date_time row) = "04-03-2024" /\
      Month row = "2024-03"
  | _ => False
  end.
Proof. vm_compute. repeat split. Qed.

(** C3, refuted as stated: two calls of Profile Summary with the same
    arguments, in fresh sessions that hold different Datasets, return
    different results. *)
Lemma C3_counterexample :
  fst (@profile_id_analysis Calendar.dates (Some 0%Z) (Some "All")
         (fresh_session three_runs))
  <> fst (@profile_id_analysis Calendar.dates (Some 0%Z) (Some "All")
            (fresh_session eighteen_lots)).
Proof.
  intros H.
  apply (f_equal (fun r => match r with
                           | Ok (Some s, _) => Total_Runs s
                           | _ => 0
                           end)) in H.
  vm_compute in H. discriminate.
Qed.

(** C3 on a concrete input: two sessions on the three sample runs, one
    that has stored a result under the arguments of the call and one that
    has stored a result under other arguments. *)
Lemma C3_witness :
  let st1 := snd (@profile_id_analysis Calendar.dates (Some 1%Z) (Some "P1")
                    (fresh_session three_runs)) in
  let st2 := snd (@profile_id_analysis Calendar.dates (Some 7%Z) (Some "All")
                    (fresh_session three_runs)) in
  cache_get (Some 1%Z, Some "P1") (cache st1) <> None /\
  cache_get (Some 1%Z, Some "P1") (cache st2) = None /\
  cache st2 <> [] /\
  fst (profile_id_analysis (Some 1%Z) (Some "P1") st1)
  = fst (profile_id_analysis (Some 1%Z) (Some "P1") st2).
Proof.
  intros st1 st2.
  split; [vm_compute; discriminate|].
  split; [vm_compute; reflexivity|].
  split; [vm_compute; discriminate|].
  apply (@C3_profile_summary_inputs Calendar.dates st1 st2
           (Some 1%Z) (Some 1%Z) (Some "P1")).
  - apply profile_id_analysis_keeps, coherent_no_cache.
  - apply profile_id_analysis_keeps, coherent_no_cache.
  - exact (eq_trans
             (proj2 (profile_id_analysis_keeps _ _ _ (coherent_no_cache _)))
             (eq_sym
                (proj2 (profile_id_analysis_keeps _ _ _
                          (coherent_no_cache _))))).
Defined.

(** C4, refuted as stated.  After a call on the three sample runs, a
    session whose Dataset has no run of profile P1 any more still returns
    the populated result stored for P1, although the filtered Dataset is
    empty.  And the profile filter '' names an identifier that no run
    carries, yet all four views are populated: an empty filter filters
    nothing. *)
Lemma C4_counterexample :
  let st := snd (@profile_id_analysis Calendar.dates (Some 0%Z) (Some "P1")
                   (fresh_session three_runs)) in
  let later := [sample_row "P2" "Valid" "B" "L2" "2024-01" "2024-02"] in
  (length (@filter_profile Calendar.dates (Some "P1") later) = 0 /\
   match fst (@profile_id_analysis Calendar.dates (Some 0%Z) (Some "P1")
                (@mkSession Calendar.dates (Some later) (cache st))) with
   | Ok (Some s, Some labs) => Total_Runs s = 3 /\ length labs = 2
   | _ => False
   end) /\
  (forallb (fun r => negb (cell_eq_str (Profile_id r) "")) three_runs = true /\
   match @profile_summary Calendar.dates (Some three_runs) (Some ""),
         @lot_specific_analysis Calendar.dates stable_sort
           (Some three_runs) (Some ""),
         @trend_analysis Calendar.dates stable_sort
           (Some three_runs) (Some "") None,
         @weekly_analysis Calendar.dates stable_sort
           (Some three_runs) (Some "") None with
   | Ok (Some s, Some labs), Ok (Some lots, Some top_lots),
     Ok (Some monthly_data, Some weekly_data), Ok (Some rows) =>
       Total_Runs s = 3 /\ length lots = 2 /\ length monthly_data = 1 /\
       length rows = 2
   | _, _, _, _ => False
   end).
Proof. vm_compute. repeat split. Qed.

(** C4 on a concrete input: no run of the sample has profile P9, in a
    session that has stored a result for P1. *)
Lemma C4_witness :
  let st := snd (@profile_id_analysis Calendar.dates (Some 0%Z) (Some "P1")
                   (fresh_session three_runs)) in
  cache st <> [] /\
  @lot_specific_analysis Calendar.dates stable_sort (Some three_runs) (Some "P9")
    = Ok (None, None) /\
  @trend_analysis Calendar.dates stable_sort (Some three_runs) (Some "P9") None
    = Ok (None, None) /\
  @weekly_analysis Calendar.dates stable_sort (Some three_runs) (Some "P9") None
    = Ok None /\
  fst (@profile_id_analysis Calendar.dates (Some 0%Z) (Some "P9") st)
    = Ok (None, None).
Proof.
  intros st. split; [vm_compute; discriminate|].
  destruct (@C4_empty_signal Calendar.dates stable_sort three_runs
              (Some "P9") None (Some 0%Z) st)
    as (Hp & Hl & Habs & _).
  destruct (Habs "P9" eq_refl) as [E1 E2]; try discriminate.
  { intros r Hr. simpl in Hr.
    repeat (destruct Hr as [<-|Hr]; [discriminate|]). contradiction. }
  destruct (Hp E1) as (Hlot & _ & Hs). destruct (Hl E2) as (Ht & Hw).
  split; [exact Hlot|]. split; [exact Ht|]. split; [exact Hw|].
  apply Hs; [|left; vm_compute; reflexivity].
  exact (proj2 (profile_id_analysis_keeps _ _ _ (coherent_no_cache _))).
Defined.


(** C6, refuted as stated: an upload of 300 lots, L001 to L300, those of
    even number with two runs and the others with one.  Ties broken by
    first appearance would make L002, L004, ..., L040 the Top-20 view,
    the first twenty of the lots with two runs.  The twenty lots of the
    view do have two runs each, but they are not these: the sort is not
    stable. *)
Lemma C6_counterexample :
  match @load_and_process_csv Calendar.dates three_hundred_lots_upload with
  | Some df =>
      match @lot_specific_analysis Calendar.dates numpy_quicksort
              (Some df) (Some "All") with
      | Ok (Some lots, Some top_lots) =>
          length lots = 300 /\ length top_lots = 20 /\
          map lot_Total_Runs top_lots = repeat 2 20 /\
          map Lot_Number (firstn 20 (lots_with_runs 2 lots)) =
            map (fun n => Some ("L" ++ Calendar.pad 3 (Z.of_nat (2 * n))))
              (seq 1 20) /\
          map Lot_Number top_lots <>
            map Lot_Number (firstn 20 (lots_with_runs 2 lots))
      | _ => False
      end
  | None => False
  end.
Proof. vm_compute. repeat split. discriminate. Qed.

(** C7 (the code against the claim). An upload of one file: one lab with
    one run in each of the weeks 01 to 18 of 2024.  The loop builds the
    rows in ascending week order, and [sort_values('Lab Name')], which
    finds eighteen equal keys, returns them as 01, 16, 15, ..., 02, 17,
    18: the order of the weeks within the lab is lost. *)
Theorem C7_week_order_lost :
  match @load_and_process_csv Calendar.dates eighteen_weeks_upload with
  | Some df =>
      match @weekly_lab_data Calendar.dates df,
            @weekly_analysis Calendar.dates numpy_quicksort
              (Some df) (Some "All") (Some "All Labs") with
      | Ok df_result, Ok (Some rows) =>
          map wk_Week df_result =
            map (fun n => "2024 Week " ++ Calendar.pad 2 (Z.of_nat n))
              (seq 1 18) /\
          map wk_Lab_Name rows = repeat (Some "A") 18 /\
          map wk_Week rows =
            map (fun n => "2024 Week " ++ Calendar.pad 2 (Z.of_nat n))
              [1; 16; 15; 14; 13; 12; 11; 10; 9; 8; 7; 6; 5; 4; 3; 2; 17; 18]
      | _, _ => False
      end
  | None => False
  end.
Proof. vm_compute. repeat split. Qed.

(** C8 on a concrete input: a frame of three columns. *)
Lemma C8_witness :
  select_direct narrow_frame = Raise IndexError /\
  select_columns narrow_frame = select_fallback narrow_frame /\
  map sel_Profile_id (select_columns narrow_frame) = [Some "P1"; Some "P2"] /\
  map sel_Lot (select_columns narrow_frame) = [None; None].
Proof.
  destruct (C8_fallback narrow_frame IndexError eq_refl) as (_ & H & _).
  split; [reflexivity|]. split; [exact H|]. split; reflexivity.
Defined.





(** C6 on a concrete input: the two lots of the three sample runs. *)
Lemma C6_witness :
  exists lots top_lots,
    @lot_specific_analysis Calendar.dates stable_sort (Some three_runs) None
      = Ok (Some lots, Some top_lots) /\
    length top_lots = min 20 (length lots) /\
    StronglySorted (fun a b => lot_Total_Runs b <= lot_Total_Runs a) top_lots.
Proof.
  pose proof (@C6_top_20 Calendar.dates stable_sort stable_sort_contract
                three_runs None) as H.
  cbv zeta in H.
  destruct (@lot_specific_analysis Calendar.dates stable_sort (Some three_runs) None)
    as [[[lots|] [top_lots|]]|e]; try (exfalso; exact H).
  - exists lots, top_lots. split; [reflexivity|].
    destruct H as (_ & _ & _ & Hlen & Hsorted & _). split; assumption.
  - discriminate H.
Defined.

(** C9 on a concrete input: the three sample runs. *)
Lemma C9_witness :
  exists monthly_data weekly_data,
    @trend_analysis Calendar.dates stable_sort (Some three_runs) (Some "P1") None
      = Ok (Some monthly_data, Some weekly_data) /\
    monthly_data <> [] /\ weekly_data <> [].
Proof.
  pose proof (@C9_trend_tables_together Calendar.dates stable_sort
                stable_sort_contract three_runs (Some "P1") None) as H.
  cbv zeta in H.
  destruct (@trend_analysis Calendar.dates stable_sort (Some three_runs)
              (Some "P1") None) as [[[m|] [w|]]|e];
    try (exfalso; exact H).
  - exists m, w. split; [reflexivity|]. apply H.
  - discriminate H.
  - destruct H as [_ H]. vm_compute in H. discriminate H.
Defined.

(* ================================================================== *)
(** * Further properties of the code

    Totals of the tables, the order of the trend tables, the labels of
    the weekly table, the cache of Profile Summary, the filters, the
    loader file by file, the profile ids and the charts. *)


(* ------------------------------------------------------------------ *)
(** ** Groups partition the rows *)

Lemma list_sum_perm (l1 l2 : list nat) :
  Permutation l1 l2 -> list_sum l1 = list_sum l2.
Proof. induction 1; simpl; lia. Qed.

Lemma list_sum_map_add {X} (f g : X -> nat) (l : list X) :
  list_sum (map (fun x => f x + g x) l) =
  list_sum (map f l) + list_sum (map g l).
Proof. induction l as [|x l IH]; simpl; lia. Qed.

Lemma list_sum_concat (ls : list (list nat)) :
  list_sum (concat ls) = list_sum (map list_sum ls).
Proof.
  induction ls as [|l ls IH]; simpl; [reflexivity|].
  now rewrite list_sum_app, IH.
Qed.

Lemma list_sum_zero {X} (l : list X) : list_sum (map (fun _ => 0) l) = 0.
Proof. induction l; simpl; auto. Qed.

Lemma filter_all {X} (l : list X) : filter (fun _ => true) l = l.
Proof. induction l as [|x l IH]; simpl; congruence. Qed.

Section Groups.

Context {R K : Type} (eqk : R -> K -> bool) (keys : list K).
Hypothesis keys_NoDup : NoDup keys.
Hypothesis one_key : forall r k1 k2,
    In k1 keys -> In k2 keys -> eqk r k1 = true -> eqk r k2 = true -> k1 = k2.

(** A row falls into one group at most. *)
Lemma row_in_one_group (r : R) :
  list_sum (map (fun k => if eqk r k then 1 else 0) keys) =
  if existsb (eqk r) keys then 1 else 0.
Proof using keys_NoDup one_key.
  induction keys as [|k ks IH]; simpl; [reflexivity|].
  inversion keys_NoDup as [|? ? Hk Hks]; subst.
  assert (IH' : list_sum (map (fun k => if eqk r k then 1 else 0) ks) =
                if existsb (eqk r) ks then 1 else 0).
  { apply IH; [exact Hks|]. intros r' k1 k2 H1 H2. apply one_key; now right. }
  destruct (eqk r k) eqn:E; simpl; [|exact IH'].
  rewrite IH'. destruct (existsb (eqk r) ks) eqn:Ex; [|reflexivity].
  exfalso. apply existsb_exists in Ex as (k' & Hk' & E').
  assert (k = k') by (apply (one_key r); simpl; auto). subst. contradiction.
Qed.

(** The groups of the keys hold, between them, the rows that fall into
    some group, each once. *)
Lemma group_sizes (P : R -> bool) (d : list R) :
  list_sum (map (fun k => length (filter P (filter (fun r => eqk r k) d))) keys) =
  length (filter (fun r => P r && existsb (eqk r) keys) d).
Proof using keys_NoDup one_key.
  induction d as [|r d IH]; simpl.
  - apply list_sum_zero.
  - rewrite (map_ext _ (fun k => (if eqk r k then (if P r then 1 else 0) else 0)
                                 + length (filter P (filter (fun r => eqk r k) d)))).
    2:{ intros k. destruct (eqk r k); simpl; [|reflexivity].
        now destruct (P r). }
    rewrite list_sum_map_add, IH.
    destruct (P r) eqn:EP; simpl.
    + rewrite row_in_one_group.
      destruct (existsb (eqk r) keys); simpl; lia.
    + rewrite (map_ext _ (fun _ => 0)).
      2:{ intros k. now destruct (eqk r k). }
      now rewrite list_sum_zero.
Qed.

End Groups.

Lemma insert_sorted_perm (x : string) (l : list string) :
  Permutation (x :: l) (insert_sorted x l).
Proof.
  induction l as [|y l IH]; simpl; [reflexivity|].
  destruct (String.leb x y); [reflexivity|].
  rewrite perm_swap. now apply perm_skip.
Qed.

Lemma sorted_perm (l : list string) : Permutation l (sorted l).
Proof.
  induction l as [|x l IH]; simpl; [constructor|].
  rewrite <- insert_sorted_perm. now apply perm_skip.
Qed.

Lemma Forall2_map_eq {X Y Z} (f : X -> Z) (g : Y -> Z) (l1 : list X) (l2 : list Y) :
  Forall2 (fun a b => f a = g b) l1 l2 -> map f l1 = map g l2.
Proof. induction 1; simpl; congruence. Qed.

Lemma filter_filter_andb {X} (f g : X -> bool) (l : list X) :
  filter f (filter g l) = filter (fun x => f x && g x) l.
Proof.
  induction l as [|x l IH]; simpl; [reflexivity|].
  destruct (g x); simpl; rewrite ?andb_true_r, ?andb_false_r;
    [destruct (f x)|]; now rewrite IH.
Qed.

Section GroupTotals.

Context {DL : DateLib}.

(** [groupby] on a key column that has no null: every row is in the group
    of its key. *)
Lemma string_groups (col : Row -> string) (P : Row -> bool) (d : DataFrame) :
  list_sum (map (fun k => length (filter P (filter (fun r => String.eqb (col r) k) d)))
              (sorted (unique String.eqb (map col d)))) =
  length (filter P d).
Proof.
  rewrite (group_sizes (fun r k => String.eqb (col r) k)).
  - f_equal. apply filter_ext_in. intros r Hr.
    assert (E : existsb (fun k => String.eqb (col r) k)
                  (sorted (unique String.eqb (map col d))) = true).
    { apply existsb_exists. exists (col r). split; [|apply String.eqb_refl].
      apply sorted_In, (unique_In String.eqb string_eqb_iff). now apply in_map. }
    rewrite E. apply andb_true_r.
  - apply (Permutation_NoDup (sorted_perm _)).
    apply unique_NoDup, string_eqb_iff.
  - intros r k1 k2 _ _ H1 H2. apply String.eqb_eq in H1, H2. congruence.
Qed.

(** A loop over the values of a column that can be null: a row with a null
    there is in no group. *)
Lemma cell_groups (col : Row -> cell) (P : Row -> bool) (d : DataFrame) :
  list_sum (map (fun k => length (filter P (filter (fun r => cell_eq (col r) k) d)))
              (unique cell_same (map col d))) =
  length (filter P (filter (notna col) d)).
Proof.
  rewrite (group_sizes (fun r k => cell_eq (col r) k)).
  - rewrite filter_filter_andb. f_equal. apply filter_ext_in. intros r Hr.
    f_equal. unfold notna.
    destruct (col r) as [s|] eqn:E.
    + apply existsb_exists. exists (Some s). split.
      * apply (unique_In cell_same cell_same_eq). rewrite <- E. now apply in_map.
      * simpl. apply String.eqb_refl.
    + apply not_true_is_false. intros H.
      apply existsb_exists in H as (k & _ & H). now destruct k.
  - apply unique_NoDup, cell_same_eq.
  - intros r k1 k2 _ _ H1 H2. unfold cell_eq, cell_eq_str in H1, H2.
    destruct k1, k2, (col r); try discriminate.
    apply String.eqb_eq in H1, H2. congruence.
Qed.

End GroupTotals.

(* ------------------------------------------------------------------ *)
(** ** The trend tables *)

Lemma map_snd_combine {X Y} (l1 : list X) (l2 : list Y) :
  length l1 = length l2 -> map snd (combine l1 l2) = l2.
Proof.
  revert l2. induction l1 as [|x l1 IH]; intros [|y l2]; simpl; try discriminate;
    [reflexivity|].
  intros H. injection H as H. now rewrite IH.
Qed.

Lemma Forall2_In_r {X Y} (rel : X -> Y -> Prop) (l1 : list X) (l2 : list Y)
  (y : Y) :
  Forall2 rel l1 l2 -> In y l2 -> exists x, In x l1 /\ rel x y.
Proof.
  induction 1 as [|a b l1 l2 Hab _ IH]; simpl; [tauto|].
  intros [<-|Hy]; [exists a; auto|].
  destruct (IH Hy) as (x & Hx & Hr). exists x. auto.
Qed.

Section TrendTables.

Context {DL : DateLib} {SK : SortKind}.
Hypothesis sort_ok : SortContract SK.

(** The steps behind a pair of trend tables. *)
Lemma trend_analysis_steps (df : DataFrame) (p l : option string)
  (m w : list TrendRow) :
  trend_analysis (Some df) p l = Ok (Some m, Some w) ->
  let d := filter_lab l (filter_profile p df) in
  exists monthly keys weekly,
    convert_keys to_datetime
      (map (fun g => (group_key g ++ "-01", g)) (groupby_agg Month d))
      = Ok monthly /\
    m = sort_by_date monthly /\
    mapM (fun g => week_to_text (group_key g)) (groupby_agg Week d) = Ok keys /\
    convert_keys (to_datetime_format "%Y-W%U-%w")
      (combine keys (groupby_agg Week d)) = Ok weekly /\
    w = sort_by_date weekly.
Proof using Type.
  intros H d. unfold trend_analysis in H.
  destruct (empty df); [discriminate|]. fold d in H.
  destruct (empty d); [discriminate|].
  destruct (convert_keys to_datetime _) as [monthly|e] eqn:Em; [|discriminate].
  unfold bind at 1 in H.
  destruct (mapM (fun g => week_to_text (group_key g)) _) as [keys|e] eqn:Ek;
    [|discriminate].
  unfold bind at 1 in H.
  destruct (convert_keys (to_datetime_format "%Y-W%U-%w") _) as [weekly|e] eqn:Ew;
    [|discriminate].
  unfold bind in H. injection H as <- <-.
  now exists monthly, keys, weekly.
Qed.

(** Converting the keys keeps the counts of every group, in order. *)
Lemma convert_keys_rows (parse : string -> option Timestamp)
  (pairs : list (string * TrendGroup)) (rows : list TrendRow) :
  convert_keys parse pairs = Ok rows ->
  Forall2 (fun kg row =>
             parse (fst kg) = Some (trend_date row) /\
             trend_Total_Runs row = group_Total_Runs (snd kg) /\
             trend_Total_Invalid row = group_Total_Invalid (snd kg) /\
             trend_Total_Indeterminate row = group_Total_Indeterminate (snd kg) /\
             trend_Total_Invalid_Indeterminate row =
               group_Total_Invalid_Indeterminate (snd kg)) pairs rows.
Proof using Type.
  intros H. apply mapM_Ok_Forall2 in H.
  induction H as [|kg row pairs rows Hrow _ IH]; constructor; [|exact IH].
  destruct (parse (fst kg)); [|discriminate].
  injection Hrow as <-. simpl. repeat split.
Qed.

Lemma sort_by_date_perm (rows : list TrendRow) :
  Permutation rows (sort_by_date rows).
Proof using sort_ok. apply (argsort_perm SK sort_ok). Qed.

(** The counts of the groups of a column add up to the counts of the
    rows. *)
Lemma groupby_agg_totals (col : Row -> string) (d : DataFrame) :
  list_sum (map group_Total_Runs (groupby_agg col d)) = length d /\
  list_sum (map group_Total_Invalid (groupby_agg col d)) =
    count_eq Test_status "Invalid" d /\
  list_sum (map group_Total_Indeterminate (groupby_agg col d)) =
    count_eq Test_status "Indeterminate" d /\
  Forall (fun g =>
            group_Total_Invalid_Indeterminate g =
              group_Total_Invalid g + group_Total_Indeterminate g /\
            group_Total_Invalid_Indeterminate g <= group_Total_Runs g)
    (groupby_agg col d).
Proof using Type.
  unfold groupby_agg. rewrite !map_map. simpl. repeat split.
  - rewrite <- (filter_all d) at 2. rewrite <- (string_groups col).
    f_equal. apply map_ext. intros k. now rewrite filter_all.
  - unfold count_eq. apply string_groups.
  - unfold count_eq. apply string_groups.
  - apply Forall_forall. intros g Hg. apply in_map_iff in Hg as (k & <- & _).
    simpl. split; [reflexivity|apply bad_counts_le].
Qed.

(** A trend table built from the groups of a column. *)
Lemma trend_table_totals (col : Row -> string) (d : DataFrame)
  (parse : string -> option Timestamp) (pairs : list (string * TrendGroup))
  (rows : list TrendRow) :
  map snd pairs = groupby_agg col d ->
  convert_keys parse pairs = Ok rows ->
  list_sum (map trend_Total_Runs (sort_by_date rows)) = length d /\
  list_sum (map trend_Total_Invalid (sort_by_date rows)) =
    count_eq Test_status "Invalid" d /\
  list_sum (map trend_Total_Indeterminate (sort_by_date rows)) =
    count_eq Test_status "Indeterminate" d /\
  Forall (fun row =>
            trend_Total_Invalid_Indeterminate row =
              trend_Total_Invalid row + trend_Total_Indeterminate row /\
            trend_Total_Invalid_Indeterminate row <= trend_Total_Runs row)
    (sort_by_date rows).
Proof using sort_ok.
  intros Hp Hc. apply convert_keys_rows in Hc.
  destruct (groupby_agg_totals col d) as (T1 & T2 & T3 & T4).
  rewrite <- Hp in T1, T2, T3, T4. rewrite map_map in T1, T2, T3.
  assert (E1 : map trend_Total_Runs rows =
               map (fun kg => group_Total_Runs (snd kg)) pairs).
  { symmetry. apply Forall2_map_eq. eapply Forall2_impl; [|exact Hc].
    intros kg row H. symmetry. apply H. }
  assert (E2 : map trend_Total_Invalid rows =
               map (fun kg => group_Total_Invalid (snd kg)) pairs).
  { symmetry. apply Forall2_map_eq. eapply Forall2_impl; [|exact Hc].
    intros kg row H. symmetry. apply H. }
  assert (E3 : map trend_Total_Indeterminate rows =
               map (fun kg => group_Total_Indeterminate (snd kg)) pairs).
  { symmetry. apply Forall2_map_eq. eapply Forall2_impl; [|exact Hc].
    intros kg row H. symmetry. apply H. }
  pose proof (sort_by_date_perm rows) as Hperm.
  split; [|split; [|split]].
  - rewrite <- (list_sum_perm _ _ (Permutation_map trend_Total_Runs Hperm)).
    now rewrite E1.
  - rewrite <- (list_sum_perm _ _ (Permutation_map trend_Total_Invalid Hperm)).
    now rewrite E2.
  - rewrite <- (list_sum_perm _ _ (Permutation_map trend_Total_Indeterminate Hperm)).
    now rewrite E3.
  - apply Forall_forall. intros row Hrow.
    apply (Permutation_in _ (Permutation_sym Hperm)) in Hrow.
    rewrite Forall_forall in T4.
    destruct (Forall2_In_r _ _ _ _ Hc Hrow) as (kg & Hkg & _ & H1 & H2 & H3 & H4).
    rewrite H1, H2, H3, H4. apply T4. now apply in_map.
Qed.

(** X1. The runs, the invalid runs and the indeterminate runs of the
    monthly table, and of the weekly table, add up to those of the
    filtered rows: every filtered row is counted in one month and in one
    week.  In each row the combined count is the sum of the two and is no
    more than the runs. *)
Theorem X1_trend_counts_add_up (df : DataFrame) (p l : option string)
  (monthly_data weekly_data : list TrendRow) :
  trend_analysis (Some df) p l = Ok (Some monthly_data, Some weekly_data) ->
  let d := filter_lab l (filter_profile p df) in
  let adds_up table :=
    list_sum (map trend_Total_Runs table) = length d /\
    list_sum (map trend_Total_Invalid table) = count_eq Test_status "Invalid" d /\
    list_sum (map trend_Total_Indeterminate table) =
      count_eq Test_status "Indeterminate" d /\
    Forall (fun row =>
              trend_Total_Invalid_Indeterminate row =
                trend_Total_Invalid row + trend_Total_Indeterminate row /\
              trend_Total_Invalid_Indeterminate row <= trend_Total_Runs row)
      table in
  adds_up monthly_data /\ adds_up weekly_data.
Proof using sort_ok.
  intros H d adds_up.
  destruct (trend_analysis_steps df p l _ _ H)
    as (monthly & keys & weekly & Em & -> & Ek & Ew & ->).
  fold d in Em, Ek, Ew. split.
  - eapply (trend_table_totals Month d); [|exact Em].
    rewrite map_map. simpl. apply map_id.
  - eapply (trend_table_totals Week d); [|exact Ew].
    apply map_snd_combine. now apply mapM_Ok_length in Ek.
Qed.

Lemma groupby_agg_length (col : Row -> string) (d : DataFrame) :
  length (groupby_agg col d) = length (unique String.eqb (map col d)).
Proof using Type.
  unfold groupby_agg. rewrite length_map. symmetry.
  apply Permutation_length, sorted_perm.
Qed.

(** X2. When timestamps are totally ordered, the monthly and the weekly
    table come out in chronological order, with one row for every month
    (week) that occurs in the filtered rows, dated by the first day read
    back from that month's (week's) key. *)
Theorem X2_trend_tables_chronological (df : DataFrame) (p l : option string)
  (monthly_data weekly_data : list TrendRow) :
  (forall x y, ts_leb x y = true \/ ts_leb y x = true) ->
  (forall x y z, ts_leb x y = true -> ts_leb y z = true -> ts_leb x z = true) ->
  trend_analysis (Some df) p l = Ok (Some monthly_data, Some weekly_data) ->
  let d := filter_lab l (filter_profile p df) in
  let chronological table :=
    StronglySorted
      (fun a b => ts_leb (trend_date a) (trend_date b) = true) table in
  chronological monthly_data /\
  length monthly_data = length (unique String.eqb (map Month d)) /\
  (forall row, In row monthly_data ->
     exists r, In r d /\
       to_datetime (Month r ++ "-01") = Some (trend_date row)) /\
  chronological weekly_data /\
  length weekly_data = length (unique String.eqb (map Week d)) /\
  (forall row, In row weekly_data ->
     exists r text, In r d /\ week_to_text (Week r) = Ok text /\
       to_datetime_format "%Y-W%U-%w" text = Some (trend_date row)).
Proof using sort_ok.
  intros Htot Htrans H d chronological.
  destruct (trend_analysis_steps df p l _ _ H)
    as (monthly & keys & weekly & Em & -> & Ek & Ew & ->).
  fold d in Em, Ek, Ew.
  assert (Hsorted : forall rows, chronological (sort_by_date rows)).
  { intros rows. apply (argsort_sorted SK sort_ok).
    - intros x y. apply Htot.
    - intros x y z. apply Htrans. }
  assert (Hlen : forall rows, length (sort_by_date rows) = length rows).
  { intros rows. symmetry. apply Permutation_length, sort_by_date_perm. }
  pose proof (mapM_Ok_length _ _ _ Ek) as Lk.
  split; [apply Hsorted|]. split.
  { rewrite Hlen, (mapM_Ok_length _ _ _ Em), length_map.
    apply groupby_agg_length. }
  split.
  { intros row Hrow.
    apply (Permutation_in _ (Permutation_sym (sort_by_date_perm monthly))) in Hrow.
    destruct (Forall2_In_r _ _ _ _ (convert_keys_rows _ _ _ Em) Hrow)
      as (kg & Hkg & Hdate & _).
    apply in_map_iff in Hkg as (g & <- & Hg).
    apply groupby_agg_keys in Hg as (r & Hr & E).
    exists r. split; [exact Hr|]. simpl in Hdate. now rewrite E. }
  split; [apply Hsorted|]. split.
  { rewrite Hlen, (mapM_Ok_length _ _ _ Ew), length_combine, Lk, Nat.min_id.
    apply groupby_agg_length. }
  intros row Hrow.
  apply (Permutation_in _ (Permutation_sym (sort_by_date_perm weekly))) in Hrow.
  destruct (Forall2_In_r _ _ _ _ (convert_keys_rows _ _ _ Ew) Hrow)
    as ([text g] & Hkg & Hdate & _).
  pose proof (Forall2_combine_In _ _ _ _ _ (mapM_Ok_Forall2 _ _ _ Ek) Hkg) as Ht.
  apply in_combine_r, groupby_agg_keys in Hkg as (r & Hr & E).
  exists r, text. split; [exact Hr|]. split; [now rewrite E|exact Hdate].
Qed.

End TrendTables.

(* ------------------------------------------------------------------ *)
(** ** Totals of the per-lot, per-lab and per-week tables *)

Lemma filter_split_length {X} (f P : X -> bool) (l : list X) :
  length (filter P l) =
  length (filter P (filter f l))
  + length (filter P (filter (fun x => negb (f x)) l)).
Proof.
  induction l as [|x l IH]; simpl; [reflexivity|].
  destruct (f x); simpl; destruct (P x); simpl; lia.
Qed.

Section TableTotals.

Context {DL : DateLib} {SK : SortKind}.

(** Nothing equals NaN: the group of the null value is empty. *)
Lemma group_of_null (col : Row -> cell) (d : DataFrame) :
  filter (fun r => cell_eq (col r) None) d = [].
Proof using Type. induction d as [|r d IH]; simpl; [reflexivity|exact IH]. Qed.

(** The sizes of the groups of a column that can be null. *)
Lemma cell_group_lengths (col : Row -> cell) (d : DataFrame) :
  list_sum (map (fun k => length (filter (fun r => cell_eq (col r) k) d))
              (unique cell_same (map col d))) =
  length (filter (notna col) d).
Proof using Type.
  rewrite <- (filter_all (filter (notna col) d)), <- cell_groups.
  f_equal. apply map_ext. intros k. now rewrite filter_all.
Qed.

Lemma cell_group_bad (col : Row -> cell) (d : DataFrame) :
  list_sum (map (fun k => invalid_indeterminate
                            (filter (fun r => cell_eq (col r) k) d))
              (unique cell_same (map col d))) =
  invalid_indeterminate (filter (notna col) d).
Proof using Type.
  unfold invalid_indeterminate, count_eq.
  rewrite list_sum_map_add, !cell_groups. reflexivity.
Qed.

Lemma lot_specific_analysis_steps (df : DataFrame) (p : option string)
  (lots : list LotRow) (top : option (list LotRow)) :
  lot_specific_analysis (Some df) p = Ok (Some lots, top) ->
  mapM (lot_entry (filter_profile p df))
    (unique cell_same (map Lot (filter_profile p df))) = Ok lots.
Proof using Type.
  intros H. destruct (empty (filter_profile p df)) eqn:He.
  - apply empty_true_iff in He.
    rewrite (lot_specific_analysis_empty df p He) in H. discriminate.
  - apply empty_false_iff in He.
    destruct (lot_specific_analysis_populated df p He) as (lots' & E & _ & E').
    rewrite E' in H. now injection H as <- _.
Qed.

(** X3. The runs of the Lot Summary add up to the filtered rows that name
    a lot, and so do the invalid and indeterminate runs: a row without a
    lot is counted for no lot, and the row the summary makes for the null
    lot has no run and a rate of 0. *)
Theorem X3_lot_summary_totals (df : DataFrame) (p : option string)
  (lots : list LotRow) (top : option (list LotRow)) :
  lot_specific_analysis (Some df) p = Ok (Some lots, top) ->
  let d := filter_profile p df in
  list_sum (map lot_Total_Runs lots) = length (filter (notna Lot) d) /\
  list_sum (map lot_Total_Invalid_Indeterminate lots) =
    invalid_indeterminate (filter (notna Lot) d) /\
  Forall (fun row => lot_Total_Invalid_Indeterminate row <= lot_Total_Runs row)
    lots /\
  (forall row, In row lots -> Lot_Number row = None ->
     lot_Total_Runs row = 0 /\
     lot_Total_Invalid_Indeterminate row = 0 /\
     (lot_Invalid_Indeterminate_pct row == 0)%Q).
Proof using Type.
  intros H d. apply lot_specific_analysis_steps in H. fold d in H.
  pose proof (mapM_Ok_Forall2 _ _ _ H) as HF.
  assert (Hrows : Forall2 (fun lot row =>
                    Lot_Number row = lot /\
                    lot_Total_Runs row = length (lot_group d lot) /\
                    lot_Total_Invalid_Indeterminate row =
                      invalid_indeterminate (lot_group d lot) /\
                    rate_of (lot_group d lot) (lot_Invalid_Indeterminate_pct row))
                   (unique cell_same (map Lot d)) lots).
  { eapply Forall2_impl; [|exact HF]. intros lot row Hrow.
    destruct (lot_entry_Ok d lot) as (row' & E & H1 & H2 & H3 & H4).
    rewrite Hrow in E. injection E as <-. unfold lot_group.
    split; [exact H1|]. split; [exact H2|]. split; [exact H3|exact H4]. }
  split; [|split; [|split]].
  - rewrite <- cell_group_lengths. f_equal. symmetry.
    apply Forall2_map_eq. eapply Forall2_impl; [|exact Hrows].
    intros lot row (_ & E & _). symmetry. exact E.
  - rewrite <- cell_group_bad. f_equal. symmetry.
    apply Forall2_map_eq. eapply Forall2_impl; [|exact Hrows].
    intros lot row (_ & _ & E & _). symmetry. exact E.
  - apply Forall_forall. intros row Hrow.
    destruct (Forall2_In_r _ _ _ _ Hrows Hrow) as (lot & _ & _ & E1 & E2 & _).
    rewrite E1, E2. apply bad_counts_le.
  - intros row Hrow Hnull.
    destruct (Forall2_In_r _ _ _ _ Hrows Hrow) as (lot & _ & E0 & E1 & E2 & Hr).
    rewrite Hnull in E0. subst lot.
    assert (Eg : lot_group d None = []) by apply group_of_null.
    rewrite Eg in E1, E2, Hr. split; [exact E1|]. split; [exact E2|].
    now apply Hr.
Qed.

Lemma lab_entry_counts (df : DataFrame) (lab_name : cell) :
  let lab_df := filter (fun r => cell_eq (Lab_name r) lab_name) df in
  exists row, lab_entry df lab_name = Ok row /\
    Total_Tests row = length lab_df /\
    Total_Detected row = count_eq Test_result "Detected" lab_df /\
    lab_Total_Invalid_Indeterminate row = invalid_indeterminate lab_df /\
    (length lab_df <= 10 ->
     Last_10_runs_Invalid_Indeterminate_pct row =
       lab_Invalid_Indeterminate_pct row).
Proof using Type.
  intros lab_df. unfold lab_entry. fold lab_df.
  destruct (np_percent_of_Ok (invalid_indeterminate lab_df) (length lab_df))
    as [q E].
  pose proof E as E0.
  unfold invalid_indeterminate in E. rewrite E. unfold bind at 1.
  destruct (empty (tail_rows 10 lab_df)) eqn:Ee; cbn [negb].
  - unfold bind. eexists. split; [reflexivity|].
    cbn [Total_Tests Total_Detected lab_Total_Invalid_Indeterminate
         lab_Invalid_Indeterminate_pct Last_10_runs_Invalid_Indeterminate_pct].
    do 3 (split; [reflexivity|]). intros Hle.
    assert (Et : tail_rows 10 lab_df = lab_df).
    { unfold tail_rows. replace (length lab_df - 10) with 0 by lia. reflexivity. }
    rewrite Et in Ee. apply empty_true_iff in Ee.
    rewrite Ee in E0. cbn in E0. injection E0 as <-. reflexivity.
  - destruct (Nat.le_gt_cases (length lab_df) 10) as [Hle|Hgt].
    + assert (Et : tail_rows 10 lab_df = lab_df).
      { unfold tail_rows. replace (length lab_df - 10) with 0 by lia.
        reflexivity. }
      rewrite Et, E. unfold bind. eexists. split; [reflexivity|].
      cbn [Total_Tests Total_Detected lab_Total_Invalid_Indeterminate
           lab_Invalid_Indeterminate_pct
           Last_10_runs_Invalid_Indeterminate_pct].
      do 3 (split; [reflexivity|]). reflexivity.
    + set (last_10 := tail_rows 10 lab_df).
      destruct (np_percent_of_Ok (invalid_indeterminate last_10)
                  (length last_10)) as [q10 E10].
      unfold invalid_indeterminate in E10. rewrite E10. unfold bind.
      eexists. split; [reflexivity|].
      cbn [Total_Tests Total_Detected lab_Total_Invalid_Indeterminate
           lab_Invalid_Indeterminate_pct
           Last_10_runs_Invalid_Indeterminate_pct].
      do 3 (split; [reflexivity|]). intros Hle. lia.
Qed.

Lemma profile_summary_steps (df : DataFrame) (p : option string)
  (s : Summary) (labs : list LabRow) :
  profile_summary (Some df) p = Ok (Some s, Some labs) ->
  let d := filter_profile p df in
  Total_Runs s = length d /\
  Total_Invalids s = count_eq Test_status "Invalid" d /\
  Total_Indeterminates s = count_eq Test_status "Indeterminate" d /\
  mapM (lab_entry d) (unique cell_same (map Lab_name d)) = Ok labs.
Proof using Type.
  intros H d. destruct (empty d) eqn:He.
  - apply empty_true_iff in He.
    rewrite (profile_summary_empty df p He) in H. discriminate.
  - apply empty_false_iff in He.
    destruct (profile_summary_populated df p He)
      as (s' & labs' & E & H1 & H2 & H3 & _ & H4).
    rewrite E in H. injection H as <- <-. repeat split; assumption.
Qed.

Lemma lab_table_counts (d : DataFrame) (labs : list LabRow) :
  mapM (lab_entry d) (unique cell_same (map Lab_name d)) = Ok labs ->
  Forall2 (fun lab row =>
             Total_Tests row = length (lab_group d lab) /\
             Total_Detected row = count_eq Test_result "Detected" (lab_group d lab) /\
             lab_Total_Invalid_Indeterminate row =
               invalid_indeterminate (lab_group d lab) /\
             (Total_Tests row <= 10 ->
              Last_10_runs_Invalid_Indeterminate_pct row =
                lab_Invalid_Indeterminate_pct row))
    (unique cell_same (map Lab_name d)) labs.
Proof using Type.
  intros H. apply mapM_Ok_Forall2 in H.
  eapply Forall2_impl; [|exact H]. intros lab row Hrow.
  destruct (lab_entry_counts d lab) as (row' & E & H1 & H2 & H3 & H4).
  rewrite Hrow in E. injection E as <-. unfold lab_group.
  split; [exact H1|]. split; [exact H2|]. split; [exact H3|].
  intros Hle. apply H4. now rewrite <- H1.
Qed.

(** X4. Profile Summary counts every filtered row in Total Runs but only
    the rows that name a lab in the per-lab table: the overall figures
    are those of the labs plus those of the rows without a lab.  In each
    lab's row neither the detected runs nor the invalid and indeterminate
    runs exceed the tests. *)
Theorem X4_profile_summary_totals (df : DataFrame) (p : option string)
  (s : Summary) (labs : list LabRow) :
  profile_summary (Some df) p = Ok (Some s, Some labs) ->
  let d := filter_profile p df in
  Total_Runs s =
    list_sum (map Total_Tests labs) + length (filter (isna Lab_name) d) /\
  Total_Invalids s + Total_Indeterminates s =
    list_sum (map lab_Total_Invalid_Indeterminate labs)
    + invalid_indeterminate (filter (isna Lab_name) d) /\
  list_sum (map Total_Detected labs) =
    count_eq Test_result "Detected" (filter (notna Lab_name) d) /\
  Forall (fun row =>
            Total_Detected row <= Total_Tests row /\
            lab_Total_Invalid_Indeterminate row <= Total_Tests row) labs.
Proof using Type.
  intros H d. destruct (profile_summary_steps df p s labs H) as (E1 & E2 & E3 & El).
  fold d in E1, E2, E3, El. pose proof (lab_table_counts d labs El) as Hrows.
  assert (S1 : list_sum (map Total_Tests labs) = length (filter (notna Lab_name) d)).
  { rewrite <- cell_group_lengths. f_equal. symmetry.
    apply Forall2_map_eq. eapply Forall2_impl; [|exact Hrows].
    intros lab row (E & _). symmetry. exact E. }
  assert (S2 : list_sum (map lab_Total_Invalid_Indeterminate labs) =
               invalid_indeterminate (filter (notna Lab_name) d)).
  { rewrite <- cell_group_bad. f_equal. symmetry.
    apply Forall2_map_eq. eapply Forall2_impl; [|exact Hrows].
    intros lab row (_ & _ & E & _). symmetry. exact E. }
  split; [|split; [|split]].
  - rewrite E1, S1. unfold isna.
    rewrite <- (filter_all d) at 1.
    rewrite (filter_split_length (notna Lab_name) (fun _ => true) d).
    now rewrite !filter_all.
  - rewrite E2, E3, S2. unfold invalid_indeterminate, count_eq, isna.
    rewrite (filter_split_length (notna Lab_name)
               (fun r => cell_eq_str (Test_status r) "Invalid") d).
    rewrite (filter_split_length (notna Lab_name)
               (fun r => cell_eq_str (Test_status r) "Indeterminate") d).
    lia.
  - unfold count_eq. rewrite <- cell_groups. f_equal. symmetry.
    apply Forall2_map_eq. eapply Forall2_impl; [|exact Hrows].
    intros lab row (_ & E & _). symmetry. exact E.
  - apply Forall_forall. intros row Hrow.
    destruct (Forall2_In_r _ _ _ _ Hrows Hrow) as (lab & _ & T1 & T2 & T3 & _).
    rewrite T1, T2, T3. split; [|apply bad_counts_le].
    unfold count_eq. apply filter_length_le.
Qed.

(** X5. For a lab with at most ten runs the rate of its last ten runs is
    its rate over all its runs. *)
Theorem X5_last_10_of_a_small_lab (df : DataFrame) (p : option string)
  (s : Summary) (labs : list LabRow) (row : LabRow) :
  profile_summary (Some df) p = Ok (Some s, Some labs) ->
  In row labs -> Total_Tests row <= 10 ->
  Last_10_runs_Invalid_Indeterminate_pct row = lab_Invalid_Indeterminate_pct row.
Proof using Type.
  intros H Hrow Hle.
  destruct (profile_summary_steps df p s labs H) as (_ & _ & _ & El).
  destruct (Forall2_In_r _ _ _ _ (lab_table_counts _ _ El) Hrow)
    as (lab & _ & _ & _ & _ & Hlast).
  now apply Hlast.
Qed.

End TableTotals.

(* ------------------------------------------------------------------ *)
(** ** The rows of the weekly table *)

Section WeeklyRows.

Context {DL : DateLib} {SK : SortKind}.
Hypothesis sort_ok : SortContract SK.

(** The rows of one week count the rows of that week that name a lab. *)
Lemma week_entries_totals (df : DataFrame) (week : string)
  (rows : list WeeklyRow) :
  week_entries df week = Ok rows ->
  let week_df := filter (fun r => String.eqb (Week r) week) df in
  list_sum (map wk_Total_Runs rows) = length (filter (notna Lab_name) week_df) /\
  list_sum (map wk_Total_Invalid_Indeterminate rows) =
    invalid_indeterminate (filter (notna Lab_name) week_df) /\
  Forall (fun row => wk_Total_Invalid_Indeterminate row <= wk_Total_Runs row)
    rows.
Proof using Type.
  intros H week_df. destruct (week_entries_steps df week rows H) as (dr & _ & E).
  fold week_df in E. apply mapM_Ok_Forall2 in E.
  assert (Hrows : Forall2 (fun lab row =>
                    wk_Total_Runs row =
                      length (filter (fun r => cell_eq (Lab_name r) lab) week_df) /\
                    wk_Total_Invalid_Indeterminate row =
                      invalid_indeterminate
                        (filter (fun r => cell_eq (Lab_name r) lab) week_df))
                   (unique cell_same (map Lab_name week_df)) rows).
  { eapply Forall2_impl; [|exact E]. intros lab row Hrow.
    destruct (lab_week_entry_fields _ _ _ _ _ Hrow)
      as (y & w & _ & _ & _ & _ & _ & H1 & H2).
    split; assumption. }
  split; [|split].
  - rewrite <- cell_group_lengths. f_equal. symmetry.
    apply Forall2_map_eq. eapply Forall2_impl; [|exact Hrows].
    intros lab row (E1 & _). symmetry. exact E1.
  - rewrite <- cell_group_bad. f_equal. symmetry.
    apply Forall2_map_eq. eapply Forall2_impl; [|exact Hrows].
    intros lab row (_ & E2). symmetry. exact E2.
  - apply Forall_forall. intros row Hrow.
    destruct (Forall2_In_r _ _ _ _ Hrows Hrow) as (lab & _ & E1 & E2).
    rewrite E1, E2. apply bad_counts_le.
Qed.

(** X6. The runs of the Weekly-by-Lab table add up to the filtered rows
    that name a lab, and so do its invalid and indeterminate runs: every
    such row is counted in one week and one lab, a row without a lab in
    none; no row of the table has more invalid and indeterminate runs
    than runs. *)
Theorem X6_weekly_totals (df : DataFrame) (p l : option string)
  (rows : list WeeklyRow) :
  weekly_analysis (Some df) p l = Ok (Some rows) ->
  let d := filter_lab l (filter_profile p df) in
  list_sum (map wk_Total_Runs rows) = length (filter (notna Lab_name) d) /\
  list_sum (map wk_Total_Invalid_Indeterminate rows) =
    invalid_indeterminate (filter (notna Lab_name) d) /\
  Forall (fun row => wk_Total_Invalid_Indeterminate row <= wk_Total_Runs row)
    rows.
Proof using sort_ok.
  intros H d. destruct (weekly_analysis_steps sort_ok df p l rows H) as (per_week & E & Hp).
  fold d in E. apply mapM_Ok_Forall2 in E.
  pose proof (Forall2_impl _ (fun week wrows H => week_entries_totals d week wrows H) E)
    as Hweeks. cbv zeta in Hweeks.
  split; [|split].
  - rewrite <- (list_sum_perm _ _ (Permutation_map wk_Total_Runs Hp)).
    rewrite concat_map, list_sum_concat, map_map.
    rewrite <- (filter_all (filter (notna Lab_name) d)).
    rewrite filter_filter_andb.
    rewrite <- (string_groups Week (fun r => true && notna Lab_name r) d).
    f_equal. symmetry. apply Forall2_map_eq.
    eapply Forall2_impl; [|exact Hweeks].
    intros week wrows (E1 & _). rewrite E1. simpl. reflexivity.
  - rewrite <- (list_sum_perm _ _
                  (Permutation_map wk_Total_Invalid_Indeterminate Hp)).
    rewrite concat_map, list_sum_concat, map_map.
    unfold invalid_indeterminate at 1, count_eq.
    rewrite !filter_filter_andb, <- !(string_groups Week).
    rewrite <- list_sum_map_add.
    f_equal. symmetry. apply Forall2_map_eq.
    eapply Forall2_impl; [|exact Hweeks].
    intros week wrows (_ & E2 & _). rewrite E2.
    unfold invalid_indeterminate, count_eq. now rewrite !filter_filter_andb.
  - apply Forall_forall. intros row Hrow.
    apply (Permutation_in _ (Permutation_sym Hp)) in Hrow.
    apply in_concat in Hrow as (wrows & Hw & Hrow).
    destruct (Forall2_In_r _ _ _ _ Hweeks Hw) as (week & _ & _ & _ & Hall).
    rewrite Forall_forall in Hall. now apply Hall.
Qed.

(** X7. Every row of the Weekly-by-Lab table comes from a week key of the
    filtered rows that splits at its dashes into a year and a week
    number: its label is "<year> Week <number>", and its date range is
    the Monday read back from the key to the day six days later, or the
    text "Week <key>" when the key is not read back as a date. *)
Theorem X7_weekly_labels (df : DataFrame) (p l : option string)
  (rows : list WeeklyRow) (row : WeeklyRow) :
  weekly_analysis (Some df) p l = Ok (Some rows) ->
  In row rows ->
  exists r year week_num,
    In r (filter_lab l (filter_profile p df)) /\
    getitem (str_split "-" (Week r)) 0 = Ok year /\
    getitem (str_split "-" (Week r)) 1 = Ok week_num /\
    wk_Week row = year ++ " Week " ++ week_num /\
    match to_datetime_format "%Y-%U-%w" (year ++ "-" ++ week_num ++ "-1") with
    | Some week_start =>
        wk_Date_Range row =
          strftime "%d-%m-%Y" week_start ++ " to "
          ++ strftime "%d-%m-%Y" (add_days week_start 6)
    | None => wk_Date_Range row = "Week " ++ Week r
    end.
Proof using sort_ok.
  intros H Hrow. exact (weekly_row_label sort_ok df p l rows row H Hrow).
Qed.

(** X19. Whatever the sort of [sort_values] does with equal keys, the
    Weekly-by-Lab table is the rows of the two loops rearranged into
    nondecreasing Lab Name order, rows without a lab name last.  The
    result is None exactly when no row is left after the filters, and the
    call raises only IndexError, and only when some week key of the
    filtered rows has no dash. *)
Theorem X19_weekly_sorted_by_lab (df : DataFrame) (p l : option string) :
  let d := filter_lab l (filter_profile p df) in
  match weekly_analysis (Some df) p l with
  | Ok None => d = []
  | Ok (Some rows) =>
      d <> [] /\
      StronglySorted (fun a b => key_leb wk_Lab_Name a b = true) rows /\
      exists df_result,
        weekly_lab_data d = Ok df_result /\ Permutation df_result rows
  | Raise e =>
      d <> [] /\ e = IndexError /\
      exists r, In r d /\ contains "-" (Week r) = false
  end.
Proof using sort_ok.
  intros d. rewrite weekly_analysis_cases. fold d.
  destruct (empty d) eqn:He; [now apply empty_true_iff|].
  apply empty_false_iff in He.
  destruct (all_or_some_without d) as [Hw|Hw].
  - destruct (weekly_lab_data_with _ Hw) as (orig & E & _).
    rewrite E. unfold bind. split; [exact He|].
    destruct (negb (empty orig)) eqn:Eo.
    + split; [apply (sort_values_asc_sorted sort_ok)|].
      exists orig. split; [reflexivity|apply (sort_values_asc_perm sort_ok)].
    + apply negb_false_iff, empty_true_iff in Eo. subst orig.
      split; [constructor|]. exists []. split; [reflexivity|constructor].
  - rewrite (weekly_lab_data_without _ Hw). unfold bind.
    split; [exact He|]. split; [reflexivity|exact Hw].
Qed.

(** X20. The function by itself, on a frame the builder did not make: if
    a filtered row had a week key without a dash, the [try] would give
    the date range "Week <key>", and the label, which splits the key
    again outside the [try], would raise IndexError to the caller. *)
Theorem X20_week_key_without_dash (df : DataFrame) (p l : option string)
  (r : Row) :
  In r (filter_lab l (filter_profile p df)) ->
  contains "-" (Week r) = false ->
  date_range_of (Week r) = Ok ("Week " ++ Week r) /\
  weekly_analysis (Some df) p l = Raise IndexError.
Proof using Type.
  intros Hr Hd. split; [now apply date_range_of_without|].
  rewrite weekly_analysis_cases.
  destruct (filter_lab l (filter_profile p df)) as [|x d] eqn:E;
    [contradiction|].
  cbn [empty]. rewrite (weekly_lab_data_without (x :: d)); [reflexivity|].
  now exists r.
Qed.

End WeeklyRows.

(* ------------------------------------------------------------------ *)
(** ** The cache as a cache *)

Lemma NoDup_map_filter {X Y} (f : X -> Y) (g : X -> bool) (l : list X) :
  NoDup (map f l) -> NoDup (map f (filter g l)).
Proof.
  induction l as [|x l IH]; simpl; intros H; [constructor|].
  inversion H as [|? ? Hx Hl]; subst.
  destruct (g x); simpl; [|now apply IH].
  constructor; [|now apply IH].
  intros Hin. apply Hx. apply in_map_iff in Hin as (y & E & Hy).
  apply filter_In in Hy as [Hy _]. apply in_map_iff. now exists y.
Qed.

Lemma filter_drops_one {X} (g : X -> bool) (l : list X) (x : X) :
  In x l -> g x = false -> length (filter g l) < length l.
Proof.
  induction l as [|y l IH]; simpl; [tauto|].
  intros [->|Hin] Hg.
  - rewrite Hg. pose proof (filter_length_le g l). lia.
  - specialize (IH Hin Hg). destruct (g y); simpl; lia.
Qed.

Lemma NoDup_firstn {X} (n : nat) (l : list X) : NoDup l -> NoDup (firstn n l).
Proof.
  intros H. rewrite <- (firstn_skipn n l) in H.
  now apply NoDup_app_remove_r in H.
Qed.

Section CacheUse.

Context {DL : DateLib}.

(** The body always returns. *)
Lemma profile_summary_total (df : option DataFrame) (p : option string) :
  exists r, profile_summary df p = Ok r.
Proof.
  destruct df as [df|]; [|now eexists].
  destruct (empty (filter_profile p df)) eqn:He.
  - apply empty_true_iff in He. rewrite (profile_summary_empty df p He).
    now eexists.
  - apply empty_false_iff in He.
    destruct (profile_summary_populated df p He) as (s & labs & E & _).
    rewrite E. now eexists.
Qed.

Lemma cache_get_None (k : CacheKey) (c : list (CacheKey * ProfileResult)) :
  cache_get k c = None -> ~ In k (map fst c).
Proof.
  unfold cache_get. intros H Hin.
  apply in_map_iff in Hin as ([k' r] & E & Hin). simpl in E. subst k'.
  destruct (find (fun e => key_eqb (fst e) k) c) as [e|] eqn:Ef; [discriminate|].
  apply (find_none _ _ Ef) in Hin. simpl in Hin.
  assert (key_eqb k k = true) by now apply key_eqb_eq. congruence.
Qed.

Lemma cache_get_Some_In (k : CacheKey) (c : list (CacheKey * ProfileResult))
  (r : ProfileResult) :
  cache_get k c = Some r -> In (k, r) c.
Proof.
  unfold cache_get.
  destruct (find (fun e => key_eqb (fst e) k) c) as [[k' r']|] eqn:Ef;
    [|discriminate].
  intros H. injection H as <-. apply find_some in Ef as [Hin E].
  simpl in E. apply key_eqb_eq in E. now subst.
Qed.

(** X8. The cache of Profile Summary stays a cache: if it holds at most 32
    entries with distinct keys before a call, it does so after, the
    session's Dataset is untouched, and the call's arguments are then
    cached with the result just returned. *)
Theorem X8_cache_invariant (h : option Z) (p : option string) (st : Session) :
  cache_ok (cache st) ->
  let st' := snd (profile_id_analysis h p st) in
  cache_ok (cache st') /\
  session_data st' = session_data st /\
  exists r, fst (profile_id_analysis h p st) = Ok r /\
            cache_get (h, p) (cache st') = Some r.
Proof.
  intros [Hlen Hnd]. unfold profile_id_analysis.
  assert (Hkk : key_eqb (h, p) (h, p) = true) by now apply key_eqb_eq.
  destruct (cache_get (h, p) (cache st)) as [r|] eqn:E.
  - cbn [fst snd cache session_data]. split; [|split; [reflexivity|]].
    + split.
      * apply cache_get_Some_In in E.
        assert (Hlt : length (filter (fun e => negb (key_eqb (fst e) (h, p)))
                                (cache st)) < length (cache st)).
        { apply (filter_drops_one _ _ (h, p, r)); [exact E|].
          simpl. now rewrite Hkk. }
        simpl. lia.
      * simpl. constructor; [|now apply NoDup_map_filter].
        intros Hin. apply in_map_iff in Hin as ([k' r'] & Ek & Hin).
        simpl in Ek. subst k'. apply filter_In in Hin as [_ Hin].
        simpl in Hin. now rewrite Hkk in Hin.
    + exists r. split; [reflexivity|]. rewrite cache_get_cons. now rewrite Hkk.
  - destruct (profile_summary_total (session_data st) p) as [r Er].
    rewrite Er. cbn [fst snd cache session_data].
    split; [|split; [reflexivity|]].
    + split.
      * rewrite length_firstn. apply Nat.le_min_l.
      * rewrite <- firstn_map. apply NoDup_firstn. simpl.
        constructor; [now apply cache_get_None|exact Hnd].
    + exists r. split; [reflexivity|].
      unfold maxsize. cbn [firstn]. rewrite cache_get_cons. now rewrite Hkk.
Qed.

(** X9. A result once computed is returned again for the same hash and
    profile filter whatever Dataset the session holds by then: the body
    is not run, and the session's Dataset is not read. *)
Theorem X9_cached_result_outlives_the_dataset (h : option Z)
  (p : option string) (st : Session) (later : option DataFrame) :
  fst (profile_id_analysis h p
         (mkSession later (cache (snd (profile_id_analysis h p st)))))
  = fst (profile_id_analysis h p st).
Proof.
  assert (Hkk : key_eqb (h, p) (h, p) = true) by now apply key_eqb_eq.
  assert (H : exists r, fst (profile_id_analysis h p st) = Ok r /\
                        cache_get (h, p)
                          (cache (snd (profile_id_analysis h p st))) = Some r).
  { unfold profile_id_analysis.
    destruct (cache_get (h, p) (cache st)) as [r|] eqn:E.
    - exists r. split; [reflexivity|]. cbn [snd cache].
      rewrite cache_get_cons. now rewrite Hkk.
    - destruct (profile_summary_total (session_data st) p) as [r Er].
      rewrite Er. exists r. split; [reflexivity|]. cbn [snd cache].
      unfold maxsize. cbn [firstn]. rewrite cache_get_cons. now rewrite Hkk. }
  destruct H as (r & E1 & E2). rewrite E1.
  unfold profile_id_analysis at 1. cbn [cache]. now rewrite E2.
Qed.

End CacheUse.

(* ------------------------------------------------------------------ *)
(** ** Filters and analyses *)

Section Filtering.

Context {DL : DateLib} {SK : SortKind}.

Lemma filter_by_None col sentinel (df : DataFrame) :
  filter_by col sentinel None df = df.
Proof using Type. reflexivity. Qed.

Lemma filter_filter_comm {X} (f g : X -> bool) (l : list X) :
  filter f (filter g l) = filter g (filter f l).
Proof using Type.
  rewrite !filter_filter_andb. apply filter_ext. intros x. apply andb_comm.
Qed.

(** X10. Filtering inside an analysis is the same as analysing the
    filtered Dataset without a filter, for each of the four analyses; and
    the profile filter and the lab filter can be applied in either order,
    a second application of a filter changing nothing. *)
Theorem X10_filter_then_analyse (df : DataFrame) (p l : option string) :
  let d := filter_lab l (filter_profile p df) in
  profile_summary (Some df) p = profile_summary (Some (filter_profile p df)) None /\
  lot_specific_analysis (Some df) p =
    lot_specific_analysis (Some (filter_profile p df)) None /\
  trend_analysis (Some df) p l = trend_analysis (Some d) None None /\
  weekly_analysis (Some df) p l = weekly_analysis (Some d) None None /\
  d = filter_profile p (filter_lab l df) /\
  filter_profile p (filter_profile p df) = filter_profile p df /\
  filter_lab l (filter_lab l df) = filter_lab l df.
Proof using Type.
  intros d.
  assert (Hnil : forall (x : DataFrame), empty x = true -> x = []).
  { intros x. apply empty_true_iff. }
  split; [|split; [|split; [|split; [|split; [|split]]]]].
  - unfold profile_summary.
    replace (filter_profile None (filter_profile p df))
      with (filter_profile p df) by reflexivity.
    destruct (empty df) eqn:Edf.
    + apply Hnil in Edf. subst df. unfold filter_profile.
      now rewrite filter_by_nil.
    + destruct (empty (filter_profile p df)); reflexivity.
  - unfold lot_specific_analysis.
    replace (filter_profile None (filter_profile p df))
      with (filter_profile p df) by reflexivity.
    destruct (empty df) eqn:Edf.
    + apply Hnil in Edf. subst df. unfold filter_profile.
      now rewrite filter_by_nil.
    + destruct (empty (filter_profile p df)); reflexivity.
  - unfold trend_analysis. fold d.
    replace (filter_lab None (filter_profile None d)) with d by reflexivity.
    destruct (empty df) eqn:Edf.
    + apply Hnil in Edf. subst df. unfold d, filter_lab, filter_profile.
      now rewrite !filter_by_nil.
    + destruct (empty d); reflexivity.
  - rewrite !weekly_analysis_cases. fold d.
    replace (filter_lab None (filter_profile None d)) with d by reflexivity.
    reflexivity.
  - unfold d, filter_lab, filter_profile, filter_by.
    destruct p as [pid|], l as [lab|]; try reflexivity.
    destruct (truthy (Some pid) && negb (String.eqb pid "All"));
      destruct (truthy (Some lab) && negb (String.eqb lab "All Labs"));
      try reflexivity.
    apply filter_filter_comm.
  - unfold filter_profile, filter_by. destruct p as [pid|]; [|reflexivity].
    destruct (truthy (Some pid) && negb (String.eqb pid "All")); [|reflexivity].
    rewrite filter_filter_andb. apply filter_ext. intros r. apply andb_diag.
  - unfold filter_lab, filter_by. destruct l as [lab|]; [|reflexivity].
    destruct (truthy (Some lab) && negb (String.eqb lab "All Labs"));
      [|reflexivity].
    rewrite filter_filter_andb. apply filter_ext. intros r. apply andb_diag.
Qed.

End Filtering.
(* ------------------------------------------------------------------ *)
(** ** The loader, file by file *)

Section Loader.

Context {DL : DateLib}.

Lemma load_all_app (fs1 fs2 : list UploadedFile) :
  load_all (fs1 ++ fs2) = (load_all fs1 ++ load_all fs2)%list.
Proof.
  induction fs1 as [|f r IH]; [reflexivity|].
  cbn [app load_all]. destruct (load_file f); [|exact IH].
  cbn [app]. now rewrite IH.
Qed.

Lemma load_all_length (fs : list UploadedFile) :
  length (load_all fs) <= length fs.
Proof.
  induction fs as [|f r IH]; [apply Nat.le_refl|].
  cbn [load_all]. destruct (load_file f); cbn [length]; lia.
Qed.

Lemma all_startswith_Unnamed_true (cols : list label) :
  all_startswith_Unnamed cols = Ok true <->
  Forall (fun c => exists s, c = LStr s /\ String.prefix "Unnamed" s = true) cols.
Proof.
  induction cols as [|c r IH]; [split; [constructor|reflexivity]|].
  destruct c as [s|z]; cbn [all_startswith_Unnamed].
  - destruct (String.prefix "Unnamed" s) eqn:E.
    + rewrite IH. split.
      * intros H. constructor; [now exists s|exact H].
      * intros H. now inversion H.
    + split; [discriminate|]. intros H. inversion H as [|? ? (s' & Es & Hp) _].
      injection Es as <-. congruence.
  - split; [discriminate|]. intros H. inversion H as [|? ? (s' & Es & _) _].
    discriminate.
Qed.

Lemma all_startswith_Unnamed_false (cols : list label) :
  all_startswith_Unnamed cols = Ok false -> all_isinstance_int cols = false.
Proof.
  induction cols as [|c r IH]; [discriminate|].
  destruct c as [s|z]; [reflexivity|discriminate].
Qed.

Lemma all_startswith_Unnamed_raises (cols : list label) (e : exn) :
  all_startswith_Unnamed cols = Raise e ->
  e = AttributeError /\
  exists before z rest,
    cols = (before ++ LInt z :: rest)%list /\
    all_startswith_Unnamed before = Ok true.
Proof.
  induction cols as [|c r IH]; [discriminate|].
  destruct c as [s|z]; cbn [all_startswith_Unnamed].
  - destruct (String.prefix "Unnamed" s) eqn:E; [|discriminate].
    intros H. destruct (IH H) as (He & before & z & rest & -> & Hb).
    split; [exact He|]. exists (LStr s :: before), z, rest.
    split; [reflexivity|]. cbn [all_startswith_Unnamed]. now rewrite E.
  - intros H. split; [congruence|]. now exists [], z, r.
Qed.

(** X11. The header test of the loader: a file is read again without a
    header exactly when every column label of the first read is a string
    that starts with Unnamed; otherwise the first read is used, unless an
    integer label is met before a label that settles the test, which
    raises AttributeError and skips the file.  The isinstance disjunct
    never changes the decision. *)
Theorem X11_header_test (uploaded_file : UploadedFile) (data : RawFrame) :
  read_csv uploaded_file = Some data ->
  let cols := columns data in
  let unnamed :=
    Forall (fun c => exists s, c = LStr s /\ String.prefix "Unnamed" s = true) in
  match all_startswith_Unnamed cols with
  | Ok true =>
      unnamed cols /\
      load_file uploaded_file =
        match read_csv_header_None uploaded_file with
        | Some again => Ok (select_columns again)
        | None => Raise ValueError
        end
  | Ok false =>
      ~ unnamed cols /\ all_isinstance_int cols = false /\
      load_file uploaded_file = Ok (select_columns data)
  | Raise e =>
      load_file uploaded_file = Raise AttributeError /\
      exists before z rest,
        cols = (before ++ LInt z :: rest)%list /\ unnamed before
  end.
Proof.
  intros Hread cols unnamed. unfold load_file. rewrite Hread. fold cols.
  destruct (all_startswith_Unnamed cols) as [[|]|e] eqn:E.
  - split; [now apply all_startswith_Unnamed_true|].
    unfold bind. cbn [orb]. now destruct (read_csv_header_None uploaded_file).
  - pose proof (all_startswith_Unnamed_false cols E) as Hint.
    split; [|split; [exact Hint|]].
    + intros H. apply all_startswith_Unnamed_true in H. congruence.
    + unfold bind. now rewrite Hint.
  - destruct (all_startswith_Unnamed_raises cols e E)
      as (-> & before & z & rest & Hc & Hb).
    split; [reflexivity|]. exists before, z, rest.
    split; [exact Hc|now apply all_startswith_Unnamed_true].
Qed.

(** X12. A file whose processing raises is skipped and the loop goes on:
    the loader returns what it returns without that file, wherever the
    file stands in the upload. *)
Theorem X12_failing_file_is_skipped (before after : list UploadedFile)
  (bad : UploadedFile) (e : exn) :
  load_file bad = Raise e ->
  load_and_process_csv (before ++ bad :: after) =
    load_and_process_csv (before ++ after).
Proof.
  intros H. rewrite !load_and_process_csv_cases, !load_all_app.
  cbn [load_all]. now rewrite H.
Qed.

Lemma combine_map_r {X Y} (g : X -> Y) (l : list X) :
  combine l (map g l) = map (fun x => (x, g x)) l.
Proof. induction l as [|x l IH]; cbn; [reflexivity|now rewrite IH]. Qed.

Lemma first_valid_app (c1 c2 : list cell) :
  first_valid (c1 ++ c2) =
    match first_valid c1 with
    | Some s => Some s
    | None => first_valid c2
    end.
Proof.
  induction c1 as [|[s|] c1 IH]; [reflexivity|reflexivity|exact IH].
Qed.

Lemma first_valid_None (col : list cell) (c : cell) :
  first_valid col = None -> In c col -> c = None.
Proof.
  induction col as [|[s|] col IH]; [contradiction|discriminate|].
  cbn [first_valid]. intros H [<-|Hc]; [reflexivity|now apply IH].
Qed.

(** The rows built from a column read with [read]. *)
Lemma build_rows_read (combined : list Selected) :
  build_rows combined =
  flat_map (fun r =>
              build_row r
                (match sel_Test_date_time r with
                 | Some s =>
                     read_with
                       (first_valid (map sel_Test_date_time combined)) s
                 | None => None
                 end)) combined.
Proof.
  unfold build_rows, to_datetime_coerce. rewrite map_map, combine_map_r.
  rewrite flat_map_concat_map, map_map. cbn [fst snd].
  now rewrite <- flat_map_concat_map.
Qed.

Lemma flat_map_read_ext (f g : option string) (c : list Selected) :
  (forall r s, In r c -> sel_Test_date_time r = Some s ->
     read_with f s = read_with g s) ->
  flat_map (fun r => build_row r
              (match sel_Test_date_time r with
               | Some s => read_with f s
               | None => None
               end)) c =
  flat_map (fun r => build_row r
              (match sel_Test_date_time r with
               | Some s => read_with g s
               | None => None
               end)) c.
Proof.
  induction c as [|r c IH]; [reflexivity|]. intros H. cbn [flat_map].
  rewrite IH by (intros r' s Hr; apply H; now right). f_equal.
  destruct (sel_Test_date_time r) as [s|] eqn:E; [|reflexivity].
  now rewrite (H r s (or_introl eq_refl) E).
Qed.

(** X13. Two batches of files whose first test times suggest the same
    date format load together as they load one after the other: the rows
    of the first batch followed by the rows of the second, a batch that
    gives no Dataset contributing nothing.  (Batches that suggest
    different formats need not: the format is guessed once, from the
    first test time of the combined column.) *)
Theorem X13_batches_concatenate (fs1 fs2 : list UploadedFile) :
  let first_time fs :=
    first_valid (map sel_Test_date_time (concat (load_all fs))) in
  (forall s1 s2, first_time fs1 = Some s1 -> first_time fs2 = Some s2 ->
     guess_datetime_format s1 = guess_datetime_format s2) ->
  load_and_process_csv (fs1 ++ fs2) =
    match load_and_process_csv fs1, load_and_process_csv fs2 with
    | Some d1, Some d2 => Some (d1 ++ d2)%list
    | Some d, None | None, Some d => Some d
    | None, None => None
    end.
Proof.
  intros first_time Hsame.
  rewrite !load_and_process_csv_cases, load_all_app.
  set (t1 := load_all fs1) in *. set (t2 := load_all fs2) in *.
  assert (Hrows : build_rows (concat t1 ++ concat t2)
                  = (build_rows (concat t1) ++ build_rows (concat t2))%list).
  { rewrite !build_rows_read, flat_map_app, map_app, first_valid_app.
    unfold first_time in Hsame. fold t1 t2 in Hsame.
    set (c1 := concat t1) in *. set (c2 := concat t2) in *.
    destruct (first_valid (map sel_Test_date_time c1)) as [s1|] eqn:E1.
    - f_equal. apply flat_map_read_ext. intros r s Hr Es.
      destruct (first_valid (map sel_Test_date_time c2)) as [s2|] eqn:E2.
      + unfold read_with. now rewrite (Hsame s1 s2 eq_refl eq_refl).
      + apply (in_map sel_Test_date_time) in Hr.
        apply (first_valid_None _ _ E2) in Hr. congruence.
    - f_equal. apply flat_map_read_ext. intros r s Hr Es.
      apply (in_map sel_Test_date_time) in Hr.
      apply (first_valid_None _ _ E1) in Hr. congruence. }
  rewrite concat_app, Hrows.
  destruct t1 as [|a1 r1]; destruct t2 as [|a2 r2];
    cbn [app empty]; try reflexivity.
  now rewrite app_nil_r.
Qed.




(** X15. The alternative method of the loader computes the table of the
    direct selection whenever the direct selection succeeds, and the
    loader's table is in every case the one the alternative method builds:
    the direct selection only fails where the two would differ. *)
Theorem X15_alternative_method_agrees (data : RawFrame) :
  select_columns data = select_fallback data /\
  match select_direct data with
  | Ok table => 10 <= length (columns data) /\ table = select_fallback data
  | Raise e => e = IndexError /\ length (columns data) < 10
  end.
Proof.
  assert (H : match select_direct data with
              | Ok table => 10 <= length (columns data) /\
                            table = select_fallback data
              | Raise e => e = IndexError /\ length (columns data) < 10
              end).
  { unfold select_direct, select_fallback.
    set (width := length (columns data)).
    destruct (Nat.ltb 9 width) eqn:E9.
    - apply Nat.ltb_lt in E9.
      replace (forallb (fun i => Nat.ltb i width) required_columns) with true.
      2:{ symmetry. apply forallb_forall. intros i Hi. apply Nat.ltb_lt.
          unfold required_columns in Hi. cbn [In] in Hi.
          repeat (destruct Hi as [<-|Hi]; [lia|]). contradiction. }
      split; [lia|].
      replace (Nat.ltb 0 width) with true by (symmetry; apply Nat.ltb_lt; lia).
      apply map_ext. intros row. unfold select.
      repeat match goal with
             | |- context [Nat.ltb ?i width] =>
                 replace (Nat.ltb i width) with true
                   by (symmetry; apply Nat.ltb_lt; lia)
             end.
      reflexivity.
    - apply Nat.ltb_ge in E9.
      replace (forallb (fun i => Nat.ltb i width) required_columns) with false.
      2:{ symmetry. unfold required_columns. cbn [forallb].
          replace (Nat.ltb 9 width) with false
            by (symmetry; apply Nat.ltb_ge; lia).
          now rewrite !andb_false_r. }
      split; [reflexivity|lia]. }
  split; [|exact H].
  unfold select_columns. destruct (select_direct data); [apply H|reflexivity].
Qed.

End Loader.
(* ------------------------------------------------------------------ *)
(** ** The profile ids of the sidebar *)

Lemma insert_sorted_insert_by (x : string) (l : list string) :
  insert_sorted x l = insert_by String.leb x l.
Proof.
  induction l as [|y l IH]; [reflexivity|].
  cbn [insert_sorted insert_by]. now rewrite IH.
Qed.

Lemma sorted_isort (l : list string) : sorted l = isort String.leb l.
Proof.
  induction l as [|x l IH]; [reflexivity|].
  unfold sorted, isort in *. cbn [fold_right].
  now rewrite IH, insert_sorted_insert_by.
Qed.

Lemma sorted_sorted (l : list string) :
  StronglySorted (fun a b => String.leb a b = true) (sorted l).
Proof.
  rewrite sorted_isort.
  apply (isort_sorted String.leb String.leb string_leb_trans); [auto|].
  intros x y E. destruct (String.leb_total x y) as [H|H]; [congruence|exact H].
Qed.

Lemma StronglySorted_map {X Y} (f : X -> Y) (rel : X -> X -> Prop)
  (rel' : Y -> Y -> Prop) (l : list X) :
  (forall a b, rel a b -> rel' (f a) (f b)) ->
  StronglySorted rel l -> StronglySorted rel' (map f l).
Proof.
  intros Hf. induction 1 as [|a l _ IH Ha]; cbn [map]; constructor;
    [exact IH|].
  apply Forall_forall. intros y Hy. apply in_map_iff in Hy as (b & <- & Hb).
  rewrite Forall_forall in Ha. auto.
Qed.

Lemma forallb_false {X} (f : X -> bool) (l : list X) :
  forallb f l = false -> exists x, In x l /\ f x = false.
Proof.
  induction l as [|a l IH]; [discriminate|]. cbn [forallb].
  destruct (f a) eqn:E.
  - intros H. destruct (IH H) as (x & Hx & Hf). exists x. split; [now right|exact Hf].
  - intros _. exists a. split; [now left|exact E].
Qed.

Lemma texts_of_cells (l : list cell) :
  forallb (fun c => match c with Some _ => true | None => false end) l = true ->
  map Some (flat_map (fun c => match c with Some s => [s] | None => [] end) l) = l.
Proof.
  induction l as [|[s|] l IH]; [reflexivity| |discriminate].
  cbn [forallb flat_map app map andb]. intros H. now rewrite IH.
Qed.

Lemma nulls_once (l : list cell) :
  forallb (fun c => match c with Some _ => false | None => true end) l = true ->
  NoDup l -> l = [] \/ l = [None].
Proof.
  destruct l as [|[s|] [|[s'|] r]]; try discriminate; auto.
  intros _ H. inversion H as [|? ? Hn _]. exfalso. apply Hn. now left.
Qed.

Section ProfileIds.

Context {DL : DateLib}.

(** X16. The profile ids offered by the sidebar.  Without a Dataset the
    list is empty.  With a Dataset whose profile ids are all texts it is
    the distinct ids, each once, in ascending order; when every id is
    null it is the single null; when nulls and texts are mixed, sorted
    cannot compare them and the call fails. *)
Theorem X16_profile_ids (df : DataFrame) :
  let ids := map Profile_id df in
  get_profile_ids None = Some [] /\
  match get_profile_ids (Some df) with
  | Some out =>
      (forall c, In c out <-> In c ids) /\
      NoDup out /\
      StronglySorted
        (fun a b => exists x y,
           a = Some x /\ b = Some y /\ String.leb x y = true) out /\
      (In None ids -> out = [None])
  | None => In None ids /\ exists s, In (Some s) ids
  end.
Proof.
  intros ids. split; [reflexivity|].
  unfold get_profile_ids, sorted_cells. fold ids.
  pose proof (unique_In cell_same cell_same_eq ids) as Hin.
  pose proof (unique_NoDup cell_same cell_same_eq ids) as Hnd.
  set (u := unique cell_same ids) in *.
  destruct (forallb (fun c => match c with Some _ => true | None => false end) u)
    eqn:Etext.
  - pose proof (texts_of_cells u Etext) as Hu.
    set (texts := flat_map (fun c => match c with
                                     | Some s => [s]
                                     | None => []
                                     end) u) in *.
    assert (Hperm : Permutation u (map Some (sorted texts))).
    { rewrite <- Hu at 1. apply Permutation_map, sorted_perm. }
    split; [|split; [|split]].
    + intros c. rewrite <- Hin. split; intros H.
      * now apply (Permutation_in _ (Permutation_sym Hperm)).
      * now apply (Permutation_in _ Hperm).
    + now apply (Permutation_NoDup Hperm).
    + apply (StronglySorted_map Some (fun a b => String.leb a b = true));
        [|apply sorted_sorted].
      intros a b H. now exists a, b.
    + intros H. apply Hin in H. rewrite forallb_forall in Etext.
      specialize (Etext None H). discriminate.
  - destruct (forallb (fun c => match c with Some _ => false | None => true end) u)
      eqn:Enull.
    + split; [exact Hin|]. split; [exact Hnd|].
      destruct (nulls_once u Enull Hnd) as [E|E]; rewrite E.
      * split; [constructor|]. intros H. apply Hin in H. now rewrite E in H.
      * split; [|reflexivity]. constructor; constructor.
    + apply forallb_false in Etext as ([s|] & Hc & Hf); [discriminate|].
      apply forallb_false in Enull as ([s|] & Hc' & Hf'); [|discriminate].
      split; [now apply Hin|]. exists s. now apply Hin.
Qed.

End ProfileIds.

(* ------------------------------------------------------------------ *)
(** ** The charts *)

Section Charts.

Context {DL : DateLib} {SK : SortKind}.
Hypothesis sort_ok : SortContract SK.

Lemma sort_values_by_perm {R} (key : R -> nat) (df : list R) :
  Permutation df (sort_values_by key df).
Proof using sort_ok. apply (argsort_perm SK sort_ok). Qed.

Lemma sort_values_by_sorted {R} (key : R -> nat) (df : list R) :
  StronglySorted (fun a b => key a <= key b) (sort_values_by key df).
Proof using sort_ok.
  apply (StronglySorted_impl (fun a b => Nat.leb (key a) (key b) = true)).
  - intros a b. apply Nat.leb_le.
  - apply (argsort_sorted SK sort_ok).
    + intros x y. rewrite !Nat.leb_le. lia.
    + intros x y z. rewrite !Nat.leb_le. lia.
Qed.

Lemma lot_numbers_of_table (d : DataFrame) (lots : list LotRow) :
  mapM (lot_entry d) (unique cell_same (map Lot d)) = Ok lots ->
  map Lot_Number lots = unique cell_same (map Lot d).
Proof using Type.
  intros H. apply mapM_Ok_Forall2 in H.
  rewrite <- (map_id (unique cell_same (map Lot d))).
  apply Forall2_map_eq. apply Forall2_flip.
  eapply Forall2_impl; [|exact H].
  intros k row E. cbv beta.
  destruct (lot_entry_Ok d k) as (row' & E' & Hk & _).
  rewrite E in E'. injection E' as <-. exact Hk.
Qed.

(** X17. The chart of the lots page, drawn from what the Lot Summary
    returns.  There is no chart exactly when there is no summary.
    Otherwise the chart shows min(20, number of lots) lots of the summary,
    each once, in ascending order of total runs, and the bar and the point
    of a lot carry that lot's own total and percentage. *)
Theorem X17_top_lots_chart (df : DataFrame) (p : option string)
  (lots top : option (list LotRow)) :
  lot_specific_analysis (Some df) p = Ok (lots, top) ->
  match create_top_lots_chart top with
  | None => filter_profile p df = [] /\ lots = None
  | Some fig =>
      exists all rows,
        lots = Some all /\
        length rows = Nat.min 20 (length all) /\
        incl rows all /\
        NoDup (map Lot_Number rows) /\
        StronglySorted (fun a b => lot_Total_Runs a <= lot_Total_Runs b) rows /\
        trace_x (fig_bars fig) = map lot_Total_Runs rows /\
        trace_y (fig_bars fig) = map Lot_Number rows /\
        trace_x (fig_line fig) = map lot_Invalid_Indeterminate_pct rows /\
        trace_y (fig_line fig) = map Lot_Number rows
  end.
Proof using sort_ok.
  intros H. destruct (empty (filter_profile p df)) eqn:He.
  - apply empty_true_iff in He.
    rewrite (lot_specific_analysis_empty df p He) in H.
    injection H as <- <-. cbn [create_top_lots_chart]. now split.
  - apply empty_false_iff in He.
    destruct (lot_specific_analysis_populated df p He) as (all & E & Hne & E').
    set (sorted_lots := sort_values_desc lot_Total_Runs all) in E'.
    pose proof (sort_values_desc_perm sort_ok lot_Total_Runs all) as Hperm.
    fold sorted_lots in Hperm.
    remember (firstn 20 sorted_lots) as top_lots eqn:Etop.
    rewrite E' in H. injection H as <- <-.
    assert (Hlen : length top_lots = Nat.min 20 (length all)).
    { rewrite Etop, length_firstn. now rewrite <- (Permutation_length Hperm). }
    unfold create_top_lots_chart.
    destruct (empty top_lots) eqn:Et.
    { apply empty_true_iff in Et. rewrite Et in Hlen.
      destruct all; [congruence|discriminate]. }
    cbv beta iota zeta.
    set (rows := sort_values_by lot_Total_Runs top_lots).
    pose proof (sort_values_by_perm lot_Total_Runs top_lots) as Hrows.
    fold rows in Hrows.
    exists all, rows. cbn [fig_bars fig_line trace_x trace_y].
    split; [reflexivity|]. split.
    { now rewrite <- (Permutation_length Hrows). }
    split.
    { intros row Hrow.
      apply (Permutation_in _ (Permutation_sym Hrows)) in Hrow.
      apply (Permutation_in _ (Permutation_sym Hperm)).
      rewrite <- (firstn_skipn 20 sorted_lots), <- Etop.
      apply in_or_app. now left. }
    split.
    { apply (Permutation_NoDup (Permutation_map Lot_Number Hrows)).
      rewrite Etop, <- firstn_map. apply NoDup_firstn.
      apply (Permutation_NoDup (Permutation_map Lot_Number Hperm)).
      rewrite (lot_numbers_of_table _ _ E).
      apply unique_NoDup, cell_same_eq. }
    split; [apply sort_values_by_sorted|]. repeat split.
Qed.

(** X18. The two charts of the trend page, drawn from what Trend Analysis
    returns: both are absent when no row is left after the filters, and
    both are drawn otherwise.  In a chart the line has a point on every
    bar, no point lies above its bar, and the bars add up to the number of
    filtered rows. *)
Theorem X18_trend_charts (df : DataFrame) (p l : option string)
  (monthly_data weekly_data : option (list TrendRow)) :
  trend_analysis (Some df) p l = Ok (monthly_data, weekly_data) ->
  let d := filter_lab l (filter_profile p df) in
  let drawn (fig : Figure Timestamp nat Timestamp nat) :=
    trace_x (fig_line fig) = trace_x (fig_bars fig) /\
    Forall2 (fun bar point => point <= bar)
      (trace_y (fig_bars fig)) (trace_y (fig_line fig)) /\
    list_sum (trace_y (fig_bars fig)) = length d in
  match create_monthly_trend_chart monthly_data,
        create_weekly_trend_chart weekly_data with
  | None, None => d = []
  | Some monthly_chart, Some weekly_chart =>
      d <> [] /\ drawn monthly_chart /\ drawn weekly_chart
  | _, _ => False
  end.
Proof using sort_ok.
  intros H d drawn.
  assert (Hdrawn : forall bar_color line_color title xaxis_title table,
            table <> [] ->
            list_sum (map trend_Total_Runs table) = length d ->
            Forall (fun row => trend_Total_Invalid_Indeterminate row
                               <= trend_Total_Runs row) table ->
            exists fig,
              create_trend_chart bar_color line_color title xaxis_title
                (Some table) = Some fig /\ drawn fig).
  { intros bc lc t xt table Hne Hsum Hle. unfold create_trend_chart.
    destruct table as [|row table]; [congruence|]. cbn [empty].
    eexists. split; [reflexivity|]. unfold drawn.
    cbn [fig_bars fig_line trace_x trace_y].
    split; [reflexivity|]. split; [|exact Hsum].
    clear Hsum Hne. induction Hle; cbn [map]; constructor; assumption. }
  destruct (trend_analysis_Ok sort_ok df p l _ H)
    as [[Hd E]|(He & m & w & E & _)]; injection E as -> ->.
  - exact Hd.
  - fold d in He.
    destruct (trend_analysis_steps df p l _ _ H)
      as (monthly & keys & weekly & Em & -> & Ek & Ew & ->).
    fold d in Em, Ek, Ew.
    assert (Hpm : map snd (map (fun g => (group_key g ++ "-01", g))
                             (groupby_agg Month d)) = groupby_agg Month d).
    { rewrite map_map. apply map_id. }
    assert (Hpw : map snd (combine keys (groupby_agg Week d))
                  = groupby_agg Week d).
    { apply map_snd_combine. now apply mapM_Ok_length in Ek. }
    destruct (trend_table_totals sort_ok Month d _ _ _ Hpm Em)
      as (Sm & _ & _ & Fm).
    destruct (trend_table_totals sort_ok Week d _ _ _ Hpw Ew)
      as (Sw & _ & _ & Fw).
    assert (Hnonempty : forall table,
              list_sum (map trend_Total_Runs table) = length d -> table <> []).
    { intros table Hs ->. cbn in Hs. destruct d; [congruence|discriminate]. }
    unfold create_monthly_trend_chart, create_weekly_trend_chart.
    destruct (Hdrawn "#4E79A7" "#F28E2B" "Monthly Trend Analysis" "Month"
                (sort_by_date monthly)) as (fm & -> & Dm).
    { now apply Hnonempty. }
    { exact Sm. }
    { eapply Forall_impl; [|exact Fm]. intros row Hrow. apply Hrow. }
    destruct (Hdrawn "#76B7B2" "#E15759" "Weekly Trend Analysis" "Week"
                (sort_by_date weekly)) as (fw & -> & Dw).
    { now apply Hnonempty. }
    { exact Sw. }
    { eapply Forall_impl; [|exact Fw]. intros row Hrow. apply Hrow. }
    split; [exact He|]. split; assumption.
Qed.

End Charts.
(* ------------------------------------------------------------------ *)
(** ** Floats and date formats on concrete inputs *)

(** X21. A percentage at a tie.  Of 160 runs 23 are invalid: 14.375
    percent exactly, halfway between two hundredths.  In float64 the
    quotient times 100 comes out just under 14.375, and every view
    reports 14.37.  (The last ten runs of the lab are all valid.) *)
Theorem X21_rate_at_a_tie :
  (exact_percent 23 160 == 14375 # 1000)%Q /\
  match @profile_summary Calendar.dates (Some tie_runs) None,
        @lot_specific_analysis Calendar.dates stable_sort (Some tie_runs) None,
        @weekly_analysis Calendar.dates stable_sort (Some tie_runs) None None
  with
  | Ok (Some s, Some [lab]), Ok (Some [lot], Some [top]), Ok (Some [row]) =>
      Total_Runs s = 160 /\
      Total_Invalids s + Total_Indeterminates s = 23 /\
      (Overall_Invalid_Indeterminate_pct s == 1437 # 100)%Q /\
      (lab_Invalid_Indeterminate_pct lab == 1437 # 100)%Q /\
      (Last_10_runs_Invalid_Indeterminate_pct lab == 0)%Q /\
      (lot_Invalid_Indeterminate_pct lot == 1437 # 100)%Q /\
      (lot_Invalid_Indeterminate_pct top == 1437 # 100)%Q /\
      (wk_Invalid_Indeterminate_pct row == 1437 # 100)%Q
  | _, _, _ => False
  end.
Proof. vm_compute. repeat split. Qed.

(** X22. The date format is guessed once, from the first test time of
    the combined column.  After "03-04-2024 10:00:00", read month first,
    the text "13-04-2024 10:00:00" is not a date and its row is dropped;
    uploaded in the other order, both texts are read day first and both
    rows are kept; uploaded alone, each file gives its row. *)
Theorem X22_format_guessed_once :
  let a := one_row_file "03-04-2024 10:00:00" in
  let b := one_row_file "13-04-2024 10:00:00" in
  match @load_and_process_csv Calendar.dates [a; b],
        @load_and_process_csv Calendar.dates [b; a],
        @load_and_process_csv Calendar.dates [a],
        @load_and_process_csv Calendar.dates [b]
  with
  | Some ab, Some ba, Some only_a, Some only_b =>
      map Month ab = ["2024-03"] /\
      map Month ba = ["2024-04"; "2024-04"] /\
      map Month only_a = ["2024-03"] /\
      map Month only_b = ["2024-04"]
  | _, _, _, _ => False
  end.
Proof. vm_compute. repeat split. Qed.

(* ------------------------------------------------------------------ *)
(** ** The further properties on concrete inputs *)

(** X1 on a concrete input: the four sample runs fall in two months and
    three weeks. *)
Lemma X1_witness :
  exists monthly_data weekly_data,
    @trend_analysis Calendar.dates stable_sort (Some four_runs) None None
      = Ok (Some monthly_data, Some weekly_data) /\
    list_sum (map trend_Total_Runs monthly_data) = 4 /\
    list_sum (map trend_Total_Invalid weekly_data) = 3.
Proof.
  destruct (@trend_analysis Calendar.dates stable_sort (Some four_runs) None None)
    as [[[m|] [w|]]|e] eqn:E;
    try (apply (f_equal (fun r => match r with
                                  | Ok (Some _, Some _) => true
                                  | _ => false
                                  end)) in E; vm_compute in E; discriminate E).
  exists m, w. split; [reflexivity|].
  destruct (@X1_trend_counts_add_up Calendar.dates stable_sort
              stable_sort_contract four_runs None None m w E)
    as ((Hm & _) & (_ & Hw & _)).
  split; [exact Hm|exact Hw].
Defined.

(** X2 on a concrete input: the two months of the four sample runs. *)
Lemma X2_witness :
  exists monthly_data weekly_data,
    @trend_analysis Calendar.dates stable_sort (Some four_runs) None None
      = Ok (Some monthly_data, Some weekly_data) /\
    StronglySorted
      (fun a b => @ts_leb Calendar.dates (trend_date a) (trend_date b) = true)
      monthly_data /\
    length monthly_data = 2 /\ length weekly_data = 3.
Proof.
  destruct (@trend_analysis Calendar.dates stable_sort (Some four_runs) None None)
    as [[[m|] [w|]]|e] eqn:E;
    try (apply (f_equal (fun r => match r with
                                  | Ok (Some _, Some _) => true
                                  | _ => false
                                  end)) in E; vm_compute in E; discriminate E).
  exists m, w. split; [reflexivity|].
  destruct (@X2_trend_tables_chronological Calendar.dates stable_sort
              stable_sort_contract four_runs None None m w)
    as (Hs & Hm & _ & _ & Hw & _).
  - intros x y. cbn. rewrite !Z.leb_le. lia.
  - intros x y z. cbn. rewrite !Z.leb_le. lia.
  - exact E.
  - split; [exact Hs|]. split; [exact Hm|exact Hw].
Defined.

(** X3 on a concrete input: three of the four sample runs name a lot. *)
Lemma X3_witness :
  exists lots top,
    @lot_specific_analysis Calendar.dates stable_sort (Some four_runs) None
      = Ok (Some lots, top) /\
    list_sum (map lot_Total_Runs lots) = 3 /\
    list_sum (map lot_Total_Invalid_Indeterminate lots) = 2.
Proof.
  destruct (@lot_specific_analysis Calendar.dates stable_sort (Some four_runs) None)
    as [[[lots|] top]|e] eqn:E;
    try (apply (f_equal (fun r => match r with
                                  | Ok (Some _, _) => true
                                  | _ => false
                                  end)) in E; vm_compute in E; discriminate E).
  exists lots, top. split; [reflexivity|].
  destruct (@X3_lot_summary_totals Calendar.dates stable_sort four_runs None
              lots top E) as (Hr & Hb & _).
  split; [exact Hr|exact Hb].
Defined.

(** X4 on a concrete input: the run without a lab name is in the total
    and in no row of the lab table. *)
Lemma X4_witness :
  exists s labs,
    @profile_summary Calendar.dates (Some four_runs) (Some "P1")
      = Ok (Some s, Some labs) /\
    Total_Runs s = list_sum (map Total_Tests labs) + 1.
Proof.
  destruct (@profile_summary Calendar.dates (Some four_runs) (Some "P1"))
    as [[[s|] [labs|]]|e] eqn:E;
    try (apply (f_equal (fun r => match r with
                                  | Ok (Some _, Some _) => true
                                  | _ => false
                                  end)) in E; vm_compute in E; discriminate E).
  exists s, labs. split; [reflexivity|].
  destruct (@X4_profile_summary_totals Calendar.dates four_runs (Some "P1")
              s labs E) as (Hr & _).
  exact Hr.
Defined.

(** X5 on a concrete input: lab A of the three sample runs has two runs. *)
Lemma X5_witness :
  exists s labs row,
    @profile_summary Calendar.dates (Some three_runs) None
      = Ok (Some s, Some labs) /\
    hd_error labs = Some row /\
    Last_10_runs_Invalid_Indeterminate_pct row = lab_Invalid_Indeterminate_pct row.
Proof.
  destruct (@profile_summary Calendar.dates (Some three_runs) None)
    as [[[s|] [[|row labs]|]]|e] eqn:E;
    try (apply (f_equal (fun r => match r with
                                  | Ok (Some _, Some (_ :: _)) => true
                                  | _ => false
                                  end)) in E; vm_compute in E; discriminate E).
  exists s, (row :: labs), row. split; [reflexivity|]. split; [reflexivity|].
  apply (@X5_last_10_of_a_small_lab Calendar.dates three_runs None
           s (row :: labs) row E); [now left|].
  assert (Ht : Total_Tests row = 2).
  { apply (f_equal (fun r => match r with
                             | Ok (_, Some (row :: _)) => Total_Tests row
                             | _ => 0
                             end)) in E.
    vm_compute in E. symmetry. exact E. }
  rewrite Ht. repeat constructor.
Defined.

(** X6 on a concrete input: three of the four sample runs name a lab. *)
Lemma X6_witness :
  exists rows,
    @weekly_analysis Calendar.dates stable_sort (Some four_runs) None None
      = Ok (Some rows) /\
    list_sum (map wk_Total_Runs rows) = 3.
Proof.
  destruct (@weekly_analysis Calendar.dates stable_sort (Some four_runs) None None)
    as [[rows|]|e] eqn:E;
    try (apply (f_equal (fun r => match r with
                                  | Ok (Some _) => true
                                  | _ => false
                                  end)) in E; vm_compute in E; discriminate E).
  exists rows. split; [reflexivity|].
  destruct (@X6_weekly_totals Calendar.dates stable_sort stable_sort_contract
              four_runs None None rows E) as (Hr & _).
  exact Hr.
Defined.

(** X7 on a concrete input: the first row of the weekly table of the three
    sample runs. *)
Lemma X7_witness :
  exists rows row,
    @weekly_analysis Calendar.dates stable_sort (Some three_runs) None None
      = Ok (Some rows) /\
    hd_error rows = Some row /\
    exists r year week_num,
      In r three_runs /\
      getitem (str_split "-" (Week r)) 0 = Ok year /\
      getitem (str_split "-" (Week r)) 1 = Ok week_num /\
      wk_Week row = year ++ " Week " ++ week_num.
Proof.
  destruct (@weekly_analysis Calendar.dates stable_sort (Some three_runs) None None)
    as [[[|row rows]|]|e] eqn:E;
    try (apply (f_equal (fun r => match r with
                                  | Ok (Some (_ :: _)) => true
                                  | _ => false
                                  end)) in E; vm_compute in E; discriminate E).
  exists (row :: rows), row. split; [reflexivity|]. split; [reflexivity|].
  destruct (@X7_weekly_labels Calendar.dates stable_sort stable_sort_contract
              three_runs None None (row :: rows) row E (or_introl eq_refl))
    as (r & year & week_num & Hr & H0 & H1 & Hl & _).
  exists r, year, week_num. repeat split; assumption.
Defined.

(** X8 on a concrete input: the first call in a fresh session. *)
Lemma X8_witness :
  cache_ok (cache (snd (@profile_id_analysis Calendar.dates (Some 0%Z)
                          (Some "P1") (fresh_session three_runs)))) /\
  session_data (snd (@profile_id_analysis Calendar.dates (Some 0%Z)
                       (Some "P1") (fresh_session three_runs)))
    = Some three_runs.
Proof.
  destruct (@X8_cache_invariant Calendar.dates (Some 0%Z) (Some "P1")
              (fresh_session three_runs)) as (Hc & Hd & _).
  - split; [apply Nat.le_0_l|constructor].
  - split; [exact Hc|exact Hd].
Defined.

(** X11 on a concrete input: a file with a named header is read once. *)
Lemma X11_witness :
  load_file (one_row_file "2024-01-05 08:00:00") =
    Ok (select_columns
          (mkRawFrame ten_columns
             [[Some "2024-01-05 08:00:00"; Some "P1"; None; Some "Detected";
               Some "Valid"; Some "A"; None; None; Some "TL-1"; Some "L1"]])) /\
  all_isinstance_int ten_columns = false.
Proof.
  pose proof (X11_header_test (one_row_file "2024-01-05 08:00:00") _ eq_refl)
    as H.
  cbv zeta in H.
  destruct (all_startswith_Unnamed _) as [[|]|e] eqn:E;
    try (vm_compute in E; discriminate E).
  destruct H as (_ & Hint & Hload). split; [exact Hload|exact Hint].
Defined.

(** X12 on a concrete input: the unreadable second file of three. *)
Lemma X12_witness :
  @load_and_process_csv Calendar.dates three_files =
  @load_and_process_csv Calendar.dates
    [one_row_file "2024-01-05 08:00:00"; one_row_file "2024-02-07 09:00:00"].
Proof.
  exact (@X12_failing_file_is_skipped Calendar.dates
           [one_row_file "2024-01-05 08:00:00"]
           [one_row_file "2024-02-07 09:00:00"]
           unreadable_file ValueError eq_refl).
Defined.

(** X13 on a concrete input: a batch of one file and a batch of an
    unreadable file and a readable one, both with dates written year
    first. *)
Lemma X13_witness :
  @load_and_process_csv Calendar.dates three_files =
    match @load_and_process_csv Calendar.dates
            [one_row_file "2024-01-05 08:00:00"],
          @load_and_process_csv Calendar.dates
            [unreadable_file; one_row_file "2024-02-07 09:00:00"] with
    | Some d1, Some d2 => Some (d1 ++ d2)%list
    | Some d, None | None, Some d => Some d
    | None, None => None
    end.
Proof.
  apply (@X13_batches_concatenate Calendar.dates
           [one_row_file "2024-01-05 08:00:00"]
           [unreadable_file; one_row_file "2024-02-07 09:00:00"]).
  intros s1 s2 H1 H2. vm_compute in H1, H2.
  injection H1 as <-. injection H2 as <-. vm_compute. reflexivity.
Defined.


(** X17 on a concrete input: the chart of the two lots of the three sample
    runs. *)
Lemma X17_witness :
  exists lots top fig,
    @lot_specific_analysis Calendar.dates stable_sort (Some three_runs) None
      = Ok (lots, top) /\
    create_top_lots_chart (SK := stable_sort) top = Some fig /\
    trace_y (fig_bars fig) = trace_y (fig_line fig) /\
    length (trace_x (fig_bars fig)) = 2.
Proof.
  destruct (@lot_specific_analysis Calendar.dates stable_sort (Some three_runs) None)
    as [[lots top]|e] eqn:E;
    [|apply (f_equal (fun r => match r with
                               | Ok _ => true
                               | Raise _ => false
                               end)) in E; vm_compute in E; discriminate E].
  pose proof (@X17_top_lots_chart Calendar.dates stable_sort
                stable_sort_contract three_runs None lots top E) as H.
  destruct (create_top_lots_chart (SK := stable_sort) top) as [fig|] eqn:C.
  - exists lots, top, fig. split; [reflexivity|]. split; [exact C|].
    destruct H as (all & rows & Hl & Hlen & _ & _ & _ & Hbx & Hby & _ & Hly).
    split; [now rewrite Hby, Hly|].
    rewrite Hbx, length_map, Hlen.
    rewrite Hl in E.
    apply (f_equal (fun r => match r with
                             | Ok (Some all, _) => Nat.min 20 (length all)
                             | _ => 0
                             end)) in E.
    vm_compute in E. symmetry. exact E.
  - destruct H as [H _]. discriminate H.
Defined.

(** X18 on a concrete input: the two charts of the three sample runs. *)
Lemma X18_witness :
  exists monthly_data weekly_data monthly_chart weekly_chart,
    @trend_analysis Calendar.dates stable_sort (Some three_runs) None None
      = Ok (monthly_data, weekly_data) /\
    create_monthly_trend_chart monthly_data = Some monthly_chart /\
    create_weekly_trend_chart weekly_data = Some weekly_chart /\
    list_sum (trace_y (fig_bars monthly_chart)) = 3 /\
    list_sum (trace_y (fig_bars weekly_chart)) = 3.
Proof.
  destruct (@trend_analysis Calendar.dates stable_sort (Some three_runs) None None)
    as [[m w]|e] eqn:E;
    [|apply (f_equal (fun r => match r with
                               | Ok _ => true
                               | Raise _ => false
                               end)) in E; vm_compute in E; discriminate E].
  pose proof (@X18_trend_charts Calendar.dates stable_sort stable_sort_contract
                three_runs None None m w E) as H.
  cbv zeta in H.
  destruct (create_monthly_trend_chart m) as [fm|] eqn:Cm;
    destruct (create_weekly_trend_chart w) as [fw|] eqn:Cw;
    try (exfalso; exact H).
  - exists m, w, fm, fw. split; [reflexivity|].
    split; [exact Cm|]. split; [exact Cw|].
    destruct H as (_ & (_ & _ & Hm) & (_ & _ & Hw)).
    split; [exact Hm|exact Hw].
  - discriminate H.
Defined.

(** X19 on a concrete input: the three sample runs, labs A and B. *)
Lemma X19_witness :
  exists rows,
    @weekly_analysis Calendar.dates stable_sort (Some three_runs) None None
      = Ok (Some rows) /\
    StronglySorted (fun a b => key_leb wk_Lab_Name a b = true) rows.
Proof.
  pose proof (@X19_weekly_sorted_by_lab Calendar.dates stable_sort stable_sort_contract
                three_runs None None) as H.
  cbv zeta in H.
  destruct (@weekly_analysis Calendar.dates stable_sort (Some three_runs) None None)
    as [[rows|]|e] eqn:E.
  - exists rows. split; [reflexivity|]. apply H.
  - vm_compute in E. discriminate.
  - vm_compute in E. discriminate.
Defined.

(** X20 on a concrete input: one run whose week key is "202401". *)
Lemma X20_witness :
  @weekly_analysis Calendar.dates stable_sort
    (Some [sample_row "P1" "Valid" "A" "L1" "2024-01" "202401"]) None None
  = Raise IndexError.
Proof.
  apply proj2 with
    (A := @date_range_of Calendar.dates "202401" = Ok "Week 202401").
  apply (@X20_week_key_without_dash Calendar.dates stable_sort
           [sample_row "P1" "Valid" "A" "L1" "2024-01" "202401"] None None
           (sample_row "P1" "Valid" "A" "L1" "2024-01" "202401")).
  - left. reflexivity.
  - reflexivity.
Defined.
